(** * gopher-uptime: the coordination-and-settlement engine

    A shallow embedding of the four programs of the engine, with its
    properties proved over the embedding:
    - the hub, [cmd/hub/main.go]: [Hub], [handleSignup], [handleValidate],
      [removeValidator], [startMonitoring], [createValidateCallback];
    - the payout request, [internal/handlers/user/handler.go]:
      [RequestPayout];
    - the payout worker, package [services] (the second file of
      [internal/models/models.go]): [processPayoutRequest],
      [executeSolanaTransfer], [waitForConfirmation];
    - the validator agent, the [ValidatorClient] program (the second file
      of [cmd/api/main.go]): [validateWebsite];
    over the models of [internal/models/models.go].

    Conventions.
    - A lamport amount ([float64] in Go, [decimal(20,2)] in the store) is a
      [Z]: every amount the engine writes is an integral number of lamports,
      and the additions ([pending_payouts + ?]) are made by the store.
    - The relational store is a record of tables; a GORM transaction is a
      working copy of the store that [Commit] installs and [Rollback] drops.
    - Whatever the outside world decides (a database fault, the outcome of a
      publish, of an RPC, of an HTTP request, a fresh UUID, the clock) is an
      explicit argument, gathered in one environment record per operation.
    - A closure is the record of the variables it captures.
    - The model is sequential: one handler, one cycle or one delivery at a
      time. *)

From Stdlib Require Import ZArith.
From stdpp Require Import gmap strings list fin_maps pretty.

Local Open Scope string_scope.
Local Open Scope list_scope.

(** [time.Second]: a [time.Duration] counts nanoseconds. *)
Definition Second : Z := 1000000000.

(* ===================================================================== *)
(** * Package [models] *)
(* ===================================================================== *)

Module Website.
Record t := mk {
  ID : string;
  URL : string;
  UserID : string;
  Disabled : bool;
}.
End Website.

Module Validator.
Record t := mk {
  ID : string;
  PublicKey : string;
  Location : string;
  IP : string;
  PendingPayouts : Z;
}.

Definition with_PendingPayouts (p : Z) (v : t) : t :=
  mk (ID v) (PublicKey v) (Location v) (IP v) p.
End Validator.

Module WebsiteTick.
Record t := mk {
  ID : string;
  WebsiteID : string;
  ValidatorID : string;
  Status : string;          (* Good or Bad *)
  Latency : Z;
  CreatedAt : Z;
}.
End WebsiteTick.

Module PayoutTransaction.
Record t := mk {
  ID : string;
  ValidatorID : string;
  Amount : Z;
  Status : string;          (* pending, processing, completed, failed *)
  TxSignature : string;
  ErrorMessage : string;
  CreatedAt : Z;
  UpdatedAt : Z;
}.
End PayoutTransaction.

(* ===================================================================== *)
(** * The store, as GORM sees it *)
(* ===================================================================== *)

(** One table per model, keyed by primary key where the code addresses rows
    by key; the tick table is an append-only log. *)
Record DB := mkDB {
  Websites : gmap string Website.t;
  Validators : gmap string Validator.t;
  WebsiteTicks : list WebsiteTick.t;
  PayoutTransactions : gmap string PayoutTransaction.t;
}.

Definition set_Validators (vs : gmap string Validator.t) (db : DB) : DB :=
  mkDB (Websites db) vs (WebsiteTicks db) (PayoutTransactions db).

Definition set_WebsiteTicks (ts : list WebsiteTick.t) (db : DB) : DB :=
  mkDB (Websites db) (Validators db) ts (PayoutTransactions db).

Definition set_PayoutTransactions
    (ps : gmap string PayoutTransaction.t) (db : DB) : DB :=
  mkDB (Websites db) (Validators db) (WebsiteTicks db) ps.

(** [db.Create(&tick)]. The statement fails on a database fault, on a
    duplicate primary key, and on a violated foreign key: [WebsiteTick]
    belongs to a [Website] and to a [Validator] (tags [foreignKey:WebsiteID]
    and [foreignKey:ValidatorID], [constraint:OnDelete:CASCADE]), and
    [database.AutoMigrate] migrates the models under a [gorm.Config] that
    leaves foreign key constraints on, so both references are constraints of
    the table. *)
Definition tick_pk_free (id : string) (db : DB) : bool :=
  bool_decide (id ∉ WebsiteTick.ID <$> WebsiteTicks db).

Definition tick_fk_ok (t : WebsiteTick.t) (db : DB) : bool :=
  bool_decide (is_Some (Websites db !! WebsiteTick.WebsiteID t))
  && bool_decide (is_Some (Validators db !! WebsiteTick.ValidatorID t)).

Definition Create_WebsiteTick (fault : bool) (t : WebsiteTick.t) (db : DB)
    : option DB :=
  if fault then None
  else if negb (tick_pk_free (WebsiteTick.ID t) db) then None
  else if negb (tick_fk_ok t db) then None
  else Some (set_WebsiteTicks (WebsiteTicks db ++ [t]) db).

(** [db.Create(&validator)]: primary key [ID]. (The unique index on
    [PublicKey] is checked by the caller's lookup.) *)
Definition Create_Validator (fault : bool) (v : Validator.t) (db : DB)
    : option DB :=
  if fault then None
  else match Validators db !! Validator.ID v with
       | Some _ => None
       | None => Some (set_Validators (<[Validator.ID v := v]> (Validators db)) db)
       end.

(** [db.Create(txRecord)]: primary key [ID], foreign key [ValidatorID]. *)
Definition Create_PayoutTransaction
    (fault : bool) (p : PayoutTransaction.t) (db : DB) : option DB :=
  if fault then None
  else match PayoutTransactions db !! PayoutTransaction.ID p with
       | Some _ => None
       | None =>
         if bool_decide (is_Some (Validators db !! PayoutTransaction.ValidatorID p))
         then Some (set_PayoutTransactions
                      (<[PayoutTransaction.ID p := p]> (PayoutTransactions db)) db)
         else None
       end.

(** [db.Model(&models.Validator{}).Where("id = ?", id).
      UpdateColumn("pending_payouts", gorm.Expr("pending_payouts + ?", amount))]:
    one UPDATE statement; it touches no row when the id is unknown. *)
Definition add_pending_payouts (id : string) (amount : Z) (db : DB) : DB :=
  set_Validators
    (alter (λ v, Validator.with_PendingPayouts (Validator.PendingPayouts v + amount) v)
           id (Validators db))
    db.

(** [tx.Model(&validator).Update("pending_payouts", x)]. *)
Definition set_pending_payouts (id : string) (x : Z) (db : DB) : DB :=
  set_Validators (alter (Validator.with_PendingPayouts x) id (Validators db)) db.

(** [db.Where("public_key = ?", pk).First(&validator)]. *)
Definition First_Validator_by_public_key (pk : string) (db : DB)
    : option Validator.t :=
  (λ hit, snd (snd hit))
    <$> list_find (λ kv : string * Validator.t, Validator.PublicKey (snd kv) = pk)
                  (map_to_list (Validators db)).

(** [db.Where("disabled = ?", false).Find(&websites)]. *)
Definition Find_active_Websites (db : DB) : list Website.t :=
  filter (λ w, Website.Disabled w = false) (snd <$> map_to_list (Websites db)).

(** The pending credit of a validator, and the ticks recorded for it. *)
Definition pending_of (id : string) (db : DB) : option Z :=
  Validator.PendingPayouts <$> Validators db !! id.

Definition ticks_for (id : string) (ts : list WebsiteTick.t) : list WebsiteTick.t :=
  filter (λ t, WebsiteTick.ValidatorID t = id) ts.

(* ===================================================================== *)
(** * The hub ([cmd/hub/main.go]) *)
(* ===================================================================== *)

Definition COST_PER_VALIDATION : Z := 100. (* lamports *)

(** A [*websocket.Conn] is known by its identity only. *)
Definition Conn := nat.

Module ValidatorConnection.
Record t := mk {
  ValidatorID : string;
  PublicKey : string;
  Conn : Conn;
}.
End ValidatorConnection.

Module SignupIncoming.
Record t := mk {
  IP : string;
  PublicKey : string;
  SignedMessage : string;
  CallbackID : string;
}.
End SignupIncoming.

Module ValidateIncoming.
Record t := mk {
  CallbackID : string;
  Status : string;
  Latency : Z;
  ValidatorID : string;
  WebsiteID : string;
  SignedMessage : string;
}.
End ValidateIncoming.

(** [json.RawMessage]: the undecoded [data] member of a frame, represented
    by what [json.Unmarshal] makes of it for each of the two structs the hub
    decodes it into ([None]: the decoder returns an error). *)
Module RawMessage.
Record t := mk {
  asSignup : option SignupIncoming.t;
  asValidate : option ValidateIncoming.t;
}.
End RawMessage.

Module IncomingMessage.
Record t := mk {
  Type_ : string;
  Data : RawMessage.t;
}.
End IncomingMessage.

(** The two [Data] maps the hub writes. *)
Inductive OutgoingData :=
  | SignupReply (validatorId callbackId : string)
  | ValidateTask (url callbackId websiteId : string).

Module OutgoingMessage.
Record t := mk {
  Type_ : string;
  Data : OutgoingData;
}.
End OutgoingMessage.

(** The closure [createValidateCallback] returns: its captured variables. *)
Module Callback.
Record t := mk {
  websiteID : string;
  validatorPublicKey : string;
}.
End Callback.

Record Hub := mkHub {
  db : DB;
  validators : gmap string ValidatorConnection.t;
  callbacks : gmap string Callback.t;
}.

Definition NewHub (db : DB) : Hub := mkHub db ∅ ∅.

(** What a hub operation does besides changing the hub: the handlers it
    registers, the handlers it calls and the frames it writes, in order. *)
Inductive Effect :=
  | Registered (callbackID : string) (cb : Callback.t)
  | Invoked (cb : Callback.t) (msg : IncomingMessage.t)
  | WriteJSON (conn : Conn) (msg : OutgoingMessage.t).

(** What the world decides while a reply handler runs. *)
Record CallbackEnv := mkCallbackEnv {
  tick_uuid : string;        (* uuid.New().String() *)
  tick_now : Z;              (* time.Now() *)
  tick_create_fault : bool;  (* tx.Create(&tick).Error != nil *)
  tick_update_fault : bool;  (* the UpdateColumn statement fails *)
  tick_commit_fault : bool;  (* tx.Commit().Error != nil *)
}.

Definition createValidateCallback (websiteID validatorPublicKey : string)
    : Callback.t :=
  Callback.mk websiteID validatorPublicKey.

(** The body of the closure. *)
Definition callback_run (cb : Callback.t) (env : CallbackEnv)
    (msg : IncomingMessage.t) (db : DB) : DB :=
  match RawMessage.asValidate (IncomingMessage.Data msg) with
  | None => db
  | Some validate =>
    (* tx := h.db.Begin() *)
    let tx := db in
    let tick := WebsiteTick.mk (tick_uuid env)
                               (Callback.websiteID cb)
                               (ValidateIncoming.ValidatorID validate)
                               (ValidateIncoming.Status validate)
                               (ValidateIncoming.Latency validate)
                               (tick_now env) in
    match Create_WebsiteTick (tick_create_fault env) tick tx with
    | None => db (* tx.Rollback() *)
    | Some tx =>
      if tick_update_fault env then db (* tx.Rollback() *)
      else
        let tx := add_pending_payouts (ValidateIncoming.ValidatorID validate)
                                      COST_PER_VALIDATION tx in
        if tick_commit_fault env then db else tx
    end
  end.

Definition handleValidate (env : CallbackEnv) (data : RawMessage.t) (h : Hub)
    : Hub * list Effect :=
  match RawMessage.asValidate data with
  | None => (h, [])
  | Some validate =>
    match callbacks h !! ValidateIncoming.CallbackID validate with
    | Some callback =>
      let msg := IncomingMessage.mk "validate" data in
      let db' := callback_run callback env msg (db h) in
      (mkHub db' (validators h)
             (delete (ValidateIncoming.CallbackID validate) (callbacks h)),
       [Invoked callback msg])
    | None => (h, [])
    end
  end.

(** What the world decides during a handshake. *)
Record SignupEnv := mkSignupEnv {
  signup_uuid : string;        (* uuid.New().String() *)
  signup_find_fault : bool;    (* First fails other than by ErrRecordNotFound *)
  signup_create_fault : bool;  (* h.db.Create(&validator).Error != nil *)
}.

Definition handleSignup (env : SignupEnv) (conn : Conn) (data : RawMessage.t)
    (h : Hub) : Hub * list Effect :=
  match RawMessage.asSignup data with
  | None => (h, [])
  | Some signup =>
    let store (validator : Validator.t) (db' : DB) :=
      (mkHub db'
             (<[Validator.ID validator :=
                  ValidatorConnection.mk (Validator.ID validator)
                                         (Validator.PublicKey validator) conn]>
                (validators h))
             (callbacks h),
       [WriteJSON conn
          (OutgoingMessage.mk "signup"
             (SignupReply (Validator.ID validator)
                          (SignupIncoming.CallbackID signup)))]) in
    if signup_find_fault env then (h, [])
    else
      match First_Validator_by_public_key (SignupIncoming.PublicKey signup) (db h) with
      | Some validator => store validator (db h)
      | None =>
        let validator := Validator.mk (signup_uuid env)
                                      (SignupIncoming.PublicKey signup)
                                      "unknown"
                                      (SignupIncoming.IP signup)
                                      0 in
        match Create_Validator (signup_create_fault env) validator (db h) with
        | None => (h, [])
        | Some db' => store validator db'
        end
      end
  end.

Definition removeValidator (conn : Conn) (h : Hub) : Hub :=
  match list_find (λ kv : string * ValidatorConnection.t,
                     ValidatorConnection.Conn (snd kv) = conn)
                  (map_to_list (validators h)) with
  | Some (_, (id, _)) => mkHub (db h) (delete id (validators h)) (callbacks h)
  | None => h
  end.

(** What the world decides during one dispatch cycle; [cycle_uuid k] is the
    result of the [k]-th call of [uuid.New().String()] in the cycle. *)
Record CycleEnv := mkCycleEnv {
  cycle_find_fault : bool;     (* the Find statement fails *)
  cycle_uuid : nat → string;
}.

(** The body of the inner loop, for one website and one validator. The state
    is the number of UUIDs drawn so far, the hub and the effects so far. *)
Definition dispatch (env : CycleEnv) (website : Website.t)
    (st : nat * Hub * list Effect) (validator : ValidatorConnection.t)
    : nat * Hub * list Effect :=
  let '(n, h, log) := st in
  let callbackID := cycle_uuid env n in
  let cb := createValidateCallback (Website.ID website)
                                   (ValidatorConnection.PublicKey validator) in
  let msg := OutgoingMessage.mk "validate"
               (ValidateTask (Website.URL website) callbackID (Website.ID website)) in
  (S n,
   mkHub (db h) (validators h) (<[callbackID := cb]> (callbacks h)),
   log ++ [Registered callbackID cb;
           WriteJSON (ValidatorConnection.Conn validator) msg]).

(** One iteration of the [for range ticker.C] loop of [startMonitoring]. *)
Definition startMonitoring_cycle (env : CycleEnv) (h : Hub) : Hub * list Effect :=
  if cycle_find_fault env then (h, [])
  else
    let websites := Find_active_Websites (db h) in
    if bool_decide (length websites = 0%nat) then (h, [])
    else
      let validators := snd <$> map_to_list (validators h) in
      if bool_decide (length validators = 0%nat) then (h, [])
      else
        let '(_, h', log) :=
          foldl (λ st website, foldl (dispatch env website) st validators)
                (0%nat, h, []) websites in
        (h', log).

(** What a connection's read loop gets from [conn.ReadMessage] and the
    frame decoder. *)
Inductive Inbound :=
  | ReadError
  | Undecodable
  | Frame (msg : IncomingMessage.t).

(** One iteration of the read loop of [handleWebSocket]. *)
Definition handleWebSocket_step (senv : SignupEnv) (cenv : CallbackEnv)
    (conn : Conn) (inb : Inbound) (h : Hub) : Hub * list Effect :=
  match inb with
  | ReadError => (removeValidator conn h, [])
  | Undecodable => (h, [])
  | Frame msg =>
    if String.eqb (IncomingMessage.Type_ msg) "signup"
    then handleSignup senv conn (IncomingMessage.Data msg) h
    else if String.eqb (IncomingMessage.Type_ msg) "validate"
    then handleValidate cenv (IncomingMessage.Data msg) h
    else (h, [])
  end.

(** The hub process: connection read loops and the dispatch loop, one step
    at a time. *)
Inductive HubEvent :=
  | Received (senv : SignupEnv) (cenv : CallbackEnv) (conn : Conn) (inb : Inbound)
  | Ticked (env : CycleEnv).

Definition hub_step (h : Hub) (ev : HubEvent) : Hub :=
  match ev with
  | Received senv cenv conn inb => fst (handleWebSocket_step senv cenv conn inb h)
  | Ticked env => fst (startMonitoring_cycle env h)
  end.

Definition hub_run (evs : list HubEvent) (h : Hub) : Hub := foldl hub_step h evs.

(* ===================================================================== *)
(** * The payout queue *)
(* ===================================================================== *)

Module PayoutRequest.
Record t := mk {
  ValidatorID : string;
  Amount : Z;
  PublicKey : string;
}.
End PayoutRequest.

(** The body of a queue message, represented by what [json.Unmarshal]
    makes of it for [PayoutRequest] ([None]: the decoder returns an error). *)
Module Body.
Record t := mk {
  asPayoutRequest : option PayoutRequest.t;
}.
End Body.

(** [json.Marshal(payoutReq)]: three scalar members, which always encode;
    the encoding decodes to the request. *)
Definition json_Marshal (req : PayoutRequest.t) : option Body.t :=
  Some (Body.mk (Some req)).

Module Publishing.
Record t := mk {
  ContentType : string;
  Body : Body.t;
  Timestamp : Z;
}.
End Publishing.

(* ===================================================================== *)
(** * Package [user]: the payout request ([internal/handlers/user]) *)
(* ===================================================================== *)

Module user.

(** The handler's store and the queue [payout_queue] its channel
    publishes to. *)
Record Handler := mkHandler {
  db : DB;
  rabbitMQ : list Publishing.t;
}.

(** [utils.SuccessResponse(c, code, gin.H{status, message, amount})] and
    [utils.ErrorResponse(c, code, message)]. *)
Inductive Response :=
  | SuccessResponse (code : Z) (status message : string) (amount : Z)
  | ErrorResponse (code : Z) (message : string).

(** What the world decides while a payout request runs. *)
Record RequestEnv := mkRequestEnv {
  now : Z;                (* time.Now() *)
  find_fault : bool;      (* First fails other than by ErrRecordNotFound *)
  publish_fault : bool;   (* h.rabbitMQ.Publish returns an error *)
  update_fault : bool;    (* the Update statement fails *)
  commit_fault : bool;    (* tx.Commit().Error != nil *)
}.

Definition StatusOK : Z := 200.
Definition StatusNotFound : Z := 404.
Definition StatusInternalServerError : Z := 500.

(** [RequestPayout - POST /api/v1/payout/:validatorId]. The transaction
    [tx] is a working copy of [db h]: a return without [Commit] leaves
    [db h] as it was. A publish is not part of the transaction. *)
Definition RequestPayout (env : RequestEnv) (validatorID : string) (h : Handler)
    : Handler * Response :=
  (* tx := h.db.Begin() *)
  let tx := db h in
  if find_fault env
  then (h, ErrorResponse StatusInternalServerError "Database error")
  else
    match Validators tx !! validatorID with
    | None => (h, ErrorResponse StatusNotFound "Validator not found")
    | Some validator =>
      if (Validator.PendingPayouts validator <=? 0)%Z
      then (h, SuccessResponse StatusOK "cleared" "all payment cleared" 0)
      else
        let payoutReq := PayoutRequest.mk (Validator.ID validator)
                                          (Validator.PendingPayouts validator)
                                          (Validator.PublicKey validator) in
        match json_Marshal payoutReq with
        | None =>
          (h, ErrorResponse StatusInternalServerError "Failed to serialize request")
        | Some payoutJSON =>
          if publish_fault env
          then (h, ErrorResponse StatusInternalServerError "Failed to queue payout")
          else
            let queue := rabbitMQ h
                         ++ [Publishing.mk "application/json" payoutJSON (now env)] in
            if update_fault env
            then (mkHandler (db h) queue,
                  ErrorResponse StatusInternalServerError "Failed to update balance")
            else
              let tx := set_pending_payouts (Validator.ID validator) 0 tx in
              if commit_fault env
              then (mkHandler (db h) queue,
                    ErrorResponse StatusInternalServerError
                                  "Failed to commit transaction")
              else
                (mkHandler tx queue,
                 SuccessResponse StatusOK "queued"
                                 "Payout request queued for processing"
                                 (PayoutRequest.Amount payoutReq))
        end
    end.

End user.

(* ===================================================================== *)
(** * Package [services]: the payout worker *)
(* ===================================================================== *)

Module services.

Record PayoutWorker := mkPayoutWorker {
  db : DB;
}.

(** [amqp.Delivery], and what the worker answers it with:
    [delivery.Ack(false)] or [delivery.Nack(false, requeue)]. *)
Record Delivery := mkDelivery {
  Body : Body.t;
}.

Inductive Acknowledgement :=
  | Ack
  | Nack (requeue : bool).

(** How far [executeSolanaTransfer] gets: each step is a call into the
    Solana client library and may return an error. *)
Inductive TransferOutcome :=
  | BadRecipient (e : string)      (* solana.PublicKeyFromBase58 *)
  | NoBlockhash (e : string)       (* GetLatestBlockhash *)
  | NotBuilt (e : string)          (* solana.NewTransaction *)
  | NotSigned (e : string)         (* tx.Sign *)
  | NotSent (e : string)           (* SendTransactionWithOpts *)
  | Sent (sig : string).

Inductive ConfirmationStatusType :=
  | ConfirmationStatusProcessed
  | ConfirmationStatusConfirmed
  | ConfirmationStatusFinalized.

Record SignatureStatusesResult := mkStatus {
  ConfirmationStatus : ConfirmationStatusType;
  Err : option string;
}.

(** One [GetSignatureStatuses] call: an RPC error, or [status.Value[0]]
    ([None] when [len(status.Value) == 0] or the entry is nil). *)
Inductive PollReply :=
  | PollError (e : string)
  | PollValue (st : option SignatureStatusesResult).

(** What the world decides while one delivery is processed.
    [transfer recipient lamports] is the fate of the transfer of
    [uint64(req.Amount)] lamports; [polls signature timeout] lists the
    replies to the status queries made on the ticks that fire before the
    context deadline. *)
Record WorkerEnv := mkWorkerEnv {
  record_uuid : string;          (* uuid.New().String() *)
  clock : nat → Z;               (* the successive readings of time.Now() *)
  record_create_fault : bool;    (* w.db.Create(txRecord).Error != nil *)
  transfer : string → Z → TransferOutcome;
  polls : string → Z → list PollReply;
  status_update_fault : bool;    (* w.db.Model(txRecord).Updates(...) fails *)
  refund_fault : bool;           (* the UpdateColumn of the refund fails *)
  ack_fault : bool;              (* delivery.Ack / delivery.Nack fails *)
}.

Definition executeSolanaTransfer (env : WorkerEnv)
    (recipientPublicKey : string) (lamports : Z) : string * option string :=
  match transfer env recipientPublicKey lamports with
  | BadRecipient e => ("", Some ("invalid recipient public key: " +:+ e))
  | NoBlockhash e => ("", Some ("failed to get latest blockhash: " +:+ e))
  | NotBuilt e => ("", Some ("failed to create transaction: " +:+ e))
  | NotSigned e => ("", Some ("failed to sign transaction: " +:+ e))
  | NotSent e => ("", Some ("failed to send transaction: " +:+ e))
  | Sent sig => (sig, None)
  end.

(** The select loop of [waitForConfirmation], over the replies obtained
    before [ctx.Done()]. *)
Fixpoint confirmation_loop (replies : list PollReply) : bool * option string :=
  match replies with
  | [] => (false, Some "confirmation timeout")
  | PollError _ :: rest => confirmation_loop rest
  | PollValue None :: rest => confirmation_loop rest
  | PollValue (Some st) :: rest =>
    match ConfirmationStatus st with
    | ConfirmationStatusFinalized => (true, None)
    | _ =>
      match Err st with
      | Some e => (false, Some ("transaction failed: " +:+ e))
      | None => confirmation_loop rest
      end
    end
  end.

Definition waitForConfirmation (env : WorkerEnv) (signature : string)
    (timeout : Z) : bool * option string :=
  confirmation_loop (polls env signature timeout).

(** A statement outside any transaction whose result the worker does not
    read: it takes effect unless it fails, and the worker goes on either
    way. The status updates of the record and the refund are such
    statements, and so are [delivery.Ack] and [delivery.Nack]. *)
Definition unchecked (fault : bool) (statement : DB → DB) (db : DB) : DB :=
  if fault then db else statement db.

(** [w.db.Model(txRecord).Updates(map[string]interface{}{...})], for the
    three maps the worker writes. *)
Definition mark_failed (id err : string) (updated_at : Z) (db : DB) : DB :=
  set_PayoutTransactions
    (alter (λ r, PayoutTransaction.mk
                   (PayoutTransaction.ID r) (PayoutTransaction.ValidatorID r)
                   (PayoutTransaction.Amount r) "failed"
                   (PayoutTransaction.TxSignature r) err
                   (PayoutTransaction.CreatedAt r) updated_at)
           id (PayoutTransactions db))
    db.

Definition mark_failed_with_signature (id err signature : string)
    (updated_at : Z) (db : DB) : DB :=
  set_PayoutTransactions
    (alter (λ r, PayoutTransaction.mk
                   (PayoutTransaction.ID r) (PayoutTransaction.ValidatorID r)
                   (PayoutTransaction.Amount r) "failed"
                   signature err
                   (PayoutTransaction.CreatedAt r) updated_at)
           id (PayoutTransactions db))
    db.

Definition mark_completed (id signature : string) (updated_at : Z) (db : DB)
    : DB :=
  set_PayoutTransactions
    (alter (λ r, PayoutTransaction.mk
                   (PayoutTransaction.ID r) (PayoutTransaction.ValidatorID r)
                   (PayoutTransaction.Amount r) "completed"
                   signature (PayoutTransaction.ErrorMessage r)
                   (PayoutTransaction.CreatedAt r) updated_at)
           id (PayoutTransactions db))
    db.

(** [processPayoutRequest handles individual payout]. *)
Definition processPayoutRequest (env : WorkerEnv) (delivery : Delivery)
    (w : PayoutWorker) : PayoutWorker * Acknowledgement :=
  match Body.asPayoutRequest (Body delivery) with
  | None => (w, Nack false) (* Don't requeue malformed messages *)
  | Some req =>
    let txRecord :=
      PayoutTransaction.mk (record_uuid env)
                           (PayoutRequest.ValidatorID req)
                           (PayoutRequest.Amount req)
                           "processing" "" ""
                           (clock env 0%nat) (clock env 1%nat) in
    match Create_PayoutTransaction (record_create_fault env) txRecord (db w) with
    | None => (w, Nack true) (* Requeue *)
    | Some db1 =>
      match executeSolanaTransfer env (PayoutRequest.PublicKey req)
                                  (PayoutRequest.Amount req) with
      | (_, Some err) =>
        let db2 := unchecked (status_update_fault env)
                     (mark_failed (PayoutTransaction.ID txRecord) err
                                  (clock env 2%nat)) db1 in
        (* Refund validator's pending balance *)
        let db3 := unchecked (refund_fault env)
                     (add_pending_payouts (PayoutRequest.ValidatorID req)
                                          (PayoutRequest.Amount req)) db2 in
        (mkPayoutWorker db3, Nack false)
      | (signature, None) =>
        match waitForConfirmation env signature (30 * Second) with
        | (confirmed, err) =>
          if bool_decide (is_Some err) || negb confirmed
          then
            (mkPayoutWorker
               (unchecked (status_update_fault env)
                  (mark_failed_with_signature
                     (PayoutTransaction.ID txRecord)
                     "Transaction confirmation timeout" signature
                     (clock env 2%nat)) db1),
             Nack false)
          else
            (mkPayoutWorker
               (unchecked (status_update_fault env)
                  (mark_completed (PayoutTransaction.ID txRecord) signature
                                  (clock env 2%nat)) db1),
             Ack)
        end
      end
    end
  end.

End services.

(* ===================================================================== *)
(** * The validator agent ([cmd/validator/main.go]) *)
(* ===================================================================== *)

Module validator.

Record ValidatorClient := mkValidatorClient {
  keypair : string;
  validatorID : string;
}.

Module ValidateData.
Record t := mk {
  URL : string;
  CallbackID : string;
  WebsiteID : string;
}.
End ValidateData.

(** [http.Client] and the result of [client.Get]: an error ([err != nil],
    which is what a request that outlives [Timeout] gives) or a response. *)
Record http_Client := mkClient {
  Timeout : Z; (* nanoseconds *)
}.

Inductive GetResult :=
  | GetError (e : string)
  | GetResponse (StatusCode : Z).

(** What the world decides while one probe runs. *)
Record ProbeEnv := mkProbeEnv {
  Get : http_Client → string → GetResult;
  since_start : Z;                    (* time.Since(startTime), nanoseconds *)
  ed25519_sign : string → string → string;
}.

(** [Duration.Milliseconds]: integer division, truncated toward zero. *)
Definition Milliseconds (d : Z) : Z := Z.quot d 1000000.

Definition signMessage (env : ProbeEnv) (v : ValidatorClient) (message : string)
    : string :=
  ed25519_sign env (keypair v) message.

(** The frame [validateWebsite] builds: its status, its latency, and the
    message handed to [WriteJSON]. *)
Record Probe := mkProbe {
  probe_client : http_Client;
  probe_status : string;
  probe_latency : Z;
  probe_frame : IncomingMessage.t;
}.

Definition validateWebsite (env : ProbeEnv) (v : ValidatorClient)
    (data : ValidateData.t) : Probe :=
  let client := mkClient (10 * Second) in
  let result := Get env client (ValidateData.URL data) in
  let latency := Milliseconds (since_start env) in
  let status :=
    match result with
    | GetResponse code => if (code =? 200)%Z then "Good" else "Bad"
    | GetError _ => "Bad"
    end in
  let signature := signMessage env v ("Replying to " +:+ ValidateData.CallbackID data) in
  let msg :=
    IncomingMessage.mk "validate"
      (RawMessage.mk
         (Some (SignupIncoming.mk "" "" signature (ValidateData.CallbackID data)))
         (Some (ValidateIncoming.mk (ValidateData.CallbackID data) status latency
                                    (validatorID v) (ValidateData.WebsiteID data)
                                    signature))) in
  mkProbe client status latency msg.

End validator.

(* ===================================================================== *)
(** * The properties, as predicates on the model *)
(* ===================================================================== *)

(** Results and credit agree: every tick names a validator of the store,
    and a validator's pending credit is the reward times the number of its
    ticks. *)
Definition ledger_consistent (db : DB) : Prop :=
  (∀ t, t ∈ WebsiteTicks db →
        is_Some (Validators db !! WebsiteTick.ValidatorID t))
  ∧ (∀ id v, Validators db !! id = Some v →
             Validator.PendingPayouts v
             = (COST_PER_VALIDATION
                * Z.of_nat (length (ticks_for id (WebsiteTicks db))))%Z).

(** The tick a reply handler builds from a decoded reply. *)
Definition tick_of (cb : Callback.t) (env : CallbackEnv)
    (validate : ValidateIncoming.t) : WebsiteTick.t :=
  WebsiteTick.mk (tick_uuid env) (Callback.websiteID cb)
                 (ValidateIncoming.ValidatorID validate)
                 (ValidateIncoming.Status validate)
                 (ValidateIncoming.Latency validate)
                 (tick_now env).

(** The store after one tick for [validate] was recorded and credited. *)
Definition recorded (cb : Callback.t) (env : CallbackEnv)
    (validate : ValidateIncoming.t) (db : DB) : DB :=
  add_pending_payouts (ValidateIncoming.ValidatorID validate) COST_PER_VALIDATION
    (set_WebsiteTicks (WebsiteTicks db ++ [tick_of cb env validate]) db).

(** A handler run is all or nothing: the store is unchanged, or it gained
    exactly the tick of the reply and the reward on the reply's validator. *)
Definition all_or_nothing (cb : Callback.t) (env : CallbackEnv)
    (msg : IncomingMessage.t) (before after : DB) : Prop :=
  after = before
  ∨ ∃ validate,
      RawMessage.asValidate (IncomingMessage.Data msg) = Some validate
      ∧ is_Some (Validators before !! ValidateIncoming.ValidatorID validate)
      ∧ after = recorded cb env validate before.

(** The message a payout request publishes for a validator row. *)
Definition payout_message (env : user.RequestEnv) (validator : Validator.t)
    : Publishing.t :=
  Publishing.mk "application/json"
    (Body.mk (Some (PayoutRequest.mk (Validator.ID validator)
                                     (Validator.PendingPayouts validator)
                                     (Validator.PublicKey validator))))
    (user.now env).

(** A status reply that leaves the polling loop running. *)
Definition inconclusive (r : services.PollReply) : bool :=
  match r with
  | services.PollError _ | services.PollValue None => true
  | services.PollValue (Some st) =>
    match services.ConfirmationStatus st, services.Err st with
    | services.ConfirmationStatusFinalized, _ => false
    | _, Some _ => false
    | _, None => true
    end
  end.

(** The record a delivery opens, and the record of a failed settlement. *)
Definition opened (env : services.WorkerEnv) (req : PayoutRequest.t)
    : PayoutTransaction.t :=
  PayoutTransaction.mk (services.record_uuid env) (PayoutRequest.ValidatorID req)
                       (PayoutRequest.Amount req) "processing" "" ""
                       (services.clock env 0%nat) (services.clock env 1%nat).

Definition failed_record (env : services.WorkerEnv) (req : PayoutRequest.t)
    (signature err : string) : PayoutTransaction.t :=
  PayoutTransaction.mk (services.record_uuid env) (PayoutRequest.ValidatorID req)
                       (PayoutRequest.Amount req) "failed" signature err
                       (services.clock env 0%nat) (services.clock env 2%nat).

(** The (website, validator) pairs of a dispatch cycle, in loop order, each
    with the index of its UUID draw. *)
Definition tasks (ws : list Website.t) (vs : list ValidatorConnection.t)
    : list (Website.t * ValidatorConnection.t) :=
  w ← ws; v ← vs; [(w, v)].

Definition task_callback (p : Website.t * ValidatorConnection.t) : Callback.t :=
  createValidateCallback (Website.ID (fst p)) (ValidatorConnection.PublicKey (snd p)).

Definition task_message (callbackID : string)
    (p : Website.t * ValidatorConnection.t) : OutgoingMessage.t :=
  OutgoingMessage.mk "validate"
    (ValidateTask (Website.URL (fst p)) callbackID (Website.ID (fst p))).

(** What the cycle does for the [k]-th pair: register, then send. *)
Definition task_effects (uuid : nat → string) (k : nat)
    (p : Website.t * ValidatorConnection.t) : list Effect :=
  [Registered (uuid k) (task_callback p);
   WriteJSON (ValidatorConnection.Conn (snd p)) (task_message (uuid k) p)].

Definition connected (h : Hub) : list ValidatorConnection.t :=
  snd <$> map_to_list (validators h).

(** The UUIDs of a cycle are fresh: pairwise distinct and not registered. *)
Definition fresh_uuids (uuid : nat → string) (n : nat) (h : Hub) : Prop :=
  NoDup (uuid <$> seq 0 n) ∧ ∀ k, (k < n)%nat → callbacks h !! uuid k = None.

(** The effects of a cycle over the pairs [ps], the first pair drawing the
    [n]-th UUID, and the callback table it leaves. *)
Fixpoint cycle_effects (uuid : nat → string) (n : nat)
    (ps : list (Website.t * ValidatorConnection.t)) : list Effect :=
  match ps with
  | [] => []
  | p :: ps => task_effects uuid n p ++ cycle_effects uuid (S n) ps
  end.

Fixpoint register_tasks (uuid : nat → string) (n : nat)
    (ps : list (Website.t * ValidatorConnection.t))
    (m : gmap string Callback.t) : gmap string Callback.t :=
  match ps with
  | [] => m
  | p :: ps => register_tasks uuid (S n) ps (<[uuid n := task_callback p]> m)
  end.

(** What a hub step can do to the store: nothing, one handler run, or
    the insertion of a new validator with no credit. *)
Inductive store_step (d : DB) : DB → Prop :=
  | store_same : store_step d d
  | store_callback cb env msg : store_step d (callback_run cb env msg d)
  | store_signup v :
      Validators d !! Validator.ID v = None →
      Validator.PendingPayouts v = 0%Z →
      store_step d (set_Validators (<[Validator.ID v := v]> (Validators d)) d).

(** The credit a validator gains over a run is the reward times the
    number of ticks the run recorded for it. *)
Definition credited (id : string) (d d' : DB) : Prop :=
  ∃ new v v',
    WebsiteTicks d' = WebsiteTicks d ++ new
    ∧ Validators d !! id = Some v
    ∧ Validators d' !! id = Some v'
    ∧ Validator.PendingPayouts v'
      = (Validator.PendingPayouts v
         + Z.of_nat (length (ticks_for id new)) * COST_PER_VALIDATION)%Z.

(* ===================================================================== *)
(** * A run of the engine on concrete data *)
(* ===================================================================== *)

(** Two active targets and a disabled one; two validators that sign up on
    connections 1 and 2; one dispatch cycle; replies. *)
Module Scenario.

Definition T1 : Website.t := Website.mk "T1" "https://one.example" "U1" false.
Definition T2 : Website.t := Website.mk "T2" "https://two.example" "U1" false.
Definition T3 : Website.t := Website.mk "T3" "https://old.example" "U2" true.

Definition db0 : DB :=
  mkDB (<["T1" := T1]> (<["T2" := T2]> (<["T3" := T3]> ∅))) ∅ [] ∅.

Definition signup_frame (pk callbackId : string) : Inbound :=
  Frame (IncomingMessage.mk "signup"
           (RawMessage.mk
              (Some (SignupIncoming.mk "127.0.0.1" pk "c2lnbmVk" callbackId))
              (Some (ValidateIncoming.mk callbackId "" 0 "" "" "")))).

Definition senv (id : string) : SignupEnv := mkSignupEnv id false false.

Definition cenv (id : string) (now : Z) : CallbackEnv :=
  mkCallbackEnv id now false false false.

Definition reply (callbackId status : string) (latency : Z)
    (validatorId websiteId : string) : RawMessage.t :=
  RawMessage.mk
    (Some (SignupIncoming.mk "" "" "c2lnbmVk" callbackId))
    (Some (ValidateIncoming.mk callbackId status latency validatorId websiteId
                               "c2lnbmVk")).

Definition reply_frame (callbackId status : string) (latency : Z)
    (validatorId websiteId : string) : Inbound :=
  Frame (IncomingMessage.mk "validate"
           (reply callbackId status latency validatorId websiteId)).

Definition cycle (first : nat) : CycleEnv :=
  mkCycleEnv false (λ k, "cb-" +:+ pretty (first + k)%nat).

(** Both validators have signed up. *)
Definition signups : list HubEvent :=
  [Received (senv "V1") (cenv "" 0) 1%nat (signup_frame "PK1" "s-1");
   Received (senv "V2") (cenv "" 0) 2%nat (signup_frame "PK2" "s-2")].

Definition connected_hub : Hub := hub_run signups (NewHub db0).

(** One cycle, then three replies: one for the task sent to V1, one in
    which V2 answers a task that was sent to V1, and a duplicate. *)
Definition replies : list HubEvent :=
  [Ticked (cycle 0);
   Received (senv "") (cenv "k-1" 1000) 1%nat (reply_frame "cb-0" "Good" 120 "V1" "T1");
   Received (senv "") (cenv "k-2" 1001) 2%nat (reply_frame "cb-2" "Bad" 10000 "V2" "T2");
   Received (senv "") (cenv "k-3" 1002) 1%nat (reply_frame "cb-0" "Good" 120 "V1" "T1")].

(** The store once the replies are in: V1 and V2 hold 100 lamports. *)
Definition earned : DB := db (hub_run replies connected_hub).

Definition api : user.Handler := user.mkHandler earned [].

Definition request_ok : user.RequestEnv :=
  user.mkRequestEnv 2000 false false false false.

Definition request_update_fault : user.RequestEnv :=
  user.mkRequestEnv 2000 false false true false.

Definition request_commit_fault : user.RequestEnv :=
  user.mkRequestEnv 2000 false false false true.

(** V1 has asked for its payout: its message is queued. *)
Definition queued : user.Handler := fst (user.RequestPayout request_ok "V1" api).

Definition message : Publishing.t :=
  Publishing.mk "application/json"
                (Body.mk (Some (PayoutRequest.mk "V1" 100 "PK1"))) 2000.

Definition worker : services.PayoutWorker := services.mkPayoutWorker (user.db queued).

Definition delivery : services.Delivery :=
  services.mkDelivery (Publishing.Body message).

Definition worker_env (fate : services.TransferOutcome)
    (replies : list services.PollReply) : services.WorkerEnv :=
  services.mkWorkerEnv "P1" (λ k, 3000 + Z.of_nat k)%Z false
                       (λ _ _, fate) (λ _ _, replies) false false false.

(** The submission throws a network error. *)
Definition not_sent : services.WorkerEnv :=
  worker_env (services.NotSent "connection refused") [].

(** The transfer is submitted and never seen finalized. *)
Definition timed_out : services.WorkerEnv :=
  worker_env (services.Sent "5igN4tur3")
    [services.PollError "rpc unavailable";
     services.PollValue None;
     services.PollValue
       (Some (services.mkStatus services.ConfirmationStatusProcessed None));
     services.PollValue
       (Some (services.mkStatus services.ConfirmationStatusConfirmed None))].

(** The transfer is submitted and fails on chain. *)
Definition failed_on_chain : services.WorkerEnv :=
  worker_env (services.Sent "5igN4tur3")
    [services.PollValue None;
     services.PollValue
       (Some (services.mkStatus services.ConfirmationStatusProcessed
                                (Some "InsufficientFundsForFee")))].

(** The transfer is submitted and finalized. *)
Definition finalized : services.WorkerEnv :=
  worker_env (services.Sent "5igN4tur3")
    [services.PollValue None;
     services.PollValue
       (Some (services.mkStatus services.ConfirmationStatusFinalized None))].

(** A probe of T1 by V1. *)
Definition agent : validator.ValidatorClient :=
  validator.mkValidatorClient "secret-1" "V1".

Definition task : validator.ValidateData.t :=
  validator.ValidateData.mk "https://one.example" "cb-0" "T1".

Definition probe_env (result : validator.GetResult) (elapsed : Z)
    : validator.ProbeEnv :=
  validator.mkProbeEnv (λ _ _, result) elapsed (λ _ _, "c2lnbmVk").

End Scenario.

(* ===================================================================== *)
(** * The validator agent: handshake and read loop *)
(* ===================================================================== *)

(** The rest of the [ValidatorClient] program: [signup],
    [handleSignupResponse], [handleValidateRequest] and [listen]. *)
Module client.

(** The client with its callback table. The only closure the program ever
    registers is the one of [signup], which captures the client alone, so
    the table is the set of the ids it is registered under. *)
Record State := mkState {
  core : validator.ValidatorClient;
  callbacks : gset string;
}.

(** [NewValidatorClient], once the private key is parsed. *)
Definition NewValidatorClient (keypair : string) : State :=
  mkState (validator.mkValidatorClient keypair "") ∅.

(** What the world decides during [signup]. *)
Record SignupEnv := mkSignupEnv {
  uuid : string;                    (* uuid.New().String() *)
  PublicKey : string → string;      (* keypair.PublicKey().String() *)
  signer : validator.ProbeEnv;      (* the ed25519 signature *)
  write_fault : bool;               (* v.conn.WriteJSON(msg) != nil *)
}.

(** [mustMarshal] of the signup map, as the hub decodes it: the four
    members of [SignupIncoming], and for [ValidateIncoming] the two members
    whose names it shares. *)
Definition signup_data (callbackID publicKey signature : string) : RawMessage.t :=
  RawMessage.mk
    (Some (SignupIncoming.mk "127.0.0.1" publicKey signature callbackID))
    (Some (ValidateIncoming.mk callbackID "" 0 "" "" signature)).

(** [signup]: the callback is registered before the frame is written; the
    result is the frame, or [None] when the write fails (the error is
    returned to [Connect]). *)
Definition signup (env : SignupEnv) (v : State)
    : State * option IncomingMessage.t :=
  let callbackID := uuid env in
  let publicKey := PublicKey env (validator.keypair (core v)) in
  let message := "Signed message for " +:+ callbackID +:+ ", " +:+ publicKey in
  let signature := validator.signMessage (signer env) (core v) message in
  let v' := mkState (core v) ({[callbackID]} ∪ callbacks v) in
  let msg := IncomingMessage.mk "signup"
               (signup_data callbackID publicKey signature) in
  if write_fault env then (v', None) else (v', Some msg).

(** The members of the decoded [data] object of a frame of the hub. *)
Definition callbackId_of (data : OutgoingData) : string :=
  match data with
  | SignupReply _ callbackId => callbackId
  | ValidateTask _ callbackId _ => callbackId
  end.

(** [handleSignupResponse]; [None] is the panic of the type assertion
    [data["validatorId"].(string)] on an object without that member. *)
Definition handleSignupResponse (data : OutgoingData) (v : State) : option State :=
  let callbackID := callbackId_of data in
  if decide (callbackID ∈ callbacks v) then
    match data with
    | SignupReply validatorId _ =>
      Some (mkState (validator.mkValidatorClient
                       (validator.keypair (core v)) validatorId)
                    (callbacks v ∖ {[callbackID]}))
    | ValidateTask _ _ _ => None
    end
  else Some v.

(** [handleValidateRequest]: the object is re-encoded and decoded into
    [ValidateData]; the result is the argument of the goroutine it starts. *)
Definition handleValidateRequest (data : OutgoingData) : validator.ValidateData.t :=
  match data with
  | ValidateTask url callbackId websiteId =>
    validator.ValidateData.mk url callbackId websiteId
  | SignupReply _ callbackId => validator.ValidateData.mk "" callbackId ""
  end.

(** One iteration of [listen] on a frame of the hub: the new state and the
    probes started, or [None] on a panic. *)
Definition listen_step (msg : OutgoingMessage.t) (v : State)
    : option (State * list validator.ValidateData.t) :=
  if String.eqb (OutgoingMessage.Type_ msg) "signup"
  then (λ v', (v', [])) <$> handleSignupResponse (OutgoingMessage.Data msg) v
  else if String.eqb (OutgoingMessage.Type_ msg) "validate"
  then Some (v, [handleValidateRequest (OutgoingMessage.Data msg)])
  else Some (v, []).

End client.

(* ===================================================================== *)
(** * Package [website]: the targets ([internal/handlers/website]) *)
(* ===================================================================== *)

(** [h.db.Create(&website)]: primary key [ID]. *)
Definition Create_Website (fault : bool) (w : Website.t) (d : DB) : option DB :=
  if fault then None
  else match Websites d !! Website.ID w with
       | Some _ => None
       | None =>
         Some (mkDB (<[Website.ID w := w]> (Websites d)) (Validators d)
                    (WebsiteTicks d) (PayoutTransactions d))
       end.

Module website.

Record Handler := mkHandler {
  db : DB;
}.

(** The three bodies the two handlers answer with. *)
Inductive Response :=
  | Created (code : Z) (id url : string)      (* gin.H{"id", "url"} *)
  | Message (code : Z) (message : string)     (* gin.H{"message"} *)
  | ErrorResponse (code : Z) (message : string).

Definition StatusOK : Z := 200.
Definition StatusCreated : Z := 201.
Definition StatusBadRequest : Z := 400.
Definition StatusUnauthorized : Z := 401.
Definition StatusNotFound : Z := 404.
Definition StatusInternalServerError : Z := 500.

(** What [c.ShouldBindJSON] makes of the request body: the bound member,
    or the error of the decoder or of the [binding] tags. *)
Inductive Bound :=
  | BindError (e : string)
  | Bind (member : string).

Record CreateEnv := mkCreateEnv {
  uuid : string;          (* uuid.New().String() *)
  create_fault : bool;    (* h.db.Create(&website).Error != nil *)
}.

(** [CreateWebsite - POST /api/v1/website]; [userID] is [c.Get("userID")]. *)
Definition CreateWebsite (env : CreateEnv) (userID : option string)
    (body : Bound) (h : Handler) : Handler * Response :=
  match userID with
  | None => (h, ErrorResponse StatusUnauthorized "User not authenticated")
  | Some userID =>
    match body with
    | BindError e => (h, ErrorResponse StatusBadRequest ("Invalid request: " +:+ e))
    | Bind url =>
      let website := Website.mk (uuid env) url userID false in
      match Create_Website (create_fault env) website (db h) with
      | None =>
        (h, ErrorResponse StatusInternalServerError "Failed to create website")
      | Some d => (mkHandler d, Created StatusCreated (Website.ID website)
                                        (Website.URL website))
      end
    end
  end.

(** [h.db.Model(&models.Website{}).Where("id = ? AND user_id = ?", id, userID).
      Update("disabled", true)]: the new store and [RowsAffected]. An absent
    [userID] is a nil argument, which no row equals. *)
Definition disable_Website (id : string) (userID : option string) (d : DB)
    : DB * nat :=
  match Websites d !! id with
  | Some w =>
    if bool_decide (userID = Some (Website.UserID w))
    then (mkDB (<[id := Website.mk (Website.ID w) (Website.URL w)
                                   (Website.UserID w) true]> (Websites d))
               (Validators d) (WebsiteTicks d) (PayoutTransactions d),
          1%nat)
    else (d, 0%nat)
  | None => (d, 0%nat)
  end.

(** [DeleteWebsite - DELETE /api/v1/website]. *)
Definition DeleteWebsite (update_fault : bool) (userID : option string)
    (body : Bound) (h : Handler) : Handler * Response :=
  match body with
  | BindError _ => (h, ErrorResponse StatusBadRequest "Invalid request")
  | Bind websiteId =>
    if update_fault
    then (h, ErrorResponse StatusInternalServerError "Failed to delete website")
    else
      let '(d, RowsAffected) := disable_Website websiteId userID (db h) in
      if bool_decide (RowsAffected = 0%nat)
      then (h, ErrorResponse StatusNotFound "Website not found")
      else (mkHandler d, Message StatusOK "Website deleted successfully")
  end.

End website.

(* ===================================================================== *)
(** * Package [middleware]: authentication ([internal/middleware/auth.go]) *)
(* ===================================================================== *)

Module middleware.

(** [strings.TrimPrefix(s, prefix)]. *)
Fixpoint strip (prefix s : string) : option string :=
  match prefix with
  | EmptyString => Some s
  | String a prefix =>
    match s with
    | String b s => if Ascii.eqb a b then strip prefix s else None
    | EmptyString => None
    end
  end.

Definition TrimPrefix (s prefix : string) : string := default s (strip prefix s).

(** [utils.VerifyJWT(token, secret)] is the JWT library at work: the user
    id of a token it accepts, or its error. *)
Inductive Verified :=
  | Accepted (userID : string)
  | Rejected (err : string).

(** The middleware on the [Authorization] header ([""] when the request
    has none): [inl] is the response it aborts with, [inr] the [userID] it
    stores in the context before [c.Next()]. *)
Definition AuthMiddleware (VerifyJWT : string → string → Verified)
    (jwtSecret authHeader : string) : (Z * string) + string :=
  if String.eqb authHeader ""
  then inl (website.StatusUnauthorized, "Authorization header required")
  else
    let token := TrimPrefix authHeader "Bearer " in
    match VerifyJWT token jwtSecret with
    | Rejected err => inl (website.StatusUnauthorized, "Invalid token: " +:+ err)
    | Accepted userID => inr userID
    end.

(** A route of the [protected] group: the handler runs after the
    middleware, unless the middleware aborts. *)
Definition protected (VerifyJWT : string → string → Verified)
    (jwtSecret authHeader : string)
    (handler : option string → website.Handler → website.Handler * website.Response)
    (h : website.Handler) : website.Handler * website.Response :=
  match AuthMiddleware VerifyJWT jwtSecret authHeader with
  | inl (code, message) => (h, website.ErrorResponse code message)
  | inr userID => handler (Some userID) h
  end.

End middleware.

(* ===================================================================== *)
(** * Package [user]: accounts ([Signup], [Login]) *)
(* ===================================================================== *)

Module User.
Record t := mk {
  ID : string;
  Email : string;
  Password : string;
}.
End User.

Module accounts.

(** The [User] table and the secret of [cfg]. *)
Record Handler := mkHandler {
  users : gmap string User.t;
  JWTSecret : string;
}.

(** What [c.ShouldBindJSON] makes of the body: the two bound members, or
    the error of the decoder or of the [binding] tags. *)
Inductive Bound :=
  | BindError (e : string)
  | Bind (email password : string).

(** [gin.H{"token", "user": {"id", "email"}}], or an error. *)
Inductive Response :=
  | Token (code : Z) (token id email : string)
  | ErrorResponse (code : Z) (message : string).

Definition StatusOK : Z := 200.
Definition StatusCreated : Z := 201.
Definition StatusBadRequest : Z := 400.
Definition StatusUnauthorized : Z := 401.
Definition StatusConflict : Z := 409.
Definition StatusInternalServerError : Z := 500.

(** What the world decides: the database faults, the UUID, bcrypt and the
    token of [utils.GenerateJWT] ([None]: an error). *)
Record Env := mkEnv {
  uuid : string;
  find_fault : bool;             (* First fails other than by ErrRecordNotFound *)
  create_fault : bool;           (* h.db.Create(&user).Error != nil *)
  GenerateFromPassword : string → option string;
  CompareHashAndPassword : string → string → bool;   (* true: nil *)
  GenerateJWT : string → string → option string;
}.

(** [h.db.Where("email = ?", email).First(&user)]. *)
Definition First_User_by_email (email : string) (us : gmap string User.t)
    : option User.t :=
  (λ hit, snd (snd hit))
    <$> list_find (λ kv : string * User.t, User.Email (snd kv) = email)
                  (map_to_list us).

(** [h.db.Create(&user)]: primary key [ID], unique index on [Email]. *)
Definition Create_User (fault : bool) (u : User.t) (us : gmap string User.t)
    : option (gmap string User.t) :=
  if fault then None
  else match us !! User.ID u with
       | Some _ => None
       | None =>
         match First_User_by_email (User.Email u) us with
         | Some _ => None
         | None => Some (<[User.ID u := u]> us)
         end
       end.

(** [Signup - POST /api/v1/auth/signup]. The existence check reads
    [result.Error == nil]: a lookup that fails for any reason counts as
    "no such user". *)
Definition Signup (env : Env) (body : Bound) (h : Handler) : Handler * Response :=
  match body with
  | BindError e => (h, ErrorResponse StatusBadRequest e)
  | Bind email password =>
    if negb (find_fault env) && bool_decide (is_Some (First_User_by_email email (users h)))
    then (h, ErrorResponse StatusConflict "User already exists")
    else
      match GenerateFromPassword env password with
      | None => (h, ErrorResponse StatusInternalServerError "Failed to hash password")
      | Some hashedPassword =>
        let user := User.mk (uuid env) email hashedPassword in
        match Create_User (create_fault env) user (users h) with
        | None =>
          (h, ErrorResponse StatusInternalServerError "Failed to create user")
        | Some us =>
          match GenerateJWT env (User.ID user) (JWTSecret h) with
          | None =>
            (mkHandler us (JWTSecret h),
             ErrorResponse StatusInternalServerError "Failed to generate token")
          | Some token =>
            (mkHandler us (JWTSecret h),
             Token StatusCreated token (User.ID user) (User.Email user))
          end
        end
      end
  end.

(** [Login - POST /api/v1/auth/login]. *)
Definition Login (env : Env) (body : Bound) (h : Handler) : Handler * Response :=
  match body with
  | BindError e => (h, ErrorResponse StatusBadRequest e)
  | Bind email password =>
    match (if find_fault env then None else First_User_by_email email (users h)) with
    | None => (h, ErrorResponse StatusUnauthorized "Invalid credentials")
    | Some user =>
      if CompareHashAndPassword env (User.Password user) password
      then
        match GenerateJWT env (User.ID user) (JWTSecret h) with
        | None =>
          (h, ErrorResponse StatusInternalServerError "Failed to generate token")
        | Some token => (h, Token StatusOK token (User.ID user) (User.Email user))
        end
      else (h, ErrorResponse StatusUnauthorized "Invalid credentials")
    end
  end.

(** The table is keyed by [ID] and holds one row per email. *)
Definition well_formed (us : gmap string User.t) : Prop :=
  (∀ id u, us !! id = Some u → User.ID u = id)
  ∧ (∀ id1 id2 u1 u2, us !! id1 = Some u1 → us !! id2 = Some u2 →
                      User.Email u1 = User.Email u2 → id1 = id2).

End accounts.

(* ===================================================================== *)
(** * The engine: hub, API and worker over one store and one queue *)
(* ===================================================================== *)

(** [cmd/hub] and [cmd/api] open the same database ([cfg.DatabaseURL]); the
    API publishes to [payout_queue] and starts the worker that consumes it
    on the same channel and store. *)
Module engine.

Record State := mkState {
  hub : Hub;
  queue : list Publishing.t;
}.

Definition set_db (d : DB) (h : Hub) : Hub := mkHub d (validators h) (callbacks h).

Inductive Event :=
  | OfHub (ev : HubEvent)
  | Request (env : user.RequestEnv) (validatorID : string)
  | Deliver (env : services.WorkerEnv)
  | Create (env : website.CreateEnv) (userID : option string) (body : website.Bound)
  | Delete (update_fault : bool) (userID : option string) (body : website.Bound).

(** The queue after the worker has processed the delivery of its first
    message. The queue is consumed with manual acknowledgement: the message
    leaves it only when an [Ack] or a [Nack] without requeue reaches the
    broker. A requeued message stays, and so does a message whose
    acknowledgement was lost: the broker delivers it again. *)
Definition settle (lost : bool) (ack : services.Acknowledgement)
    (m : Publishing.t) (rest : list Publishing.t) : list Publishing.t :=
  if lost then m :: rest
  else match ack with
       | services.Nack true => m :: rest
       | _ => rest
       end.

Definition step (s : State) (ev : Event) : State :=
  match ev with
  | OfHub ev => mkState (hub_step (hub s) ev) (queue s)
  | Request env validatorID =>
    let h' := fst (user.RequestPayout env validatorID
                     (user.mkHandler (db (hub s)) (queue s))) in
    mkState (set_db (user.db h') (hub s)) (user.rabbitMQ h')
  | Deliver env =>
    match queue s with
    | [] => s
    | m :: rest =>
      let out := services.processPayoutRequest env
                   (services.mkDelivery (Publishing.Body m))
                   (services.mkPayoutWorker (db (hub s))) in
      mkState (set_db (services.db (fst out)) (hub s))
              (settle (services.ack_fault env) (snd out) m rest)
    end
  | Create env userID body =>
    let h' := fst (website.CreateWebsite env userID body
                     (website.mkHandler (db (hub s)))) in
    mkState (set_db (website.db h') (hub s)) (queue s)
  | Delete update_fault userID body =>
    let h' := fst (website.DeleteWebsite update_fault userID body
                     (website.mkHandler (db (hub s)))) in
    mkState (set_db (website.db h') (hub s)) (queue s)
  end.

Definition run (evs : list Event) (s : State) : State := foldl step s evs.

(** The lamports queued for a validator. *)
Definition amount_for (id : string) (m : Publishing.t) : Z :=
  match Body.asPayoutRequest (Publishing.Body m) with
  | Some req =>
    if decide (PayoutRequest.ValidatorID req = id) then PayoutRequest.Amount req
    else 0%Z
  | None => 0%Z
  end.

Definition queued (id : string) (q : list Publishing.t) : Z :=
  foldr (λ m total, (amount_for id m + total)%Z) 0%Z q.

(** The events after which the ledger can be trusted: a payout request
    whose publish is not followed by a failed update or commit, and a
    delivery whose acknowledgement reaches the broker, so that the message
    is not delivered a second time. The status updates and the refund of
    a delivery may fail. *)
Definition clean (ev : Event) : bool :=
  match ev with
  | Request env _ =>
    user.publish_fault env || negb (user.update_fault env || user.commit_fault env)
  | Deliver env => negb (services.ack_fault env)
  | _ => true
  end.

End engine.

(* ===================================================================== *)
(** * Further properties: predicates and data *)
(* ===================================================================== *)

(** The validator table is keyed by [ID] and holds one row per public key
    (the primary key and the unique index of the model). *)
Definition keyed_by_ID (d : DB) : Prop :=
  ∀ id v, Validators d !! id = Some v → Validator.ID v = id.

Definition unique_public_keys (d : DB) : Prop :=
  ∀ id1 id2 v1 v2,
    Validators d !! id1 = Some v1 → Validators d !! id2 = Some v2 →
    Validator.PublicKey v1 = Validator.PublicKey v2 → id1 = id2.

Definition identities_well_formed (d : DB) : Prop :=
  keyed_by_ID d ∧ unique_public_keys d.

(** What the engine keeps: identities are well formed; ticks and queued
    messages name validators of the store, the latter for positive amounts;
    and for every validator the credit is not negative and, together with
    what is queued for it, not more than its ticks have earned. *)
Definition engine_sound (s : engine.State) : Prop :=
  identities_well_formed (db (engine.hub s))
  ∧ (∀ t, t ∈ WebsiteTicks (db (engine.hub s)) →
          is_Some (Validators (db (engine.hub s)) !! WebsiteTick.ValidatorID t))
  ∧ (∀ m req, m ∈ engine.queue s →
              Body.asPayoutRequest (Publishing.Body m) = Some req →
              (0 < PayoutRequest.Amount req)%Z
              ∧ is_Some (Validators (db (engine.hub s)) !! PayoutRequest.ValidatorID req))
  ∧ (∀ id v, Validators (db (engine.hub s)) !! id = Some v →
             (0 ≤ Validator.PendingPayouts v)%Z
             ∧ (Validator.PendingPayouts v + engine.queued id (engine.queue s)
                ≤ COST_PER_VALIDATION
                  * Z.of_nat (length (ticks_for id (WebsiteTicks (db (engine.hub s))))))%Z).

(** What one payout record counts for the validator [id]: the amount of a
    record of [id] that is marked completed. *)
Definition on_record (id : string) (r : PayoutTransaction.t) : Z :=
  if decide (PayoutTransaction.ValidatorID r = id)
  then if decide (PayoutTransaction.Status r = "completed")
       then PayoutTransaction.Amount r else 0%Z
  else 0%Z.

(** The lamports on record as paid to [id]. *)
Definition paid (id : string) (d : DB) : Z :=
  map_fold (λ _ r total, (on_record id r + total)%Z) 0%Z (PayoutTransactions d).

(** Every payout record names an existing validator. *)
Definition payouts_reference (d : DB) : Prop :=
  ∀ k r, PayoutTransactions d !! k = Some r →
         is_Some (Validators d !! PayoutTransaction.ValidatorID r).

(** For every validator, the credit on file, the lamports queued for it and
    the lamports of its completed payout records stay within what its ticks
    earned. *)
Definition within_earnings (d : DB) (q : list Publishing.t) : Prop :=
  ∀ id v, Validators d !! id = Some v →
          (Validator.PendingPayouts v + engine.queued id q + paid id d
           ≤ COST_PER_VALIDATION * Z.of_nat (length (ticks_for id (WebsiteTicks d))))%Z.

Definition ledger_bounded (s : engine.State) : Prop :=
  engine_sound s
  ∧ payouts_reference (db (engine.hub s))
  ∧ within_earnings (db (engine.hub s)) (engine.queue s).

(** The target table is keyed by [ID]. *)
Definition websites_keyed_by_ID (d : DB) : Prop :=
  ∀ id w, Websites d !! id = Some w → Website.ID w = id.

(** A dispatch effect that concerns the target [id]. *)
Definition concerns (id : string) (e : Effect) : Prop :=
  match e with
  | Registered _ cb => Callback.websiteID cb = id
  | WriteJSON _ msg =>
    match OutgoingMessage.Data msg with
    | ValidateTask _ _ websiteId => websiteId = id
    | SignupReply _ _ => False
    end
  | Invoked _ _ => False
  end.

(** Whether a hub event is the arrival of a reply with correlation id [id]. *)
Definition answers (id : string) (ev : HubEvent) : bool :=
  match ev with
  | Received _ _ _ (Frame msg) =>
    String.eqb (IncomingMessage.Type_ msg) "validate"
    && match RawMessage.asValidate (IncomingMessage.Data msg) with
       | Some validate => String.eqb (ValidateIncoming.CallbackID validate) id
       | None => false
       end
  | _ => false
  end.

(** What a run of the hub may do to the store: targets and settlement
    records stay, ticks are appended, and a validator row stays in place
    with a credit that is not lower. *)
Definition hub_frame (d d' : DB) : Prop :=
  Websites d' = Websites d
  ∧ PayoutTransactions d' = PayoutTransactions d
  ∧ (∃ new, WebsiteTicks d' = WebsiteTicks d ++ new)
  ∧ ∀ id v, Validators d !! id = Some v →
            ∃ credit, (Validator.PendingPayouts v ≤ credit)%Z
                      ∧ Validators d' !! id
                        = Some (Validator.with_PendingPayouts credit v).

(** Further runs on concrete data. *)
Module Cases.

(** One connection signs up under two public keys. *)
Definition shared_connection : Hub :=
  hub_run [Received (Scenario.senv "V1") (Scenario.cenv "" 0) 7%nat
                    (Scenario.signup_frame "PK1" "s-1");
           Received (Scenario.senv "V3") (Scenario.cenv "" 0) 7%nat
                    (Scenario.signup_frame "PK3" "s-3")]
          (NewHub Scenario.db0).

(** The cycle of the scenario has run; nothing was answered. *)
Definition dispatched : Hub :=
  fst (startMonitoring_cycle (Scenario.cycle 0) Scenario.connected_hub).

(** Both validators drop their connections, V1 signs up again on
    connection 3, and a second cycle runs. *)
Definition later : list HubEvent :=
  [Received (Scenario.senv "") (Scenario.cenv "" 0) 1%nat ReadError;
   Received (Scenario.senv "") (Scenario.cenv "" 0) 2%nat ReadError;
   Received (Scenario.senv "V9") (Scenario.cenv "" 0) 3%nat
            (Scenario.signup_frame "PK1" "s-9");
   Ticked (Scenario.cycle 4)].

(** The transfer is finalized, with an error reported on chain. *)
Definition finalized_with_error : services.WorkerEnv :=
  Scenario.worker_env (services.Sent "5igN4tur3")
    [services.PollValue None;
     services.PollValue
       (Some (services.mkStatus services.ConfirmationStatusFinalized
                                (Some "InstructionError")))].

(** A delivery like [env], with a record id of its own and with the
    statements the worker does not check failing as told. *)
Definition with_faults (env : services.WorkerEnv) (uuid : string)
    (status refund ack : bool) : services.WorkerEnv :=
  services.mkWorkerEnv uuid (services.clock env) (services.record_create_fault env)
                       (services.transfer env) (services.polls env)
                       status refund ack.

(** The submission throws a network error and the refund statement fails. *)
Definition not_sent_refund_fault : services.WorkerEnv :=
  with_faults Scenario.not_sent "P1" false true false.

(** The submission throws a network error and the status update fails. *)
Definition not_sent_status_fault : services.WorkerEnv :=
  with_faults Scenario.not_sent "P1" true false false.

(** The transfer is finalized and the status update fails. *)
Definition finalized_status_fault : services.WorkerEnv :=
  with_faults Scenario.finalized "P1" true false false.

(** The submission throws a network error and the rejection of the message
    does not reach the broker; the message is delivered again, to the same
    end. *)
Definition not_sent_ack_lost : services.WorkerEnv :=
  with_faults Scenario.not_sent "P1" false false true.

Definition not_sent_again : services.WorkerEnv :=
  with_faults Scenario.not_sent "P2" false false false.

(** An agent with its key, about to sign up. *)
Definition agent_env : client.SignupEnv :=
  client.mkSignupEnv "s-1" (λ keypair, "PK-of-" +:+ keypair)
                     (Scenario.probe_env (validator.GetResponse 200) 0) false.

Definition agent0 : client.State := client.NewValidatorClient "k1".

(** A JWT library that accepts one token under one secret. *)
Definition VerifyJWT (token secret : string) : middleware.Verified :=
  if String.eqb token "t0k3n" && String.eqb secret "s3cret"
  then middleware.Accepted "U1"
  else middleware.Rejected "token is malformed".

(** The API over the store of the scenario, with both validators connected. *)
Definition site : website.Handler := website.mkHandler (db Scenario.connected_hub).

(** The delivery of a second message: a new record, a transfer that is
    seen finalized at the first query. *)
Definition second_delivery : services.WorkerEnv :=
  services.mkWorkerEnv "P2" (λ k, 4000 + Z.of_nat k)%Z false
    (λ _ _, services.Sent "5igN4tur3")
    (λ _ _, [services.PollValue
               (Some (services.mkStatus
                        services.ConfirmationStatusFinalized None))])
    false false false.

(** A run of the whole engine: two handshakes, a cycle and its replies, a
    payout request of V1 whose transfer is not sent and whose record cannot
    be marked, a second request, its transfer finalized, and a request of
    V2 left in the queue. *)
Definition engine_run : list engine.Event :=
  (engine.OfHub <$> Scenario.signups ++ Scenario.replies)
  ++ [engine.Request Scenario.request_ok "V1";
      engine.Deliver not_sent_status_fault;
      engine.Request Scenario.request_ok "V1";
      engine.Deliver second_delivery;
      engine.Delete false (Some "U1") (website.Bind "T2");
      engine.Request Scenario.request_ok "V2"].

Definition engine0 : engine.State := engine.mkState (NewHub Scenario.db0) [].

(** The engine when the payout request of V1 is in the queue. *)
Definition engine_queued : engine.State :=
  engine.mkState (NewHub (user.db Scenario.queued)) (user.rabbitMQ Scenario.queued).

(** Accounts: a bcrypt that prefixes, a token that names the user. *)
Definition accounts_env (id : string) : accounts.Env :=
  accounts.mkEnv id false false
    (λ password, Some ("$2a$" +:+ password))
    (λ hashed password, String.eqb hashed ("$2a$" +:+ password))
    (λ userID secret, Some ("jwt." +:+ userID)).

Definition accounts0 : accounts.Handler := accounts.mkHandler ∅ "s3cret".

(** The table after the signup of [a@example.com]. *)
Definition accounts1 : accounts.Handler :=
  fst (accounts.Signup (accounts_env "U1")
         (accounts.Bind "a@example.com" "password1") accounts0).

End Cases.

(** Closes a conjunction of closed equations by evaluation. *)
Ltac by_evaluation := intros; split_and!; vm_compute; reflexivity.

(* ===================================================================== *)
(** * The reply handler: a tick and its credit *)
(* ===================================================================== *)

Section ReplyHandler.

Implicit Types (db : DB) (cb : Callback.t) (env : CallbackEnv)
               (msg : IncomingMessage.t) (validate : ValidateIncoming.t).

Lemma Create_WebsiteTick_Some fault t db db' :
  Create_WebsiteTick fault t db = Some db' →
  db' = set_WebsiteTicks (WebsiteTicks db ++ [t]) db
  ∧ is_Some (Validators db !! WebsiteTick.ValidatorID t)
  ∧ WebsiteTick.ID t ∉ WebsiteTick.ID <$> WebsiteTicks db.
Proof.
  unfold Create_WebsiteTick, tick_pk_free, tick_fk_ok.
  destruct fault; [done|].
  case_bool_decide as Hpk; simpl; [|done].
  case_bool_decide as Hw; simpl; [|done].
  case_bool_decide as Hv; simpl; [|done].
  intros [= <-]. done.
Qed.

(** The runs of the handler, by cases. *)
Lemma callback_run_cases cb env msg db :
  all_or_nothing cb env msg db (callback_run cb env msg db).
Proof.
  unfold all_or_nothing, callback_run.
  destruct (RawMessage.asValidate (IncomingMessage.Data msg)) as [validate|];
    [|by left].
  destruct (Create_WebsiteTick _ _ _) as [tx|] eqn:Hcreate; [|by left].
  destruct (tick_update_fault env); [by left|].
  destruct (tick_commit_fault env); [by left|].
  apply Create_WebsiteTick_Some in Hcreate as (-> & Hv & _).
  right. exists validate. split; [done|]. split; [exact Hv|]. done.
Qed.

Lemma ticks_for_app id (ts ts' : list WebsiteTick.t) :
  ticks_for id (ts ++ ts') = ticks_for id ts ++ ticks_for id ts'.
Proof. unfold ticks_for. apply filter_app. Qed.

Lemma ticks_for_singleton id (t : WebsiteTick.t) :
  length (ticks_for id [t])
  = if decide (WebsiteTick.ValidatorID t = id) then 1%nat else 0%nat.
Proof.
  unfold ticks_for. case_decide.
  - by rewrite filter_cons_True.
  - by rewrite filter_cons_False.
Qed.

Lemma ticks_for_nil id (ts : list WebsiteTick.t) :
  (∀ t, t ∈ ts → WebsiteTick.ValidatorID t ≠ id) → ticks_for id ts = [].
Proof.
  unfold ticks_for. induction ts as [|t ts IH]; intros Hne; [done|].
  rewrite filter_cons_False by (apply Hne; left).
  apply IH. intros t' Ht'. apply Hne. by right.
Qed.

Lemma recorded_Validators cb env validate db id :
  Validators (recorded cb env validate db) !! id
  = if decide (ValidateIncoming.ValidatorID validate = id)
    then (λ v, Validator.with_PendingPayouts
                 (Validator.PendingPayouts v + COST_PER_VALIDATION) v)
           <$> Validators db !! id
    else Validators db !! id.
Proof.
  unfold recorded, add_pending_payouts. simpl.
  case_decide as Hid.
  - subst id. by rewrite lookup_alter_eq.
  - by rewrite lookup_alter_ne.
Qed.

Lemma recorded_WebsiteTicks cb env validate db :
  WebsiteTicks (recorded cb env validate db)
  = WebsiteTicks db ++ [tick_of cb env validate].
Proof. done. Qed.

Lemma recorded_ne cb env validate db : recorded cb env validate db ≠ db.
Proof.
  intros H. apply (f_equal (λ d, length (WebsiteTicks d))) in H.
  rewrite recorded_WebsiteTicks, length_app in H. simpl in H. lia.
Qed.

(** One recorded reply keeps results and credit in agreement. *)
Lemma recorded_consistent cb env validate db :
  is_Some (Validators db !! ValidateIncoming.ValidatorID validate) →
  ledger_consistent db →
  ledger_consistent (recorded cb env validate db).
Proof.
  intros Hv [Hfk Hcredit]. split.
  - intros t. rewrite recorded_WebsiteTicks, elem_of_app, list_elem_of_singleton.
    rewrite recorded_Validators. intros [Ht| ->].
    + case_decide as Hid; [|by apply Hfk].
      rewrite <- Hid, fmap_is_Some. rewrite Hid. by apply Hfk.
    + simpl. rewrite decide_True by done. by rewrite fmap_is_Some.
  - intros id v. rewrite recorded_Validators, recorded_WebsiteTicks, ticks_for_app.
    rewrite length_app, ticks_for_singleton. simpl. case_decide as Hid.
    + subst id. destruct (Validators db !! _) as [v0|] eqn:Hv0; [|done].
      intros [= <-]. simpl. rewrite (Hcredit _ _ Hv0). simpl. lia.
    + intros Hlook. rewrite (Hcredit _ _ Hlook). simpl. lia.
Qed.

Lemma callback_run_consistent cb env msg db :
  ledger_consistent db → ledger_consistent (callback_run cb env msg db).
Proof.
  intros Hinv.
  destruct (callback_run_cases cb env msg db) as [->|(validate & _ & Hv & ->)];
    [done|].
  by apply recorded_consistent.
Qed.

End ReplyHandler.

(* ===================================================================== *)
(** * The dispatch cycle *)
(* ===================================================================== *)

Section DispatchCycle.

Variable env : CycleEnv.

Local Abbreviation uuid := (cycle_uuid env).

Lemma cycle_effects_app n ps qs :
  cycle_effects uuid n (ps ++ qs)
  = cycle_effects uuid n ps ++ cycle_effects uuid (n + length ps) qs.
Proof.
  revert n. induction ps as [|p ps IH]; intros n; simpl.
  - by rewrite Nat.add_0_r.
  - rewrite IH. replace (S n + length ps)%nat with (n + S (length ps))%nat by lia.
    done.
Qed.

Lemma register_tasks_app n ps qs m :
  register_tasks uuid n (ps ++ qs) m
  = register_tasks uuid (n + length ps) qs (register_tasks uuid n ps m).
Proof.
  revert n m. induction ps as [|p ps IH]; intros n m; simpl.
  - by rewrite Nat.add_0_r.
  - rewrite IH. replace (S n + length ps)%nat with (n + S (length ps))%nat by lia.
    done.
Qed.

Lemma tasks_cons w ws vs : tasks (w :: ws) vs = (pair w <$> vs) ++ tasks ws vs.
Proof.
  unfold tasks. rewrite bind_cons. f_equal.
Qed.

Lemma tasks_length ws vs : length (tasks ws vs) = (length ws * length vs)%nat.
Proof.
  induction ws as [|w ws IH]; [done|].
  rewrite tasks_cons, length_app, length_fmap, IH. simpl. lia.
Qed.

Lemma tasks_nil_r ws : tasks ws [] = [].
Proof. apply nil_length_inv. rewrite tasks_length. simpl. lia. Qed.

Lemma elem_of_tasks ws vs w v : (w, v) ∈ tasks ws vs ↔ w ∈ ws ∧ v ∈ vs.
Proof.
  unfold tasks. rewrite list_elem_of_bind. split.
  - intros (w' & Hin & Hw). apply list_elem_of_bind in Hin as (v' & Hin & Hv).
    apply list_elem_of_singleton in Hin as [= -> ->]. done.
  - intros [Hw Hv]. exists w. split; [|done].
    apply list_elem_of_bind. exists v. split; [|done].
    by apply list_elem_of_singleton.
Qed.

Lemma elem_of_Find_active_Websites (d : DB) w :
  w ∈ Find_active_Websites d
  ↔ Website.Disabled w = false ∧ ∃ id, Websites d !! id = Some w.
Proof.
  unfold Find_active_Websites.
  rewrite list_elem_of_filter, list_elem_of_fmap. split.
  - intros [Hactive ([id w'] & -> & Hin)]. split; [done|].
    exists id. by apply elem_of_map_to_list.
  - intros [Hactive [id Hin]]. split; [done|].
    exists (id, w). split; [done|]. by apply elem_of_map_to_list.
Qed.

Lemma elem_of_connected (h : Hub) v :
  v ∈ connected h ↔ ∃ id, validators h !! id = Some v.
Proof.
  unfold connected. rewrite list_elem_of_fmap. split.
  - intros ([id v'] & -> & Hin). exists id. by apply elem_of_map_to_list.
  - intros [id Hin]. exists (id, v). split; [done|]. by apply elem_of_map_to_list.
Qed.

(** The inner loop, for one website. *)
Lemma dispatch_validators w vs n h log :
  foldl (dispatch env w) (n, h, log) vs
  = ((n + length vs)%nat,
     mkHub (db h) (validators h)
           (register_tasks uuid n (pair w <$> vs) (callbacks h)),
     log ++ cycle_effects uuid n (pair w <$> vs)).
Proof.
  revert n h log. induction vs as [|v vs IH]; intros n h log; simpl.
  - rewrite Nat.add_0_r, app_nil_r. by destruct h.
  - rewrite IH. simpl. rewrite <- app_assoc. simpl.
    rewrite Nat.add_succ_r. reflexivity.
Qed.

(** The two nested loops. *)
Lemma dispatch_websites ws vs n h log :
  foldl (λ st website, foldl (dispatch env website) st vs) (n, h, log) ws
  = ((n + length (tasks ws vs))%nat,
     mkHub (db h) (validators h)
           (register_tasks uuid n (tasks ws vs) (callbacks h)),
     log ++ cycle_effects uuid n (tasks ws vs)).
Proof.
  revert n h log. induction ws as [|w ws IH]; intros n h log.
  - simpl. rewrite Nat.add_0_r, app_nil_r. by destruct h.
  - rewrite tasks_cons. cbn [foldl]. rewrite dispatch_validators, IH. simpl.
    rewrite register_tasks_app, cycle_effects_app, !length_app, !length_fmap.
    rewrite <- app_assoc, Nat.add_assoc. done.
Qed.

(** The cycle, when the websites were fetched. *)
Lemma startMonitoring_cycle_eq h :
  cycle_find_fault env = false →
  startMonitoring_cycle env h
  = (mkHub (db h) (validators h)
           (register_tasks uuid 0
              (tasks (Find_active_Websites (db h)) (connected h)) (callbacks h)),
     cycle_effects uuid 0 (tasks (Find_active_Websites (db h)) (connected h))).
Proof.
  intros Hfind. unfold startMonitoring_cycle. rewrite Hfind.
  fold (connected h).
  case_bool_decide as Hws.
  { apply nil_length_inv in Hws. rewrite Hws. simpl. by destruct h. }
  case_bool_decide as Hvs.
  { apply nil_length_inv in Hvs. rewrite Hvs, tasks_nil_r. simpl. by destruct h. }
  rewrite dispatch_websites. done.
Qed.

Lemma startMonitoring_cycle_db h : db (fst (startMonitoring_cycle env h)) = db h.
Proof.
  destruct (cycle_find_fault env) eqn:Hfind.
  - unfold startMonitoring_cycle. by rewrite Hfind.
  - by rewrite startMonitoring_cycle_eq.
Qed.

(** Registration under fresh UUIDs. *)
Lemma register_tasks_other n ps m id :
  id ∉ uuid <$> seq n (length ps) →
  register_tasks uuid n ps m !! id = m !! id.
Proof.
  revert n m. induction ps as [|p ps IH]; intros n m Hid; [done|].
  simpl in *. rewrite not_elem_of_cons in Hid. destruct Hid as [Hne Hid].
  rewrite IH by done. by rewrite lookup_insert_ne.
Qed.

Lemma register_tasks_lookup n ps m k p :
  NoDup (uuid <$> seq n (length ps)) →
  ps !! k = Some p →
  register_tasks uuid n ps m !! uuid (n + k) = Some (task_callback p).
Proof.
  revert n m k. induction ps as [|q ps IH]; intros n m k Hnd Hk; [done|].
  simpl in Hnd. apply NoDup_cons in Hnd as [Hhd Hnd].
  destruct k as [|k]; simpl in *.
  - injection Hk as ->. rewrite Nat.add_0_r.
    rewrite register_tasks_other by done. by rewrite lookup_insert_eq.
  - replace (n + S k)%nat with (S n + k)%nat by lia. by apply IH.
Qed.

Lemma register_tasks_size n ps m :
  NoDup (uuid <$> seq n (length ps)) →
  (∀ k, (k < length ps)%nat → m !! uuid (n + k) = None) →
  size (register_tasks uuid n ps m) = (size m + length ps)%nat.
Proof.
  revert n m. induction ps as [|q ps IH]; intros n m Hnd Hfresh; simpl.
  - lia.
  - simpl in Hnd. apply NoDup_cons in Hnd as [Hhd Hnd].
    rewrite IH; [|done|].
    + rewrite map_size_insert_None; [lia|].
      specialize (Hfresh 0%nat). rewrite Nat.add_0_r in Hfresh.
      apply Hfresh. simpl. lia.
    + intros k Hk. rewrite lookup_insert_ne.
      * replace (S n + k)%nat with (n + S k)%nat by lia. apply Hfresh. simpl. lia.
      * intros Heq. apply Hhd. rewrite Heq.
        apply list_elem_of_fmap. exists (S n + k)%nat. split; [done|].
        apply elem_of_seq. lia.
Qed.

End DispatchCycle.

(* ===================================================================== *)
(** * The hub process and the ledger *)
(* ===================================================================== *)

Section HubLedger.

Implicit Types (h : Hub) (ev : HubEvent) (id : string).

Lemma handleValidate_store env data h :
  store_step (db h) (db (fst (handleValidate env data h))).
Proof.
  unfold handleValidate.
  destruct (RawMessage.asValidate data) as [validate|]; [|constructor].
  destruct (callbacks h !! _) as [cb|]; [|constructor].
  simpl. constructor.
Qed.

Lemma handleSignup_store env conn data h :
  store_step (db h) (db (fst (handleSignup env conn data h))).
Proof.
  unfold handleSignup.
  destruct (RawMessage.asSignup data) as [signup|]; [|constructor].
  destruct (signup_find_fault env); [constructor|].
  destruct (First_Validator_by_public_key _ _) as [validator|]; [constructor|].
  unfold Create_Validator.
  destruct (signup_create_fault env); [constructor|]. simpl.
  destruct (Validators (db h) !! signup_uuid env) eqn:Hfree; [constructor|].
  simpl. by apply (store_signup _ (Validator.mk _ _ _ _ _)).
Qed.

Lemma removeValidator_db conn h : db (removeValidator conn h) = db h.
Proof.
  unfold removeValidator.
  destruct (list_find _ _) as [[? [? ?]]|]; done.
Qed.

Lemma hub_step_store h ev : store_step (db h) (db (hub_step h ev)).
Proof.
  destruct ev as [senv cenv conn inb|env]; simpl.
  - destruct inb as [| |msg]; simpl.
    + rewrite removeValidator_db. constructor.
    + constructor.
    + destruct (String.eqb _ "signup"); [apply handleSignup_store|].
      destruct (String.eqb _ "validate"); [apply handleValidate_store|].
      constructor.
  - rewrite startMonitoring_cycle_db. constructor.
Qed.

(** Every store step keeps results and credit in agreement. *)
Lemma store_step_consistent d d' :
  store_step d d' → ledger_consistent d → ledger_consistent d'.
Proof.
  intros [|cb env msg|v Hfree Hzero] Hinv; [done|by apply callback_run_consistent|].
  destruct Hinv as [Hfk Hcredit]. split; simpl.
  - intros t Ht. destruct (decide (Validator.ID v = WebsiteTick.ValidatorID t)) as [<-|Hne].
    + by rewrite lookup_insert_eq.
    + rewrite lookup_insert_ne by done. by apply Hfk.
  - intros id v'. destruct (decide (Validator.ID v = id)) as [<-|Hne].
    + rewrite lookup_insert_eq. intros [= <-]. rewrite Hzero.
      rewrite ticks_for_nil; [done|]. intros t Ht Heq.
      apply Hfk in Ht as [? Ht]. rewrite Heq in Ht. congruence.
    + rewrite lookup_insert_ne by done. apply Hcredit.
Qed.

Lemma hub_run_consistent evs h :
  ledger_consistent (db h) → ledger_consistent (db (hub_run evs h)).
Proof.
  revert h. induction evs as [|ev evs IH]; intros h Hinv; [done|].
  simpl. apply IH. eapply store_step_consistent; [apply hub_step_store|done].
Qed.

Lemma credited_refl id d v : Validators d !! id = Some v → credited id d d.
Proof.
  intros Hv. exists [], v, v. rewrite app_nil_r. repeat split; try done.
  simpl. lia.
Qed.

Lemma credited_trans id d1 d2 d3 :
  credited id d1 d2 → credited id d2 d3 → credited id d1 d3.
Proof.
  intros (n1 & v1 & v2 & Ht1 & Hv1 & Hv2 & Hp1) (n2 & v2' & v3 & Ht2 & Hv2' & Hv3 & Hp2).
  assert (v2' = v2) as -> by congruence.
  exists (n1 ++ n2), v1, v3. rewrite Ht2, Ht1, <- app_assoc.
  repeat split; try done.
  rewrite ticks_for_app, length_app, Hp2, Hp1. lia.
Qed.

Lemma store_step_credited id d d' v :
  store_step d d' → Validators d !! id = Some v → credited id d d'.
Proof.
  intros [|cb env msg|v0 Hfree Hzero] Hv.
  - by eapply credited_refl.
  - destruct (callback_run_cases cb env msg d) as [->|(validate & _ & _ & ->)];
      [by eapply credited_refl|].
    destruct (decide (ValidateIncoming.ValidatorID validate = id)) as [Hid|Hid].
    + exists [tick_of cb env validate], v,
        (Validator.with_PendingPayouts
           (Validator.PendingPayouts v + COST_PER_VALIDATION) v).
      rewrite recorded_WebsiteTicks, recorded_Validators, decide_True, Hv by done.
      repeat split; try done. rewrite ticks_for_singleton. simpl.
      rewrite decide_True by done. simpl. lia.
    + exists [tick_of cb env validate], v, v.
      rewrite recorded_WebsiteTicks, recorded_Validators, decide_False, Hv by done.
      repeat split; try done. rewrite ticks_for_singleton. simpl.
      rewrite decide_False by done. simpl. lia.
  - exists [], v, v. simpl. rewrite app_nil_r.
    rewrite lookup_insert_ne by congruence.
    repeat split; try done. simpl. lia.
Qed.

Lemma hub_run_credited evs h id v :
  Validators (db h) !! id = Some v → credited id (db h) (db (hub_run evs h)).
Proof.
  revert h v. induction evs as [|ev evs IH]; intros h v Hv.
  - by eapply credited_refl.
  - simpl. pose proof (store_step_credited id _ _ v (hub_step_store h ev) Hv) as Hstep.
    eapply credited_trans; [exact Hstep|].
    destruct Hstep as (_ & _ & v' & _ & _ & Hv' & _). by eapply IH.
Qed.

End HubLedger.

(* ===================================================================== *)
(** * The hub: what the engine guarantees *)
(* ===================================================================== *)

Example Scenario_connected :
  validators Scenario.connected_hub
  = <["V1" := ValidatorConnection.mk "V1" "PK1" 1%nat]>
      (<["V2" := ValidatorConnection.mk "V2" "PK2" 2%nat]> ∅)
  ∧ pending_of "V1" (db Scenario.connected_hub) = Some 0%Z
  ∧ pending_of "V2" (db Scenario.connected_hub) = Some 0%Z.
Proof. by_evaluation. Qed.

(** The scenario of the specification: a [Good] reply with latency 120 for
    T1 from V1 leaves one row (T1, V1, Good, 120) and credit 100; the reply
    of V2 is recorded for V2; the duplicate reply changes nothing. *)
Example Scenario_replies :
  let h := hub_run Scenario.replies Scenario.connected_hub in
  WebsiteTicks (db h)
  = [WebsiteTick.mk "k-1" "T1" "V1" "Good" 120 1000;
     WebsiteTick.mk "k-2" "T2" "V2" "Bad" 10000 1001]
  ∧ pending_of "V1" (db h) = Some 100%Z
  ∧ pending_of "V2" (db h) = Some 100%Z
  ∧ dom (callbacks h) = {["cb-1"; "cb-3"]}.
Proof. by_evaluation. Qed.

(** C3. A reply handler runs in one transaction: on any store it either
    changes nothing, or it inserts the one tick of the reply and adds the
    per-check reward to the credit of the reply's validator. Hence in every
    store the hub reaches from a consistent one, every tick belongs to a
    validator of the store, and the credit of every validator is the reward
    times the number of its ticks: no tick without its credit, no credit
    without its tick. *)
Theorem tick_and_credit_all_or_nothing (h : Hub) (evs : list HubEvent) :
  ledger_consistent (db h) →
  (∀ cb env msg d, all_or_nothing cb env msg d (callback_run cb env msg d))
  ∧ ledger_consistent (db (hub_run evs h))
  ∧ (∀ cb env msg,
       ledger_consistent (callback_run cb env msg (db (hub_run evs h)))).
Proof.
  intros Hinv. pose proof (hub_run_consistent evs h Hinv) as Hrun.
  split_and!.
  - intros cb env msg d. apply callback_run_cases.
  - exact Hrun.
  - intros cb env msg. by apply callback_run_consistent.
Qed.

Lemma Scenario_db0_consistent : ledger_consistent (db (NewHub Scenario.db0)).
Proof.
  split; simpl.
  - intros t Ht. by apply elem_of_nil in Ht.
  - intros id v Hv. by rewrite lookup_empty in Hv.
Defined.

Lemma tick_and_credit_all_or_nothing_witness :
  let h := hub_run (Scenario.signups ++ Scenario.replies) (NewHub Scenario.db0) in
  (∀ cb env msg d, all_or_nothing cb env msg d (callback_run cb env msg d))
  ∧ ledger_consistent (db h)
  ∧ (∀ cb env msg, ledger_consistent (callback_run cb env msg (db h))).
Proof.
  exact (tick_and_credit_all_or_nothing
           (NewHub Scenario.db0) (Scenario.signups ++ Scenario.replies)
           Scenario_db0_consistent).
Defined.

(** C7. Starting from zero credit, after any run of the hub (handshakes,
    dispatch cycles, replies; no settlement) the pending credit of a
    validator is N times the per-check reward of 100 lamports, N being the
    number of results the run recorded for that validator. *)
Theorem credit_is_reward_times_results
    (h : Hub) (evs : list HubEvent) (id : string) (v : Validator.t) :
  Validators (db h) !! id = Some v →
  Validator.PendingPayouts v = 0%Z →
  ∃ new v',
    WebsiteTicks (db (hub_run evs h)) = WebsiteTicks (db h) ++ new
    ∧ Validators (db (hub_run evs h)) !! id = Some v'
    ∧ Validator.PendingPayouts v'
      = (Z.of_nat (length (ticks_for id new)) * COST_PER_VALIDATION)%Z
    ∧ COST_PER_VALIDATION = 100%Z.
Proof.
  intros Hv Hzero.
  destruct (hub_run_credited evs h id v Hv) as (new & v0 & v' & Hticks & Hv0 & Hv' & Hp).
  assert (v0 = v) as -> by congruence.
  exists new, v'. rewrite Hp, Hzero. done.
Qed.

Lemma credit_is_reward_times_results_witness :
  ∃ new v',
    WebsiteTicks (db (hub_run Scenario.replies Scenario.connected_hub))
    = WebsiteTicks (db Scenario.connected_hub) ++ new
    ∧ Validators (db (hub_run Scenario.replies Scenario.connected_hub)) !! "V1"
      = Some v'
    ∧ Validator.PendingPayouts v'
      = (Z.of_nat (length (ticks_for "V1" new)) * COST_PER_VALIDATION)%Z
    ∧ COST_PER_VALIDATION = 100%Z.
Proof.
  apply (credit_is_reward_times_results
           Scenario.connected_hub Scenario.replies "V1"
           (Validator.mk "V1" "PK1" "unknown" "127.0.0.1" 0)).
  - vm_compute. reflexivity.
  - reflexivity.
Defined.

(** C10. A handled reply is recorded and credited under the [validatorId]
    of its payload. The public key for which the handler was registered
    plays no part: the handler does the same whatever that key is, and
    every validator other than the one the payload names keeps its row. *)
Theorem reply_credits_payload_validator
    (websiteID validatorPublicKey : string) (env : CallbackEnv)
    (msg : IncomingMessage.t) (validate : ValidateIncoming.t) (d : DB) :
  RawMessage.asValidate (IncomingMessage.Data msg) = Some validate →
  callback_run (createValidateCallback websiteID validatorPublicKey) env msg d ≠ d →
  let d' := callback_run (createValidateCallback websiteID validatorPublicKey)
                         env msg d in
  (∃ tick, WebsiteTicks d' = WebsiteTicks d ++ [tick]
           ∧ WebsiteTick.ValidatorID tick = ValidateIncoming.ValidatorID validate
           ∧ WebsiteTick.WebsiteID tick = websiteID)
  ∧ (∃ v, Validators d !! ValidateIncoming.ValidatorID validate = Some v
          ∧ Validators d' !! ValidateIncoming.ValidatorID validate
            = Some (Validator.with_PendingPayouts
                      (Validator.PendingPayouts v + COST_PER_VALIDATION) v))
  ∧ (∀ id, id ≠ ValidateIncoming.ValidatorID validate →
           Validators d' !! id = Validators d !! id)
  ∧ (∀ otherPublicKey,
       callback_run (createValidateCallback websiteID otherPublicKey) env msg d
       = d').
Proof.
  intros Hdec Hne d'.
  destruct (callback_run_cases (createValidateCallback websiteID validatorPublicKey)
              env msg d) as [Hsame|(validate' & Hdec' & [v Hv] & Hrec)];
    [done|].
  assert (validate' = validate) as -> by congruence.
  subst d'. rewrite Hrec. repeat split.
  - eexists. rewrite recorded_WebsiteTicks. done.
  - exists v. rewrite recorded_Validators, decide_True, Hv by done. done.
  - intros id Hid. by rewrite recorded_Validators, decide_False.
  - intros otherPublicKey. rewrite <- Hrec. reflexivity.
Qed.

Lemma reply_credits_payload_validator_witness :
  let msg := IncomingMessage.mk "validate"
               (Scenario.reply "cb-2" "Bad" 10000 "V2" "T2") in
  let d := db Scenario.connected_hub in
  let d' := callback_run (createValidateCallback "T2" "PK1")
                         (Scenario.cenv "k-2" 1001) msg d in
  (∃ tick, WebsiteTicks d' = WebsiteTicks d ++ [tick]
           ∧ WebsiteTick.ValidatorID tick = "V2"
           ∧ WebsiteTick.WebsiteID tick = "T2")
  ∧ (∃ v, Validators d !! "V2" = Some v
          ∧ Validators d' !! "V2"
            = Some (Validator.with_PendingPayouts
                      (Validator.PendingPayouts v + COST_PER_VALIDATION) v))
  ∧ (∀ id, id ≠ "V2" → Validators d' !! id = Validators d !! id)
  ∧ (∀ otherPublicKey,
       callback_run (createValidateCallback "T2" otherPublicKey)
                    (Scenario.cenv "k-2" 1001) msg d
       = d').
Proof.
  apply (reply_credits_payload_validator "T2" "PK1" (Scenario.cenv "k-2" 1001)
           (IncomingMessage.mk "validate"
              (Scenario.reply "cb-2" "Bad" 10000 "V2" "T2"))
           (ValidateIncoming.mk "cb-2" "Bad" 10000 "V2" "T2" "c2lnbmVk")
           (db Scenario.connected_hub)).
  - reflexivity.
  - intros Heq. apply (f_equal (λ x, length (WebsiteTicks x))) in Heq.
    vm_compute in Heq. discriminate.
Defined.

(** C4. A reply whose correlation id has a registered handler invokes that
    handler exactly once, on the reply, and removes the id from the
    callback table, so that any later reply with the same id does nothing;
    a reply whose correlation id has no registered handler does nothing. *)
Theorem handleValidate_exactly_once
    (env : CallbackEnv) (data : RawMessage.t) (validate : ValidateIncoming.t)
    (h : Hub) :
  RawMessage.asValidate data = Some validate →
  (∀ cb, callbacks h !! ValidateIncoming.CallbackID validate = Some cb →
     let h' := fst (handleValidate env data h) in
     snd (handleValidate env data h)
     = [Invoked cb (IncomingMessage.mk "validate" data)]
     ∧ db h' = callback_run cb env (IncomingMessage.mk "validate" data) (db h)
     ∧ callbacks h' = delete (ValidateIncoming.CallbackID validate) (callbacks h)
     ∧ callbacks h' !! ValidateIncoming.CallbackID validate = None
     ∧ validators h' = validators h
     ∧ ∀ env' data' validate',
         RawMessage.asValidate data' = Some validate' →
         ValidateIncoming.CallbackID validate'
         = ValidateIncoming.CallbackID validate →
         handleValidate env' data' h' = (h', []))
  ∧ (callbacks h !! ValidateIncoming.CallbackID validate = None →
     handleValidate env data h = (h, [])).
Proof.
  intros Hdec. split.
  - intros cb Hcb h'.
    assert (handleValidate env data h
            = (mkHub (callback_run cb env (IncomingMessage.mk "validate" data) (db h))
                     (validators h)
                     (delete (ValidateIncoming.CallbackID validate) (callbacks h)),
               [Invoked cb (IncomingMessage.mk "validate" data)])) as Hrun.
    { unfold handleValidate. by rewrite Hdec, Hcb. }
    subst h'. rewrite Hrun. cbn [fst snd db callbacks validators].
    repeat split; try done.
    + apply lookup_delete_eq.
    + intros env' data' validate' Hdec' Hid.
      unfold handleValidate. rewrite Hdec', Hid. cbn [callbacks].
      by rewrite lookup_delete_eq.
  - intros Hnone. unfold handleValidate. by rewrite Hdec, Hnone.
Qed.

Lemma handleValidate_exactly_once_witness :
  let h := fst (startMonitoring_cycle (Scenario.cycle 0) Scenario.connected_hub) in
  let data := Scenario.reply "cb-0" "Good" 120 "V1" "T1" in
  let env := Scenario.cenv "k-1" 1000 in
  (∀ cb, callbacks h !! "cb-0" = Some cb →
     let h' := fst (handleValidate env data h) in
     snd (handleValidate env data h)
     = [Invoked cb (IncomingMessage.mk "validate" data)]
     ∧ db h' = callback_run cb env (IncomingMessage.mk "validate" data) (db h)
     ∧ callbacks h' = delete "cb-0" (callbacks h)
     ∧ callbacks h' !! "cb-0" = None
     ∧ validators h' = validators h
     ∧ ∀ env' data' validate',
         RawMessage.asValidate data' = Some validate' →
         ValidateIncoming.CallbackID validate' = "cb-0" →
         handleValidate env' data' h' = (h', []))
  ∧ (callbacks h !! "cb-0" = None → handleValidate env data h = (h, [])).
Proof.
  apply (handleValidate_exactly_once
           (Scenario.cenv "k-1" 1000)
           (Scenario.reply "cb-0" "Good" 120 "V1" "T1")
           (ValidateIncoming.mk "cb-0" "Good" 120 "V1" "T1" "c2lnbmVk")
           (fst (startMonitoring_cycle (Scenario.cycle 0) Scenario.connected_hub))).
  reflexivity.
Defined.

Example handleValidate_scenario :
  let h := fst (startMonitoring_cycle (Scenario.cycle 0) Scenario.connected_hub) in
  let data := Scenario.reply "cb-0" "Good" 120 "V1" "T1" in
  let late := Scenario.reply "cb-9" "Good" 120 "V1" "T1" in
  callbacks h !! "cb-0" = Some (createValidateCallback "T1" "PK1")
  ∧ snd (handleValidate (Scenario.cenv "k-1" 1000) data h)
    = [Invoked (createValidateCallback "T1" "PK1")
               (IncomingMessage.mk "validate" data)]
  ∧ handleValidate (Scenario.cenv "k-2" 1001) data
      (fst (handleValidate (Scenario.cenv "k-1" 1000) data h))
    = (fst (handleValidate (Scenario.cenv "k-1" 1000) data h), [])
  ∧ handleValidate (Scenario.cenv "k-1" 1000) late h = (h, []).
Proof. by_evaluation. Qed.

(** C9. In a dispatch cycle that fetched the active targets, for every
    pair of an active target and a connected validator, in loop order, the
    cycle draws one UUID, registers one handler under it and then writes
    one [validate] task [{url, callbackId, websiteId}] to the connection of
    that validator, and does nothing else: with fresh UUIDs the callback
    table gains exactly one entry per pair. When there is no active target
    or no connected validator it registers nothing and sends nothing. *)
Theorem startMonitoring_cycle_dispatches (env : CycleEnv) (h : Hub) :
  let ws := Find_active_Websites (db h) in
  let vs := connected h in
  let ps := tasks ws vs in
  let h' := fst (startMonitoring_cycle env h) in
  cycle_find_fault env = false →
  fresh_uuids (cycle_uuid env) (length ps) h →
  snd (startMonitoring_cycle env h) = cycle_effects (cycle_uuid env) 0 ps
  ∧ (∀ w, w ∈ ws ↔ Website.Disabled w = false
                   ∧ ∃ id, Websites (db h) !! id = Some w)
  ∧ (∀ v, v ∈ vs ↔ ∃ id, validators h !! id = Some v)
  ∧ (∀ w v, (w, v) ∈ ps ↔ w ∈ ws ∧ v ∈ vs)
  ∧ length ps = (length ws * length vs)%nat
  ∧ (∀ k p, ps !! k = Some p →
            callbacks h' !! cycle_uuid env k = Some (task_callback p))
  ∧ (∀ id, id ∉ cycle_uuid env <$> seq 0 (length ps) →
           callbacks h' !! id = callbacks h !! id)
  ∧ size (callbacks h') = (size (callbacks h) + length ps)%nat
  ∧ db h' = db h
  ∧ validators h' = validators h
  ∧ (ws = [] ∨ vs = [] → startMonitoring_cycle env h = (h, [])).
Proof.
  intros ws vs ps h' Hfind [Hnodup Hfresh]. subst h'.
  rewrite (startMonitoring_cycle_eq env h Hfind). fold ws vs ps.
  cbn [fst snd db callbacks validators].
  split_and!; try done.
  - intros w. apply elem_of_Find_active_Websites.
  - intros v. apply elem_of_connected.
  - intros w v. apply elem_of_tasks.
  - apply tasks_length.
  - intros k p Hk. by apply (register_tasks_lookup env 0 ps (callbacks h) k p).
  - intros id Hid. by apply register_tasks_other.
  - by apply register_tasks_size.
  - intros Hempty.
    assert (ps = []) as ->; [|by destruct h].
    subst ps. destruct Hempty as [-> | ->]; [done|apply tasks_nil_r].
Qed.

Lemma Scenario_cycle_fresh :
  fresh_uuids (cycle_uuid (Scenario.cycle 0))
    (length (tasks (Find_active_Websites (db Scenario.connected_hub))
                   (connected Scenario.connected_hub)))
    Scenario.connected_hub.
Proof.
  split.
  - vm_compute. by apply (bool_decide_unpack _).
  - intros k Hk.
    replace (callbacks Scenario.connected_hub) with (∅ : gmap string Callback.t)
      by (vm_compute; reflexivity).
    apply lookup_empty.
Defined.

Lemma startMonitoring_cycle_dispatches_witness :
  let env := Scenario.cycle 0 in
  let h := Scenario.connected_hub in
  let ws := Find_active_Websites (db h) in
  let vs := connected h in
  let ps := tasks ws vs in
  let h' := fst (startMonitoring_cycle env h) in
  snd (startMonitoring_cycle env h) = cycle_effects (cycle_uuid env) 0 ps
  ∧ (∀ w, w ∈ ws ↔ Website.Disabled w = false
                   ∧ ∃ id, Websites (db h) !! id = Some w)
  ∧ (∀ v, v ∈ vs ↔ ∃ id, validators h !! id = Some v)
  ∧ (∀ w v, (w, v) ∈ ps ↔ w ∈ ws ∧ v ∈ vs)
  ∧ length ps = (length ws * length vs)%nat
  ∧ (∀ k p, ps !! k = Some p →
            callbacks h' !! cycle_uuid env k = Some (task_callback p))
  ∧ (∀ id, id ∉ cycle_uuid env <$> seq 0 (length ps) →
           callbacks h' !! id = callbacks h !! id)
  ∧ size (callbacks h') = (size (callbacks h) + length ps)%nat
  ∧ db h' = db h
  ∧ validators h' = validators h
  ∧ (ws = [] ∨ vs = [] → startMonitoring_cycle env h = (h, [])).
Proof.
  exact (startMonitoring_cycle_dispatches
           (Scenario.cycle 0) Scenario.connected_hub eq_refl Scenario_cycle_fresh).
Defined.

(** The cycle of the scenario: four tasks, each registered and then sent. *)
Example Scenario_cycle :
  snd (startMonitoring_cycle (Scenario.cycle 0) Scenario.connected_hub)
  = [Registered "cb-0" (Callback.mk "T1" "PK1");
     WriteJSON 1%nat (OutgoingMessage.mk "validate"
                        (ValidateTask "https://one.example" "cb-0" "T1"));
     Registered "cb-1" (Callback.mk "T1" "PK2");
     WriteJSON 2%nat (OutgoingMessage.mk "validate"
                        (ValidateTask "https://one.example" "cb-1" "T1"));
     Registered "cb-2" (Callback.mk "T2" "PK1");
     WriteJSON 1%nat (OutgoingMessage.mk "validate"
                        (ValidateTask "https://two.example" "cb-2" "T2"));
     Registered "cb-3" (Callback.mk "T2" "PK2");
     WriteJSON 2%nat (OutgoingMessage.mk "validate"
                        (ValidateTask "https://two.example" "cb-3" "T2"))].
Proof. vm_compute. reflexivity. Qed.

(** No connected validator: the cycle is a no-op. *)
Example Scenario_cycle_idle :
  startMonitoring_cycle (Scenario.cycle 0) (NewHub Scenario.db0)
  = (NewHub Scenario.db0, []).
Proof. vm_compute. reflexivity. Qed.

(* ===================================================================== *)
(** * The payout request *)
(* ===================================================================== *)

Section PayoutRequest.

Import user.

Implicit Types (env : RequestEnv) (h : Handler) (validator : Validator.t).

(** The request that goes through: the credit is zeroed and one message
    for the whole credit is queued. *)
Lemma RequestPayout_queued env validatorID h validator :
  find_fault env = false → publish_fault env = false →
  update_fault env = false → commit_fault env = false →
  Validators (db h) !! validatorID = Some validator →
  (0 < Validator.PendingPayouts validator)%Z →
  RequestPayout env validatorID h
  = (mkHandler (set_pending_payouts (Validator.ID validator) 0 (db h))
               (rabbitMQ h ++ [payout_message env validator]),
     SuccessResponse StatusOK "queued" "Payout request queued for processing"
                     (Validator.PendingPayouts validator)).
Proof.
  intros Hfind Hpub Hupd Hcommit Hv Hpos. unfold RequestPayout.
  rewrite Hfind, Hv. destruct (Z.leb_spec (Validator.PendingPayouts validator) 0);
    [lia|].
  simpl. rewrite Hpub, Hupd, Hcommit. done.
Qed.

(** A request that answers [queued] went through. *)
Lemma RequestPayout_queued_inv env validatorID h h' code message amount :
  RequestPayout env validatorID h
  = (h', SuccessResponse code "queued" message amount) →
  ∃ validator,
    Validators (db h) !! validatorID = Some validator
    ∧ (0 < Validator.PendingPayouts validator)%Z
    ∧ amount = Validator.PendingPayouts validator
    ∧ h' = mkHandler (set_pending_payouts (Validator.ID validator) 0 (db h))
                     (rabbitMQ h ++ [payout_message env validator]).
Proof.
  unfold RequestPayout. destruct (find_fault env); [done|].
  destruct (Validators (db h) !! validatorID) as [validator|] eqn:Hv; [|done].
  destruct (Z.leb_spec (Validator.PendingPayouts validator) 0); [done|].
  simpl. destruct (publish_fault env); [done|].
  destruct (update_fault env); [done|].
  destruct (commit_fault env); [done|].
  intros [= <- _ _ <-]. by exists validator.
Qed.

(** A failed publish leaves the store and the queue as they were. *)
Lemma RequestPayout_publish_fault env validatorID h :
  publish_fault env = true → fst (RequestPayout env validatorID h) = h.
Proof.
  intros Hpub. unfold RequestPayout. destruct (find_fault env); [done|].
  destruct (Validators (db h) !! validatorID) as [validator|]; [|done].
  destruct (_ <=? _)%Z; [done|]. simpl. by rewrite Hpub.
Qed.

(** After the publish, a failed update or commit rolls the store back and
    leaves the message in the queue. *)
Lemma RequestPayout_fault_after_publish env validatorID h validator :
  find_fault env = false → publish_fault env = false →
  update_fault env = true ∨ commit_fault env = true →
  Validators (db h) !! validatorID = Some validator →
  (0 < Validator.PendingPayouts validator)%Z →
  fst (RequestPayout env validatorID h)
  = mkHandler (db h) (rabbitMQ h ++ [payout_message env validator])
  ∧ ∃ message,
      snd (RequestPayout env validatorID h)
      = ErrorResponse StatusInternalServerError message.
Proof.
  intros Hfind Hpub Hfault Hv Hpos. unfold RequestPayout.
  rewrite Hfind, Hv. destruct (Z.leb_spec (Validator.PendingPayouts validator) 0);
    [lia|].
  simpl. rewrite Hpub.
  destruct (update_fault env); [by eauto|].
  destruct Hfault as [?|Hcommit]; [done|]. rewrite Hcommit. by eauto.
Qed.

End PayoutRequest.

(** C1, at the input where the code departs from it. V1 holds 100
    lamports; the publish succeeds and the commit then fails. The request
    answers 500, the message for 100 lamports stays in the queue, and the
    credit of V1 is still 100: a message is enqueued while the credit is not
    zeroed. *)
Example RequestPayout_commit_fault_enqueues_without_zeroing :
  let h := Scenario.api in
  let h' := fst (user.RequestPayout Scenario.request_commit_fault "V1" h) in
  pending_of "V1" (user.db h) = Some 100%Z
  ∧ user.rabbitMQ h = []
  ∧ snd (user.RequestPayout Scenario.request_commit_fault "V1" h)
    = user.ErrorResponse 500 "Failed to commit transaction"
  ∧ user.rabbitMQ h' = [Scenario.message]
  ∧ pending_of "V1" (user.db h') = Some 100%Z.
Proof. by_evaluation. Qed.

(** The same when the update statement fails after the publish. *)
Example RequestPayout_update_fault_enqueues_without_zeroing :
  let h := Scenario.api in
  let h' := fst (user.RequestPayout Scenario.request_update_fault "V1" h) in
  snd (user.RequestPayout Scenario.request_update_fault "V1" h)
  = user.ErrorResponse 500 "Failed to update balance"
  ∧ user.rabbitMQ h' = [Scenario.message]
  ∧ pending_of "V1" (user.db h') = Some 100%Z.
Proof. by_evaluation. Qed.

(** The request that goes through, on the same input. *)
Example RequestPayout_scenario :
  snd (user.RequestPayout Scenario.request_ok "V1" Scenario.api)
  = user.SuccessResponse 200 "queued" "Payout request queued for processing" 100
  ∧ user.rabbitMQ Scenario.queued = [Scenario.message]
  ∧ pending_of "V1" (user.db Scenario.queued) = Some 0%Z
  ∧ pending_of "V2" (user.db Scenario.queued) = Some 100%Z.
Proof. by_evaluation. Qed.

(** C6. A payout request for a validator whose pending credit is 0 answers
    [cleared] with amount 0, publishes nothing and leaves the store as it
    was. *)
Theorem RequestPayout_cleared
    (env : user.RequestEnv) (validatorID : string) (h : user.Handler)
    (validator : Validator.t) :
  user.find_fault env = false →
  Validators (user.db h) !! validatorID = Some validator →
  Validator.PendingPayouts validator = 0%Z →
  user.RequestPayout env validatorID h
  = (h, user.SuccessResponse user.StatusOK "cleared" "all payment cleared" 0).
Proof.
  intros Hfind Hv Hzero. unfold user.RequestPayout.
  by rewrite Hfind, Hv, Hzero.
Qed.

Lemma RequestPayout_cleared_witness :
  user.RequestPayout Scenario.request_ok "V1" Scenario.queued
  = (Scenario.queued,
     user.SuccessResponse user.StatusOK "cleared" "all payment cleared" 0).
Proof.
  apply (RequestPayout_cleared Scenario.request_ok "V1" Scenario.queued
           (Validator.mk "V1" "PK1" "unknown" "127.0.0.1" 0)).
  - reflexivity.
  - vm_compute. reflexivity.
  - reflexivity.
Defined.

(* ===================================================================== *)
(** * The payout worker *)
(* ===================================================================== *)

Section PayoutWorker.

Import services.

Implicit Types (env : WorkerEnv) (w : PayoutWorker) (req : PayoutRequest.t).

(** The polling loop ends in one of three ways. *)
Lemma confirmation_loop_cases replies :
  confirmation_loop replies = (true, None)
  ∨ confirmation_loop replies = (false, Some "confirmation timeout")
  ∨ ∃ e, confirmation_loop replies = (false, Some ("transaction failed: " +:+ e)).
Proof.
  induction replies as [|[e|[st|]] rest IH]; simpl; [by eauto|done| |done].
  destruct (ConfirmationStatus st); [| |by left];
    (destruct (Err st) as [e|]; [by eauto|done]).
Qed.

Lemma confirmation_loop_timeout replies :
  forallb inconclusive replies = true →
  confirmation_loop replies = (false, Some "confirmation timeout").
Proof.
  unfold inconclusive. induction replies as [|[e|[st|]] rest IH]; simpl; [done|done| |done].
  destruct (ConfirmationStatus st), (Err st); simpl; try done.
Qed.

Lemma Create_PayoutTransaction_ok p d :
  PayoutTransactions d !! PayoutTransaction.ID p = None →
  is_Some (Validators d !! PayoutTransaction.ValidatorID p) →
  Create_PayoutTransaction false p d
  = Some (set_PayoutTransactions
            (<[PayoutTransaction.ID p := p]> (PayoutTransactions d)) d).
Proof.
  intros Hfree Hv. unfold Create_PayoutTransaction.
  rewrite Hfree. by rewrite bool_decide_eq_true_2.
Qed.

(** A delivery whose transfer is not submitted. *)
Lemma processPayoutRequest_not_submitted env delivery req w sig err :
  Body.asPayoutRequest (Body delivery) = Some req →
  record_create_fault env = false →
  PayoutTransactions (db w) !! record_uuid env = None →
  is_Some (Validators (db w) !! PayoutRequest.ValidatorID req) →
  executeSolanaTransfer env (PayoutRequest.PublicKey req) (PayoutRequest.Amount req)
  = (sig, Some err) →
  processPayoutRequest env delivery w
  = (mkPayoutWorker
       (unchecked (refund_fault env)
          (add_pending_payouts (PayoutRequest.ValidatorID req)
                               (PayoutRequest.Amount req))
          (unchecked (status_update_fault env)
             (mark_failed (record_uuid env) err (clock env 2%nat))
             (set_PayoutTransactions
                (<[record_uuid env := opened env req]> (PayoutTransactions (db w)))
                (db w)))),
     Nack false).
Proof.
  intros Hdec Hfault Hfree Hv Hexec. unfold processPayoutRequest.
  rewrite Hdec, Hfault.
  rewrite Create_PayoutTransaction_ok by done. simpl. by rewrite Hexec.
Qed.

(** A delivery whose transfer is submitted and not seen finalized. *)
Lemma processPayoutRequest_not_confirmed env delivery req w signature confirmed err :
  Body.asPayoutRequest (Body delivery) = Some req →
  record_create_fault env = false →
  PayoutTransactions (db w) !! record_uuid env = None →
  is_Some (Validators (db w) !! PayoutRequest.ValidatorID req) →
  executeSolanaTransfer env (PayoutRequest.PublicKey req) (PayoutRequest.Amount req)
  = (signature, None) →
  waitForConfirmation env signature (30 * Second) = (confirmed, err) →
  is_Some err ∨ confirmed = false →
  processPayoutRequest env delivery w
  = (mkPayoutWorker
       (unchecked (status_update_fault env)
          (mark_failed_with_signature (record_uuid env)
             "Transaction confirmation timeout" signature (clock env 2%nat))
          (set_PayoutTransactions
             (<[record_uuid env := opened env req]> (PayoutTransactions (db w)))
             (db w))),
     Nack false).
Proof.
  intros Hdec Hfault Hfree Hv Hexec Hwait Hbad. unfold processPayoutRequest.
  rewrite Hdec, Hfault.
  rewrite Create_PayoutTransaction_ok by done. simpl. rewrite Hexec, Hwait.
  destruct Hbad as [Herr| ->].
  - by rewrite bool_decide_eq_true_2.
  - by rewrite orb_true_r.
Qed.

End PayoutWorker.

(** The failure path when both of its statements run. When the transfer of
    a settlement message is not submitted, and the status update and the
    refund both take effect, the worker marks the settlement record
    [failed] with the error detail, adds the requested amount back to the
    validator's pending credit in one UPDATE statement, and rejects the
    message without requeueing it. When the message is the one a payout
    request just queued, the pending credit is again what it was before
    that request. *)
Lemma failed_submission_is_compensated
    (env : services.WorkerEnv) (delivery : services.Delivery)
    (req : PayoutRequest.t) (w : services.PayoutWorker) (sig err : string) :
  Body.asPayoutRequest (services.Body delivery) = Some req →
  services.record_create_fault env = false →
  PayoutTransactions (services.db w) !! services.record_uuid env = None →
  is_Some (Validators (services.db w) !! PayoutRequest.ValidatorID req) →
  services.executeSolanaTransfer env (PayoutRequest.PublicKey req)
                                 (PayoutRequest.Amount req)
  = (sig, Some err) →
  services.status_update_fault env = false →
  services.refund_fault env = false →
  let w' := fst (services.processPayoutRequest env delivery w) in
  snd (services.processPayoutRequest env delivery w) = services.Nack false
  ∧ PayoutTransactions (services.db w') !! services.record_uuid env
    = Some (failed_record env req "" err)
  ∧ pending_of (PayoutRequest.ValidatorID req) (services.db w')
    = (λ credit, credit + PayoutRequest.Amount req)%Z
        <$> pending_of (PayoutRequest.ValidatorID req) (services.db w)
  ∧ (∀ id, id ≠ PayoutRequest.ValidatorID req →
           Validators (services.db w') !! id = Validators (services.db w) !! id)
  ∧ WebsiteTicks (services.db w') = WebsiteTicks (services.db w)
  ∧ (∀ renv h code message amount timestamp,
       user.RequestPayout renv (PayoutRequest.ValidatorID req) h
       = (user.mkHandler (services.db w)
            (user.rabbitMQ h
             ++ [Publishing.mk "application/json" (services.Body delivery) timestamp]),
          user.SuccessResponse code "queued" message amount) →
       pending_of (PayoutRequest.ValidatorID req) (services.db w')
       = pending_of (PayoutRequest.ValidatorID req) (user.db h)
       ∧ pending_of (PayoutRequest.ValidatorID req) (user.db h)
         = Some (PayoutRequest.Amount req)).
Proof.
  intros Hdec Hfault Hfree Hv Hexec Hstatus Hrefund w'. subst w'.
  rewrite (processPayoutRequest_not_submitted env delivery req w sig err) by done.
  rewrite Hstatus, Hrefund. cbn [fst snd services.db services.unchecked].
  assert (pending_of (PayoutRequest.ValidatorID req)
            (add_pending_payouts (PayoutRequest.ValidatorID req) (PayoutRequest.Amount req)
               (services.mark_failed (services.record_uuid env) err
                  (services.clock env 2)
                  (set_PayoutTransactions
                     (<[services.record_uuid env:=opened env req]>
                        (PayoutTransactions (services.db w)))
                     (services.db w))))
          = (λ credit, credit + PayoutRequest.Amount req)%Z
              <$> pending_of (PayoutRequest.ValidatorID req) (services.db w)) as Hcredit.
  { unfold pending_of. simpl. rewrite lookup_alter_eq.
    by destruct (Validators (services.db w) !! _). }
  split_and!; try done.
  - simpl. rewrite lookup_alter_eq, lookup_insert_eq. done.
  - intros id Hid. simpl. by rewrite lookup_alter_ne.
  - intros renv h code message amount timestamp Hreq.
    apply RequestPayout_queued_inv in Hreq
      as (validator & Hrow & Hpos & -> & [= Hdb Hq]).
    apply app_inj_tail in Hq as [_ [= Hbody _]].
    rewrite Hbody in Hdec. injection Hdec as <-. simpl in *.
    rewrite Hcredit, Hdb. unfold pending_of. simpl.
    rewrite lookup_alter_eq, Hrow. simpl. done.
Qed.

Lemma failed_submission_is_compensated_witness :
  let env := Scenario.not_sent in
  let req := PayoutRequest.mk "V1" 100 "PK1" in
  let w := Scenario.worker in
  let w' := fst (services.processPayoutRequest env Scenario.delivery w) in
  snd (services.processPayoutRequest env Scenario.delivery w) = services.Nack false
  ∧ PayoutTransactions (services.db w') !! "P1"
    = Some (failed_record env req ""
              "failed to send transaction: connection refused")
  ∧ pending_of "V1" (services.db w')
    = (λ credit, credit + 100)%Z <$> pending_of "V1" (services.db w)
  ∧ (∀ id, id ≠ "V1" →
           Validators (services.db w') !! id = Validators (services.db w) !! id)
  ∧ WebsiteTicks (services.db w') = WebsiteTicks (services.db w)
  ∧ (∀ renv h code message amount timestamp,
       user.RequestPayout renv "V1" h
       = (user.mkHandler (services.db w)
            (user.rabbitMQ h
             ++ [Publishing.mk "application/json"
                               (services.Body Scenario.delivery) timestamp]),
          user.SuccessResponse code "queued" message amount) →
       pending_of "V1" (services.db w') = pending_of "V1" (user.db h)
       ∧ pending_of "V1" (user.db h) = Some 100%Z).
Proof.
  apply (failed_submission_is_compensated
           Scenario.not_sent Scenario.delivery (PayoutRequest.mk "V1" 100 "PK1")
           Scenario.worker "" "failed to send transaction: connection refused").
  - reflexivity.
  - reflexivity.
  - vm_compute. reflexivity.
  - vm_compute. eexists. reflexivity.
  - reflexivity.
  - reflexivity.
  - reflexivity.
Defined.

(** C2. The mark of the record and the re-credit are two statements
    outside any transaction, and the worker reads the result of neither.
    Settlement was requested for V1 with a pending credit of 100; the
    submission throws a network error and the refund statement fails. The
    record is marked [failed], the message is rejected without requeue, and
    the credit of V1 stays 0: it is not what it was before the request. *)
Theorem failed_submission_with_refund_fault_is_not_compensated :
  let w' := fst (services.processPayoutRequest
                   Cases.not_sent_refund_fault Scenario.delivery Scenario.worker) in
  pending_of "V1" Scenario.earned = Some 100%Z
  ∧ pending_of "V1" (services.db Scenario.worker) = Some 0%Z
  ∧ services.executeSolanaTransfer Cases.not_sent_refund_fault "PK1" 100
    = ("", Some "failed to send transaction: connection refused")
  ∧ snd (services.processPayoutRequest
           Cases.not_sent_refund_fault Scenario.delivery Scenario.worker)
    = services.Nack false
  ∧ PayoutTransactions (services.db w') !! "P1"
    = Some (PayoutTransaction.mk "P1" "V1" 100 "failed" ""
              "failed to send transaction: connection refused" 3000 3002)
  ∧ pending_of "V1" (services.db w') = Some 0%Z.
Proof. by_evaluation. Qed.

(** The other half of the same defect: the status update fails and the
    refund runs. The credit of V1 is 100 again, the message is gone, and
    the record stays [processing] without the error detail. *)
Example failed_submission_with_status_fault_stays_processing :
  let w' := fst (services.processPayoutRequest
                   Cases.not_sent_status_fault Scenario.delivery Scenario.worker) in
  snd (services.processPayoutRequest
         Cases.not_sent_status_fault Scenario.delivery Scenario.worker)
  = services.Nack false
  ∧ PayoutTransactions (services.db w') !! "P1"
    = Some (PayoutTransaction.mk "P1" "V1" 100 "processing" "" "" 3000 3001)
  ∧ pending_of "V1" (services.db w') = Some 100%Z.
Proof. by_evaluation. Qed.

(** The scenario of the specification: settlement requested for V1 with a
    pending credit of 100; the submission throws a network error. The
    record is [failed] and the credit of V1 is 100 again. *)
Example Scenario_not_sent :
  let w' := fst (services.processPayoutRequest
                   Scenario.not_sent Scenario.delivery Scenario.worker) in
  pending_of "V1" Scenario.earned = Some 100%Z
  ∧ pending_of "V1" (services.db Scenario.worker) = Some 0%Z
  ∧ pending_of "V1" (services.db w') = Some 100%Z
  ∧ PayoutTransactions (services.db w') !! "P1"
    = Some (PayoutTransaction.mk "P1" "V1" 100 "failed" ""
              "failed to send transaction: connection refused" 3000 3002)
  ∧ snd (services.processPayoutRequest
           Scenario.not_sent Scenario.delivery Scenario.worker)
    = services.Nack false.
Proof. by_evaluation. Qed.

(** The path of a transfer that [waitForConfirmation] does not confirm,
    when the status update runs. When the transfer was submitted and the
    wait for finality (bounded by 30 seconds) ends without it, by the
    deadline or by a failure reported with a status that is not finalized,
    the worker marks the settlement record [failed], keeps the transaction
    signature in it, rejects the message without requeueing it, and leaves
    every validator's pending credit as it was. *)
Lemma unconfirmed_transfer_is_not_compensated
    (env : services.WorkerEnv) (delivery : services.Delivery)
    (req : PayoutRequest.t) (w : services.PayoutWorker) (signature : string) :
  Body.asPayoutRequest (services.Body delivery) = Some req →
  services.record_create_fault env = false →
  PayoutTransactions (services.db w) !! services.record_uuid env = None →
  is_Some (Validators (services.db w) !! PayoutRequest.ValidatorID req) →
  services.executeSolanaTransfer env (PayoutRequest.PublicKey req)
                                 (PayoutRequest.Amount req)
  = (signature, None) →
  services.waitForConfirmation env signature (30 * Second) ≠ (true, None) →
  services.status_update_fault env = false →
  let w' := fst (services.processPayoutRequest env delivery w) in
  snd (services.processPayoutRequest env delivery w) = services.Nack false
  ∧ PayoutTransactions (services.db w') !! services.record_uuid env
    = Some (failed_record env req signature "Transaction confirmation timeout")
  ∧ Validators (services.db w') = Validators (services.db w)
  ∧ WebsiteTicks (services.db w') = WebsiteTicks (services.db w)
  ∧ (services.waitForConfirmation env signature (30 * Second)
     = (false, Some "confirmation timeout")
     ∨ ∃ e, services.waitForConfirmation env signature (30 * Second)
            = (false, Some ("transaction failed: " +:+ e)))
  ∧ (30 * Second = 30000000000)%Z.
Proof.
  intros Hdec Hfault Hfree Hv Hexec Hbad Hstatus w'. subst w'.
  assert (∃ err, services.waitForConfirmation env signature (30 * Second)
                 = (false, Some err)
                 ∧ (err = "confirmation timeout"
                    ∨ ∃ e, err = "transaction failed: " +:+ e))
    as (err & Hwait & Herr).
  { unfold services.waitForConfirmation in *.
    destruct (confirmation_loop_cases (services.polls env signature (30 * Second)))
      as [Hloop|[Hloop|[e Hloop]]]; [done| |]; rewrite Hloop; by eauto. }
  rewrite (processPayoutRequest_not_confirmed
             env delivery req w signature false (Some err))
    by (try done; by right).
  rewrite Hstatus. cbn [fst snd services.db services.unchecked].
  split_and!; try done.
  - simpl. by rewrite lookup_alter_eq, lookup_insert_eq.
  - rewrite Hwait. destruct Herr as [->|[e ->]]; by eauto.
Qed.

Lemma unconfirmed_transfer_is_not_compensated_witness :
  let env := Scenario.timed_out in
  let req := PayoutRequest.mk "V1" 100 "PK1" in
  let w := Scenario.worker in
  let w' := fst (services.processPayoutRequest env Scenario.delivery w) in
  snd (services.processPayoutRequest env Scenario.delivery w) = services.Nack false
  ∧ PayoutTransactions (services.db w') !! "P1"
    = Some (failed_record env req "5igN4tur3" "Transaction confirmation timeout")
  ∧ Validators (services.db w') = Validators (services.db w)
  ∧ WebsiteTicks (services.db w') = WebsiteTicks (services.db w)
  ∧ (services.waitForConfirmation env "5igN4tur3" (30 * Second)
     = (false, Some "confirmation timeout")
     ∨ ∃ e, services.waitForConfirmation env "5igN4tur3" (30 * Second)
            = (false, Some ("transaction failed: " +:+ e)))
  ∧ (30 * Second = 30000000000)%Z.
Proof.
  apply (unconfirmed_transfer_is_not_compensated
           Scenario.timed_out Scenario.delivery (PayoutRequest.mk "V1" 100 "PK1")
           Scenario.worker "5igN4tur3").
  - reflexivity.
  - reflexivity.
  - vm_compute. reflexivity.
  - vm_compute. eexists. reflexivity.
  - reflexivity.
  - vm_compute. discriminate.
  - reflexivity.
Defined.

(** C5. A failure reported on chain with the status [finalized] is taken
    for a confirmation: [waitForConfirmation] tests the status before the
    error. Settlement was requested for V1; the transfer is submitted and
    the first conclusive reply is finalized and carries the error
    [InstructionError]. The worker marks the record [completed], not
    [failed], and acknowledges the message instead of rejecting it; the
    credit of V1 stays 0. *)
Theorem failure_reported_finalized_is_recorded_completed :
  let w' := fst (services.processPayoutRequest
                   Cases.finalized_with_error Scenario.delivery Scenario.worker) in
  services.polls Cases.finalized_with_error "5igN4tur3" (30 * Second)
  = [services.PollValue None;
     services.PollValue
       (Some (services.mkStatus services.ConfirmationStatusFinalized
                                (Some "InstructionError")))]
  ∧ services.waitForConfirmation Cases.finalized_with_error "5igN4tur3"
                                 (30 * Second)
    = (true, None)
  ∧ snd (services.processPayoutRequest
           Cases.finalized_with_error Scenario.delivery Scenario.worker)
    = services.Ack
  ∧ PayoutTransactions (services.db w') !! "P1"
    = Some (PayoutTransaction.mk "P1" "V1" 100 "completed" "5igN4tur3" ""
              3000 3002)
  ∧ pending_of "V1" (services.db w') = Some 0%Z.
Proof. by_evaluation. Qed.

(** The status update of this path is not checked either: when it fails
    after a timeout, the message is rejected and the record stays
    [processing], without the transaction signature. *)
Example unconfirmed_transfer_with_status_fault_stays_processing :
  let env := Cases.with_faults Scenario.timed_out "P1" true false false in
  let w' := fst (services.processPayoutRequest env Scenario.delivery
                   Scenario.worker) in
  snd (services.processPayoutRequest env Scenario.delivery Scenario.worker)
  = services.Nack false
  ∧ PayoutTransactions (services.db w') !! "P1"
    = Some (PayoutTransaction.mk "P1" "V1" 100 "processing" "" "" 3000 3001)
  ∧ pending_of "V1" (services.db w') = Some 0%Z.
Proof. by_evaluation. Qed.

(** The three ways a submitted transfer ends, on the scenario. *)
Example Scenario_submitted :
  let run env := services.processPayoutRequest env Scenario.delivery Scenario.worker in
  snd (run Scenario.timed_out) = services.Nack false
  ∧ PayoutTransactions (services.db (fst (run Scenario.timed_out))) !! "P1"
    = Some (PayoutTransaction.mk "P1" "V1" 100 "failed" "5igN4tur3"
              "Transaction confirmation timeout" 3000 3002)
  ∧ pending_of "V1" (services.db (fst (run Scenario.timed_out))) = Some 0%Z
  ∧ snd (run Scenario.failed_on_chain) = services.Nack false
  ∧ PayoutTransactions (services.db (fst (run Scenario.failed_on_chain))) !! "P1"
    = Some (PayoutTransaction.mk "P1" "V1" 100 "failed" "5igN4tur3"
              "Transaction confirmation timeout" 3000 3002)
  ∧ pending_of "V1" (services.db (fst (run Scenario.failed_on_chain))) = Some 0%Z
  ∧ services.waitForConfirmation Scenario.failed_on_chain "5igN4tur3" (30 * Second)
    = (false, Some "transaction failed: InsufficientFundsForFee")
  ∧ snd (run Scenario.finalized) = services.Ack
  ∧ PayoutTransactions (services.db (fst (run Scenario.finalized))) !! "P1"
    = Some (PayoutTransaction.mk "P1" "V1" 100 "completed" "5igN4tur3" "" 3000 3002)
  ∧ pending_of "V1" (services.db (fst (run Scenario.finalized))) = Some 0%Z.
Proof. by_evaluation. Qed.

(* ===================================================================== *)
(** * The validator agent *)
(* ===================================================================== *)

(** C8. For a probe task the agent issues one GET through a client whose
    timeout is 10 seconds; it reports [Good] exactly when that request
    returns without error and with status code 200, and [Bad] otherwise; the
    latency it reports is the elapsed time in whole milliseconds, which is
    not negative. The reply frame carries this status and latency together
    with the correlation id and the target id of the task. *)
Theorem validateWebsite_classifies
    (env : validator.ProbeEnv) (v : validator.ValidatorClient)
    (data : validator.ValidateData.t) :
  (0 ≤ validator.since_start env)%Z →
  let p := validator.validateWebsite env v data in
  let result := validator.Get env (validator.probe_client p)
                              (validator.ValidateData.URL data) in
  validator.Timeout (validator.probe_client p) = (10 * Second)%Z
  ∧ (10 * Second = 10000000000)%Z
  ∧ (validator.probe_status p = "Good" ↔ result = validator.GetResponse 200)
  ∧ (validator.probe_status p = "Bad" ↔ result ≠ validator.GetResponse 200)
  ∧ (validator.probe_latency p = validator.since_start env `div` 1000000)%Z
  ∧ (0 ≤ validator.probe_latency p)%Z
  ∧ RawMessage.asValidate (IncomingMessage.Data (validator.probe_frame p))
    = Some (ValidateIncoming.mk (validator.ValidateData.CallbackID data)
                                (validator.probe_status p)
                                (validator.probe_latency p)
                                (validator.validatorID v)
                                (validator.ValidateData.WebsiteID data)
                                (validator.signMessage env v
                                   ("Replying to "
                                    +:+ validator.ValidateData.CallbackID data)))
  ∧ IncomingMessage.Type_ (validator.probe_frame p) = "validate".
Proof.
  intros Helapsed p result. subst p result.
  unfold validator.validateWebsite. cbn [validator.probe_client validator.probe_status
    validator.probe_latency validator.probe_frame validator.Timeout
    IncomingMessage.Data IncomingMessage.Type_ RawMessage.asValidate].
  unfold validator.Milliseconds. rewrite Z.quot_div_nonneg by lia.
  split_and!; try done.
  - destruct (validator.Get env _ _) as [e|code]; [done|].
    destruct (Z.eqb_spec code 200) as [->|Hne]; [done|].
    split; [done|]. intros [= ?]. done.
  - destruct (validator.Get env _ _) as [e|code]; [done|].
    destruct (Z.eqb_spec code 200) as [->|Hne]; [done|].
    split; [|done]. intros _ [= ?]. done.
  - apply Z.div_pos; lia.
Qed.

Lemma validateWebsite_classifies_witness :
  let env := Scenario.probe_env (validator.GetResponse 200) 120456789 in
  let p := validator.validateWebsite env Scenario.agent Scenario.task in
  let result := validator.Get env (validator.probe_client p) "https://one.example" in
  validator.Timeout (validator.probe_client p) = (10 * Second)%Z
  ∧ (10 * Second = 10000000000)%Z
  ∧ (validator.probe_status p = "Good" ↔ result = validator.GetResponse 200)
  ∧ (validator.probe_status p = "Bad" ↔ result ≠ validator.GetResponse 200)
  ∧ (validator.probe_latency p = 120456789 `div` 1000000)%Z
  ∧ (0 ≤ validator.probe_latency p)%Z
  ∧ RawMessage.asValidate (IncomingMessage.Data (validator.probe_frame p))
    = Some (ValidateIncoming.mk "cb-0" (validator.probe_status p)
                                (validator.probe_latency p) "V1" "T1"
                                (validator.signMessage env Scenario.agent
                                   ("Replying to " +:+ "cb-0")))
  ∧ IncomingMessage.Type_ (validator.probe_frame p) = "validate".
Proof.
  apply (validateWebsite_classifies
           (Scenario.probe_env (validator.GetResponse 200) 120456789)
           Scenario.agent Scenario.task).
  vm_compute. discriminate.
Defined.

(** A 200 within the timeout is [Good] with the latency in milliseconds; an
    error, such as a timeout, and any other status code are [Bad]. The
    frame of the first probe is the reply the hub records in the scenario. *)
Example Scenario_probe :
  let probe result elapsed :=
    validator.validateWebsite (Scenario.probe_env result elapsed)
                              Scenario.agent Scenario.task in
  validator.probe_status (probe (validator.GetResponse 200) 120456789%Z) = "Good"
  ∧ validator.probe_latency (probe (validator.GetResponse 200) 120456789%Z) = 120%Z
  ∧ validator.probe_status (probe (validator.GetResponse 503) 80000000%Z) = "Bad"
  ∧ validator.probe_status
      (probe (validator.GetError "context deadline exceeded") 10000123456%Z) = "Bad"
  ∧ validator.probe_latency
      (probe (validator.GetError "context deadline exceeded") 10000123456%Z) = 10000%Z
  ∧ IncomingMessage.Data
      (validator.probe_frame (probe (validator.GetResponse 200) 120456789%Z))
    = Scenario.reply "cb-0" "Good" 120 "V1" "T1".
Proof. by_evaluation. Qed.

(* ===================================================================== *)
(** * Further properties of the hub *)
(* ===================================================================== *)

Section HubIdentities.

Implicit Types (h : Hub) (d : DB) (v : Validator.t) (pk id : string).

Lemma First_Validator_by_public_key_Some pk d v :
  First_Validator_by_public_key pk d = Some v →
  Validator.PublicKey v = pk ∧ ∃ id, Validators d !! id = Some v.
Proof.
  unfold First_Validator_by_public_key.
  destruct (list_find _ _) as [[i [id v']]|] eqn:Hfind; [|done].
  intros [= <-]. apply list_find_Some in Hfind as (Hi & Hpk & _).
  split; [done|]. exists id. apply elem_of_map_to_list.
  by eapply list_elem_of_lookup_2.
Qed.

Lemma First_Validator_by_public_key_None pk d id v :
  First_Validator_by_public_key pk d = None →
  Validators d !! id = Some v → Validator.PublicKey v ≠ pk.
Proof.
  unfold First_Validator_by_public_key.
  destruct (list_find _ _) as [hit|] eqn:Hfind; [done|]. intros _ Hv.
  apply list_find_None in Hfind. rewrite Forall_forall in Hfind.
  apply (Hfind (id, v)). by apply elem_of_map_to_list.
Qed.

(** With one row per public key, the lookup finds the row of the key. *)
Lemma First_Validator_by_public_key_unique d id v :
  unique_public_keys d → Validators d !! id = Some v →
  First_Validator_by_public_key (Validator.PublicKey v) d = Some v.
Proof.
  intros Huniq Hv.
  destruct (First_Validator_by_public_key _ d) as [v'|] eqn:Hfind.
  - apply First_Validator_by_public_key_Some in Hfind as [Hpk [id' Hv']].
    assert (id' = id) as -> by (by eapply Huniq). congruence.
  - by eapply First_Validator_by_public_key_None in Hfind.
Qed.

Lemma recorded_well_formed cb env validate d :
  identities_well_formed d → identities_well_formed (recorded cb env validate d).
Proof.
  intros [Hkey Huniq]. split.
  - intros id v. rewrite recorded_Validators.
    case_decide; [|by apply Hkey].
    destruct (Validators d !! id) as [v0|] eqn:Hv0; simpl; [|done].
    intros [= <-]. simpl. by apply Hkey.
  - intros id1 id2 v1 v2. rewrite !recorded_Validators.
    intros H1 H2 Hpk.
    assert (∀ id v, (if decide (ValidateIncoming.ValidatorID validate = id)
                     then (λ v, Validator.with_PendingPayouts
                                  (Validator.PendingPayouts v + COST_PER_VALIDATION) v)
                            <$> Validators d !! id
                     else Validators d !! id) = Some v →
                    ∃ v0, Validators d !! id = Some v0
                          ∧ Validator.PublicKey v0 = Validator.PublicKey v) as Hrow.
    { intros id v.
      destruct (decide (ValidateIncoming.ValidatorID validate = id)) as [Hid|Hid].
      - destruct (Validators d !! id) as [v0|]; simpl; [|done].
        intros [= <-]. exists v0. done.
      - intros Hv. exists v. done. }
    apply Hrow in H1 as (w1 & H1 & Hpk1). apply Hrow in H2 as (w2 & H2 & Hpk2).
    eapply Huniq; [exact H1|exact H2|congruence].
Qed.

Lemma handleSignup_well_formed env conn data h :
  identities_well_formed (db h) →
  identities_well_formed (db (fst (handleSignup env conn data h))).
Proof.
  intros Hwf. unfold handleSignup.
  destruct (RawMessage.asSignup data) as [signup|]; [|done].
  destruct (signup_find_fault env); [done|].
  destruct (First_Validator_by_public_key _ _) as [validator|] eqn:Hfind; [done|].
  unfold Create_Validator.
  destruct (signup_create_fault env); [done|]. simpl.
  destruct (Validators (db h) !! signup_uuid env) eqn:Hfree; [done|]. simpl.
  destruct Hwf as [Hkey Huniq]. split.
  - intros id v. simpl. destruct (decide (signup_uuid env = id)) as [<-|Hne].
    + rewrite lookup_insert_eq. by intros [= <-].
    + rewrite lookup_insert_ne by done. apply Hkey.
  - intros id1 id2 v1 v2. simpl.
    destruct (decide (signup_uuid env = id1)) as [<-|Hne1],
             (decide (signup_uuid env = id2)) as [<-|Hne2]; [done| | |].
    + rewrite lookup_insert_eq, lookup_insert_ne by done.
      intros [= <-] H2 Hpk. simpl in Hpk.
      by eapply First_Validator_by_public_key_None in Hfind.
    + rewrite lookup_insert_eq, lookup_insert_ne by done.
      intros H1 [= <-] Hpk. simpl in Hpk.
      by eapply First_Validator_by_public_key_None in Hfind.
    + rewrite !lookup_insert_ne by done. apply Huniq.
Qed.

Lemma hub_step_well_formed h ev :
  identities_well_formed (db h) → identities_well_formed (db (hub_step h ev)).
Proof.
  intros Hwf. destruct ev as [senv cenv conn inb|env]; simpl.
  - destruct inb as [| |msg]; simpl; [by rewrite removeValidator_db|done|].
    destruct (String.eqb _ "signup"); [by apply handleSignup_well_formed|].
    destruct (String.eqb _ "validate"); [|done].
    unfold handleValidate.
    destruct (RawMessage.asValidate _) as [validate|]; [|done].
    destruct (callbacks h !! _) as [cb|]; [|done]. simpl.
    destruct (callback_run_cases cb cenv
                (IncomingMessage.mk "validate" (IncomingMessage.Data msg)) (db h))
      as [->|(validate' & _ & _ & ->)]; [done|].
    by apply recorded_well_formed.
  - by rewrite startMonitoring_cycle_db.
Qed.

End HubIdentities.

(** X1. Over any run of the hub the validator table keeps one row per
    public key, each stored under its own [ID]: a handshake creates a row
    only for a public key no row has, and a recorded reply changes nothing
    of a row but its credit. *)
Theorem hub_run_keeps_identities (evs : list HubEvent) (h : Hub) :
  identities_well_formed (db h) →
  identities_well_formed (db (hub_run evs h)).
Proof.
  revert h. induction evs as [|ev evs IH]; intros h Hwf; [done|].
  simpl. apply IH. by apply hub_step_well_formed.
Qed.

Lemma Scenario_db0_well_formed : identities_well_formed (db (NewHub Scenario.db0)).
Proof.
  split; [intros id v Hv|intros id1 id2 v1 v2 Hv];
    simpl in Hv; by rewrite lookup_empty in Hv.
Defined.

Lemma hub_run_keeps_identities_witness :
  identities_well_formed
    (db (hub_run (Scenario.signups ++ Scenario.signups ++ Scenario.replies)
                 (NewHub Scenario.db0))).
Proof.
  exact (hub_run_keeps_identities
           (Scenario.signups ++ Scenario.signups ++ Scenario.replies)
           (NewHub Scenario.db0) Scenario_db0_well_formed).
Defined.

Section HubFrame.

Implicit Types (h : Hub) (d : DB) (v : Validator.t).

Lemma with_PendingPayouts_same v :
  Validator.with_PendingPayouts (Validator.PendingPayouts v) v = v.
Proof. by destruct v. Qed.

Lemma hub_frame_refl d : hub_frame d d.
Proof.
  split_and!; try done.
  - exists []. by rewrite app_nil_r.
  - intros id v Hv. exists (Validator.PendingPayouts v).
    by rewrite with_PendingPayouts_same.
Qed.

Lemma hub_frame_trans d1 d2 d3 :
  hub_frame d1 d2 → hub_frame d2 d3 → hub_frame d1 d3.
Proof.
  intros (Hw1 & Hp1 & [n1 Ht1] & Hv1) (Hw2 & Hp2 & [n2 Ht2] & Hv2).
  split_and!; [congruence|congruence| |].
  - exists (n1 ++ n2). by rewrite Ht2, Ht1, <- app_assoc.
  - intros id v Hv. destruct (Hv1 id v Hv) as (c1 & Hc1 & Hrow1).
    destruct (Hv2 id _ Hrow1) as (c2 & Hc2 & Hrow2). simpl in *.
    exists c2. split; [lia|]. rewrite Hrow2. by destruct v.
Qed.

Lemma store_step_frame d d' : store_step d d' → hub_frame d d'.
Proof.
  intros [|cb env msg|v0 Hfree Hzero]; [apply hub_frame_refl| |].
  - destruct (callback_run_cases cb env msg d) as [->|(validate & _ & _ & ->)];
      [apply hub_frame_refl|].
    split_and!; try done.
    + by eexists.
    + intros id v Hv. rewrite recorded_Validators, Hv.
      destruct (decide (ValidateIncoming.ValidatorID validate = id)) as [Hid|Hid].
      * exists (Validator.PendingPayouts v + COST_PER_VALIDATION)%Z.
        split; [unfold COST_PER_VALIDATION; lia|done].
      * exists (Validator.PendingPayouts v). by rewrite with_PendingPayouts_same.
  - split_and!; try done.
    + exists []. by rewrite app_nil_r.
    + intros id v Hv. exists (Validator.PendingPayouts v). simpl.
      rewrite lookup_insert_ne by congruence.
      by rewrite with_PendingPayouts_same.
Qed.

Lemma hub_run_frame_holds evs h : hub_frame (db h) (db (hub_run evs h)).
Proof.
  revert h. induction evs as [|ev evs IH]; intros h; [apply hub_frame_refl|].
  simpl. eapply hub_frame_trans; [|apply IH].
  apply store_step_frame, hub_step_store.
Qed.

Lemma hub_run_well_formed evs h :
  identities_well_formed (db h) → identities_well_formed (db (hub_run evs h)).
Proof.
  revert h. induction evs as [|ev evs IH]; intros h Hwf; [done|].
  simpl. apply IH. by apply hub_step_well_formed.
Qed.

End HubFrame.

(** X2. Whatever the hub does, it leaves the targets and the settlement
    records as they are, only appends to the ticks, and never removes a
    validator row, changes its identity or lowers its credit. *)
Theorem hub_run_frame (evs : list HubEvent) (h : Hub) :
  Websites (db (hub_run evs h)) = Websites (db h)
  ∧ PayoutTransactions (db (hub_run evs h)) = PayoutTransactions (db h)
  ∧ (∃ new, WebsiteTicks (db (hub_run evs h)) = WebsiteTicks (db h) ++ new)
  ∧ ∀ id v, Validators (db h) !! id = Some v →
            ∃ credit, (Validator.PendingPayouts v ≤ credit)%Z
                      ∧ Validators (db (hub_run evs h)) !! id
                        = Some (Validator.with_PendingPayouts credit v).
Proof. apply hub_run_frame_holds. Qed.

(** X3. Once a validator row exists for a public key, every later
    handshake with that key, after any activity of the hub and on any
    connection, is answered with the id of that row and the caller's
    callback id, creates no row and keeps the credit; the registry then
    holds that id with the new connection. *)
Theorem handshake_returns_the_same_identity
    (h : Hub) (id : string) (v : Validator.t) (evs : list HubEvent)
    (env : SignupEnv) (conn : Conn) (data : RawMessage.t)
    (signup : SignupIncoming.t) :
  identities_well_formed (db h) →
  Validators (db h) !! id = Some v →
  RawMessage.asSignup data = Some signup →
  SignupIncoming.PublicKey signup = Validator.PublicKey v →
  signup_find_fault env = false →
  let h1 := hub_run evs h in
  handleSignup env conn data h1
  = (mkHub (db h1)
           (<[id := ValidatorConnection.mk id (Validator.PublicKey v) conn]>
              (validators h1))
           (callbacks h1),
     [WriteJSON conn
        (OutgoingMessage.mk "signup"
           (SignupReply id (SignupIncoming.CallbackID signup)))])
  ∧ ∃ credit, (Validator.PendingPayouts v ≤ credit)%Z
              ∧ Validators (db h1) !! id
                = Some (Validator.with_PendingPayouts credit v).
Proof.
  intros Hwf Hv Hdec Hpk Hfind h1.
  destruct (hub_run_frame_holds evs h) as (_ & _ & _ & Hrows).
  destruct (Hrows id v Hv) as (credit & Hle & Hrow). fold h1 in Hrow.
  destruct (hub_run_well_formed evs h Hwf) as [Hkey Huniq]. fold h1 in Hkey, Huniq.
  split; [|by exists credit].
  pose proof (First_Validator_by_public_key_unique _ _ _ Huniq Hrow) as Hfirst.
  simpl in Hfirst. unfold handleSignup. rewrite Hdec, Hfind, Hpk, Hfirst.
  pose proof (Hkey _ _ Hrow) as Hid. simpl in Hid. simpl. by rewrite Hid.
Qed.

Lemma handshake_returns_the_same_identity_witness :
  let h1 := hub_run (Scenario.replies ++ Cases.later) Scenario.connected_hub in
  let v := Validator.mk "V1" "PK1" "unknown" "127.0.0.1" 0 in
  handleSignup (Scenario.senv "V7") 5%nat
               (RawMessage.mk (Some (SignupIncoming.mk "10.0.0.1" "PK1" "" "s-7")) None)
               h1
  = (mkHub (db h1)
           (<["V1" := ValidatorConnection.mk "V1" "PK1" 5%nat]> (validators h1))
           (callbacks h1),
     [WriteJSON 5%nat (OutgoingMessage.mk "signup" (SignupReply "V1" "s-7"))])
  ∧ ∃ credit, (0 ≤ credit)%Z
              ∧ Validators (db h1) !! "V1"
                = Some (Validator.with_PendingPayouts credit v).
Proof.
  apply (handshake_returns_the_same_identity
           Scenario.connected_hub "V1"
           (Validator.mk "V1" "PK1" "unknown" "127.0.0.1" 0)
           (Scenario.replies ++ Cases.later) (Scenario.senv "V7") 5%nat
           (RawMessage.mk (Some (SignupIncoming.mk "10.0.0.1" "PK1" "" "s-7")) None)
           (SignupIncoming.mk "10.0.0.1" "PK1" "" "s-7")).
  - exact (hub_run_well_formed Scenario.signups (NewHub Scenario.db0)
             Scenario_db0_well_formed).
  - vm_compute. reflexivity.
  - reflexivity.
  - reflexivity.
  - reflexivity.
Defined.

Section Disconnect.

Implicit Types (h : Hub) (vc : ValidatorConnection.t).

(** [removeValidator], by cases on the registry. *)
Lemma removeValidator_cases conn h :
  (removeValidator conn h = h
   ∧ ∀ id vc, validators h !! id = Some vc → ValidatorConnection.Conn vc ≠ conn)
  ∨ ∃ id vc,
      validators h !! id = Some vc
      ∧ ValidatorConnection.Conn vc = conn
      ∧ removeValidator conn h = mkHub (db h) (delete id (validators h)) (callbacks h).
Proof.
  unfold removeValidator.
  destruct (list_find _ _) as [[i [id vc]]|] eqn:Hfind.
  - right. exists id, vc. apply list_find_Some in Hfind as (Hi & Hconn & _).
    split_and!; try done.
    apply elem_of_map_to_list. by eapply list_elem_of_lookup_2.
  - left. split; [done|]. intros id vc Hvc.
    apply list_find_None in Hfind. rewrite Forall_forall in Hfind.
    apply (Hfind (id, vc)). by apply elem_of_map_to_list.
Qed.

End Disconnect.

(** X4. A read error on a connection unregisters at most one validator,
    and only one registered with that very connection: the entries of other
    connections stay (so the late error of an old connection does not
    unregister a validator that has reconnected), the store and the
    callback table are untouched, and a connection that is not registered
    changes nothing. *)
Theorem removeValidator_unregisters_one (conn : Conn) (h : Hub) :
  db (removeValidator conn h) = db h
  ∧ callbacks (removeValidator conn h) = callbacks h
  ∧ (∀ id vc, validators h !! id = Some vc →
              ValidatorConnection.Conn vc ≠ conn →
              validators (removeValidator conn h) !! id = Some vc)
  ∧ (∀ id vc, validators (removeValidator conn h) !! id = Some vc →
              validators h !! id = Some vc)
  ∧ ((∀ id vc, validators h !! id = Some vc →
               ValidatorConnection.Conn vc ≠ conn) →
     removeValidator conn h = h)
  ∧ ((∃ id vc, validators h !! id = Some vc
               ∧ ValidatorConnection.Conn vc = conn) →
     ∃ id vc, validators h !! id = Some vc
              ∧ ValidatorConnection.Conn vc = conn
              ∧ validators (removeValidator conn h) = delete id (validators h)
              ∧ size (validators h)
                = S (size (validators (removeValidator conn h)))).
Proof.
  destruct (removeValidator_cases conn h)
    as [[-> Hnone]|(id & vc & Hvc & Hconn & ->)]; simpl.
  - split_and!; try done.
    intros (id & vc & Hvc & Hconn). by destruct (Hnone id vc Hvc).
  - split_and!; try done.
    + intros id' vc' Hvc' Hne. rewrite lookup_delete_ne; [done|].
      intros <-. congruence.
    + intros id' vc'. rewrite lookup_delete_Some. by intros [_ ?].
    + intros Hnone. by destruct (Hnone id vc Hvc).
    + intros _. exists id, vc. split_and!; try done.
      rewrite map_size_delete_Some by eauto.
      assert (size (validators h) ≠ 0%nat); [|lia].
      intros Hsize. apply map_size_empty_inv in Hsize.
      rewrite Hsize in Hvc. by rewrite lookup_empty in Hvc.
Qed.

(** X5. When one connection has signed up under two identities, the read
    error of that connection unregisters only one of them: the other stays
    in the registry with the closed connection. *)
Theorem removeValidator_leaves_second_identity
    (conn : Conn) (h : Hub) (id1 id2 : string)
    (vc1 vc2 : ValidatorConnection.t) :
  validators h !! id1 = Some vc1 → validators h !! id2 = Some vc2 →
  id1 ≠ id2 →
  ValidatorConnection.Conn vc1 = conn → ValidatorConnection.Conn vc2 = conn →
  ∃ id vc, validators (removeValidator conn h) !! id = Some vc
           ∧ ValidatorConnection.Conn vc = conn
           ∧ (id = id1 ∨ id = id2)
           ∧ size (validators (removeValidator conn h))
             = pred (size (validators h)).
Proof.
  intros H1 H2 Hne Hc1 Hc2.
  destruct (removeValidator_cases conn h)
    as [[_ Hnone]|(id & vc & Hvc & Hconn & ->)]; simpl.
  - by destruct (Hnone id1 vc1 H1).
  - rewrite map_size_delete_Some by eauto.
    destruct (decide (id = id1)) as [->|Hid].
    + exists id2, vc2. rewrite lookup_delete_ne by done. by eauto.
    + exists id1, vc1. rewrite lookup_delete_ne by done. by eauto.
Qed.

Lemma removeValidator_leaves_second_identity_witness :
  ∃ id vc, validators (removeValidator 7%nat Cases.shared_connection) !! id = Some vc
           ∧ ValidatorConnection.Conn vc = 7%nat
           ∧ (id = "V1" ∨ id = "V3")
           ∧ size (validators (removeValidator 7%nat Cases.shared_connection))
             = pred (size (validators Cases.shared_connection)).
Proof.
  apply (removeValidator_leaves_second_identity
           7%nat Cases.shared_connection "V1" "V3"
           (ValidatorConnection.mk "V1" "PK1" 7%nat)
           (ValidatorConnection.mk "V3" "PK3" 7%nat)).
  - vm_compute. reflexivity.
  - vm_compute. reflexivity.
  - discriminate.
  - reflexivity.
  - reflexivity.
Defined.

Section Unanswered.

Implicit Types (h : Hub) (id : string).

Lemma register_tasks_keeps uuid n ps (m : gmap string Callback.t) id :
  is_Some (m !! id) → is_Some (register_tasks uuid n ps m !! id).
Proof.
  revert n m. induction ps as [|p ps IH]; intros n m Hm; [done|].
  simpl. apply IH. rewrite lookup_insert_is_Some.
  destruct (decide (uuid n = id)); by eauto.
Qed.

Lemma startMonitoring_cycle_keeps env h id :
  is_Some (callbacks h !! id) →
  is_Some (callbacks (fst (startMonitoring_cycle env h)) !! id).
Proof.
  intros Hid. destruct (cycle_find_fault env) eqn:Hfind.
  - unfold startMonitoring_cycle. by rewrite Hfind.
  - rewrite startMonitoring_cycle_eq by done. simpl. by apply register_tasks_keeps.
Qed.

Lemma handleSignup_callbacks env conn data h :
  callbacks (fst (handleSignup env conn data h)) = callbacks h.
Proof.
  unfold handleSignup.
  destruct (RawMessage.asSignup data) as [signup|]; [|done].
  destruct (signup_find_fault env); [done|].
  destruct (First_Validator_by_public_key _ _) as [validator|]; [done|].
  by destruct (Create_Validator _ _ _).
Qed.

Lemma removeValidator_callbacks conn h :
  callbacks (removeValidator conn h) = callbacks h.
Proof.
  destruct (removeValidator_cases conn h) as [[-> _]|(? & ? & _ & _ & ->)]; done.
Qed.

Lemma hub_step_keeps_unanswered h ev id :
  answers id ev = false →
  is_Some (callbacks h !! id) → is_Some (callbacks (hub_step h ev) !! id).
Proof.
  intros Hans Hid. destruct ev as [senv cenv conn inb|env]; simpl.
  - destruct inb as [| |msg]; simpl; [by rewrite removeValidator_callbacks|done|].
    simpl in Hans.
    destruct (String.eqb _ "signup") eqn:Hs; [by rewrite handleSignup_callbacks|].
    destruct (String.eqb _ "validate") eqn:Hv; [|done]. simpl in Hans.
    unfold handleValidate.
    destruct (RawMessage.asValidate _) as [validate|]; [|done].
    destruct (callbacks h !! ValidateIncoming.CallbackID validate); [|done].
    simpl. apply String.eqb_neq in Hans. by rewrite lookup_delete_ne.
  - by apply startMonitoring_cycle_keeps.
Qed.

Lemma hub_run_keeps_unanswered evs h id :
  forallb (λ ev, negb (answers id ev)) evs = true →
  is_Some (callbacks h !! id) → is_Some (callbacks (hub_run evs h) !! id).
Proof.
  revert h. induction evs as [|ev evs IH]; intros h Hevs Hid; [done|].
  simpl in *. apply andb_true_iff in Hevs as [Hev Hevs].
  apply IH; [done|]. apply hub_step_keeps_unanswered; [|done].
  by apply negb_true_iff.
Qed.

End Unanswered.

(** X6. A registered reply handler leaves the callback table only through
    a reply that carries its correlation id. Over any run of the hub without
    such a reply (disconnects of the validator the task was sent to,
    handshakes, further cycles, replies to other ids) the id stays
    registered. *)
Theorem unanswered_handler_stays_registered
    (evs : list HubEvent) (h : Hub) (id : string) :
  is_Some (callbacks h !! id) →
  forallb (λ ev, negb (answers id ev)) evs = true →
  is_Some (callbacks (hub_run evs h) !! id).
Proof. intros Hid Hevs. by apply hub_run_keeps_unanswered. Qed.

Lemma unanswered_handler_stays_registered_witness :
  is_Some (callbacks (hub_run Cases.later Cases.dispatched) !! "cb-0").
Proof.
  apply (unanswered_handler_stays_registered Cases.later Cases.dispatched "cb-0").
  - vm_compute. eexists. reflexivity.
  - vm_compute. reflexivity.
Defined.

(** The handlers of the first cycle are all still there after both
    validators are gone, next to those of the second cycle. *)
Example Cases_later :
  let h := hub_run Cases.later Cases.dispatched in
  dom (validators h) = {["V1"]}
  ∧ ValidatorConnection.Conn <$> validators h !! "V1" = Some 3%nat
  ∧ dom (callbacks h) = {["cb-0"; "cb-1"; "cb-2"; "cb-3"; "cb-4"; "cb-5"]}.
Proof. by_evaluation. Qed.

Lemma Create_WebsiteTick_fails fault (t : WebsiteTick.t) (d : DB) :
  fault = true
  ∨ WebsiteTick.ID t ∈ WebsiteTick.ID <$> WebsiteTicks d
  ∨ Websites d !! WebsiteTick.WebsiteID t = None
  ∨ Validators d !! WebsiteTick.ValidatorID t = None →
  Create_WebsiteTick fault t d = None.
Proof.
  intros Hwhy. destruct (Create_WebsiteTick fault t d) as [d'|] eqn:Hcreate; [|done].
  unfold Create_WebsiteTick, tick_pk_free, tick_fk_ok in Hcreate.
  destruct fault; [done|].
  case_bool_decide as Hpk; simpl in Hcreate; [|done].
  case_bool_decide as Hw; simpl in Hcreate; [|done].
  case_bool_decide as Hv; simpl in Hcreate; [|done].
  destruct Hwhy as [?|[?|[Hnone|Hnone]]]; [done|done| |].
  - rewrite Hnone in Hw. by destruct Hw.
  - rewrite Hnone in Hv. by destruct Hv.
Qed.

(** X7. A reply for a registered id that cannot be recorded spends the
    handler all the same: when the reply names a validator that has no row
    (such as the empty id of an agent whose handshake is not finished), or
    the tick cannot be inserted, or the update or the commit fails, the
    store is unchanged, nobody is credited, and the id is removed, so that
    a corrected reply to the same task is ignored. *)
Theorem unrecordable_reply_spends_the_handler
    (env : CallbackEnv) (data : RawMessage.t) (validate : ValidateIncoming.t)
    (h : Hub) (cb : Callback.t) :
  RawMessage.asValidate data = Some validate →
  callbacks h !! ValidateIncoming.CallbackID validate = Some cb →
  Validators (db h) !! ValidateIncoming.ValidatorID validate = None
  ∨ Websites (db h) !! Callback.websiteID cb = None
  ∨ tick_uuid env ∈ WebsiteTick.ID <$> WebsiteTicks (db h)
  ∨ tick_create_fault env = true
  ∨ tick_update_fault env = true
  ∨ tick_commit_fault env = true →
  handleValidate env data h
  = (mkHub (db h) (validators h)
           (delete (ValidateIncoming.CallbackID validate) (callbacks h)),
     [Invoked cb (IncomingMessage.mk "validate" data)])
  ∧ ∀ env' data' validate',
      RawMessage.asValidate data' = Some validate' →
      ValidateIncoming.CallbackID validate'
      = ValidateIncoming.CallbackID validate →
      handleValidate env' data' (fst (handleValidate env data h))
      = (fst (handleValidate env data h), []).
Proof.
  intros Hdec Hcb Hwhy.
  assert (callback_run cb env (IncomingMessage.mk "validate" data) (db h) = db h)
    as Hrun.
  { unfold callback_run. simpl. rewrite Hdec.
    destruct Hwhy as [Hv|[Hw|[Hpk|[Hc|[Hu|Hc]]]]].
    - rewrite Create_WebsiteTick_fails; [done|]. by right; right; right.
    - rewrite Create_WebsiteTick_fails; [done|]. by right; right; left.
    - rewrite Create_WebsiteTick_fails; [done|]. by right; left.
    - rewrite Create_WebsiteTick_fails; [done|]. by left.
    - rewrite Hu. by destruct (Create_WebsiteTick _ _ _).
    - rewrite Hc. destruct (Create_WebsiteTick _ _ _); [|done].
      by destruct (tick_update_fault env). }
  assert (handleValidate env data h
          = (mkHub (db h) (validators h)
                   (delete (ValidateIncoming.CallbackID validate) (callbacks h)),
             [Invoked cb (IncomingMessage.mk "validate" data)])) as Hhandle.
  { unfold handleValidate. by rewrite Hdec, Hcb, Hrun. }
  split; [done|]. rewrite Hhandle. simpl.
  intros env' data' validate' Hdec' Hid.
  unfold handleValidate. rewrite Hdec', Hid. cbn [callbacks].
  by rewrite lookup_delete_eq.
Qed.

Lemma unrecordable_reply_spends_the_handler_witness :
  let data := Scenario.reply "cb-0" "Good" 95 "" "T1" in
  handleValidate (Scenario.cenv "k-1" 1000) data Cases.dispatched
  = (mkHub (db Cases.dispatched) (validators Cases.dispatched)
           (delete "cb-0" (callbacks Cases.dispatched)),
     [Invoked (Callback.mk "T1" "PK1") (IncomingMessage.mk "validate" data)])
  ∧ ∀ env' data' validate',
      RawMessage.asValidate data' = Some validate' →
      ValidateIncoming.CallbackID validate' = "cb-0" →
      handleValidate env' data'
        (fst (handleValidate (Scenario.cenv "k-1" 1000) data Cases.dispatched))
      = (fst (handleValidate (Scenario.cenv "k-1" 1000) data Cases.dispatched), []).
Proof.
  apply (unrecordable_reply_spends_the_handler
           (Scenario.cenv "k-1" 1000) (Scenario.reply "cb-0" "Good" 95 "" "T1")
           (ValidateIncoming.mk "cb-0" "Good" 95 "" "T1" "c2lnbmVk")
           Cases.dispatched (Callback.mk "T1" "PK1")).
  - reflexivity.
  - vm_compute. reflexivity.
  - left. vm_compute. reflexivity.
Defined.

(* ===================================================================== *)
(** * Further properties of the payout request *)
(* ===================================================================== *)

Section RequestOutcomes.

Import user.

Implicit Types (env : RequestEnv) (h : Handler) (validator : Validator.t).

(** The four ways a request ends. *)
Lemma RequestPayout_cases env validatorID h :
  (RequestPayout env validatorID h = (h, snd (RequestPayout env validatorID h))
   ∧ ∀ code message amount,
       snd (RequestPayout env validatorID h)
       ≠ SuccessResponse code "queued" message amount)
  ∨ ∃ validator,
      Validators (db h) !! validatorID = Some validator
      ∧ (0 < Validator.PendingPayouts validator)%Z
      ∧ find_fault env = false ∧ publish_fault env = false
      ∧ ((RequestPayout env validatorID h
          = (mkHandler (db h) (rabbitMQ h ++ [payout_message env validator]),
             snd (RequestPayout env validatorID h))
          ∧ (update_fault env = true ∨ commit_fault env = true)
          ∧ ∃ message, snd (RequestPayout env validatorID h)
                       = ErrorResponse StatusInternalServerError message)
         ∨ (RequestPayout env validatorID h
            = (mkHandler (set_pending_payouts (Validator.ID validator) 0 (db h))
                         (rabbitMQ h ++ [payout_message env validator]),
               SuccessResponse StatusOK "queued"
                               "Payout request queued for processing"
                               (Validator.PendingPayouts validator))
            ∧ update_fault env = false ∧ commit_fault env = false)).
Proof.
  unfold RequestPayout. destruct (find_fault env); [by left|].
  destruct (Validators (db h) !! validatorID) as [validator|] eqn:Hv; [|by left].
  destruct (Z.leb_spec (Validator.PendingPayouts validator) 0); [by left|].
  simpl. destruct (publish_fault env); [by left|].
  right. exists validator. split_and!; try done.
  destruct (update_fault env); [left; by eauto|].
  destruct (commit_fault env); [left; by eauto|].
  by right.
Qed.

End RequestOutcomes.

(** X8. A payout request publishes at most one message, and only for a
    positive amount: the message carries the whole pending credit of the
    requested row at that moment, with the id and the public key of that
    row. It never touches targets, ticks or settlement records, and it
    changes the validator table only when it answers [queued]: then the
    credit of the row is 0. *)
Theorem RequestPayout_publishes_the_credit_once
    (env : user.RequestEnv) (validatorID : string) (h : user.Handler) :
  let h' := fst (user.RequestPayout env validatorID h) in
  let r := snd (user.RequestPayout env validatorID h) in
  Websites (user.db h') = Websites (user.db h)
  ∧ WebsiteTicks (user.db h') = WebsiteTicks (user.db h)
  ∧ PayoutTransactions (user.db h') = PayoutTransactions (user.db h)
  ∧ (user.rabbitMQ h' = user.rabbitMQ h
     ∨ ∃ validator,
         Validators (user.db h) !! validatorID = Some validator
         ∧ (0 < Validator.PendingPayouts validator)%Z
         ∧ user.rabbitMQ h'
           = user.rabbitMQ h
             ++ [Publishing.mk "application/json"
                   (Body.mk (Some (PayoutRequest.mk
                                     (Validator.ID validator)
                                     (Validator.PendingPayouts validator)
                                     (Validator.PublicKey validator))))
                   (user.now env)])
  ∧ ((∀ code message amount,
        r ≠ user.SuccessResponse code "queued" message amount) →
     user.db h' = user.db h)
  ∧ (∀ code message amount,
       r = user.SuccessResponse code "queued" message amount →
       ∃ validator,
         Validators (user.db h) !! validatorID = Some validator
         ∧ amount = Validator.PendingPayouts validator
         ∧ user.rabbitMQ h' = user.rabbitMQ h ++ [payout_message env validator]
         ∧ user.db h'
           = set_pending_payouts (Validator.ID validator) 0 (user.db h)).
Proof.
  intros h' r. subst h' r.
  destruct (RequestPayout_cases env validatorID h)
    as [[Hsame Hnot]|(validator & Hv & Hpos & _ & _
                      & [(Hrun & _ & msg & Hr)|(Hrun & _ & _)])].
  - rewrite Hsame. cbn [fst snd]. split_and!; try done; [by left|].
    intros code message amount Hr. by destruct (Hnot code message amount).
  - rewrite Hrun. cbn [fst snd user.db user.rabbitMQ].
    split_and!; try done; [right; by exists validator|].
    intros code message amount. by rewrite Hr.
  - rewrite Hrun. cbn [fst snd user.db user.rabbitMQ].
    split_and!; try done.
    + right. by exists validator.
    + intros Hnot. by destruct (Hnot user.StatusOK
                                  "Payout request queued for processing"
                                  (Validator.PendingPayouts validator)).
    + intros code message amount [= _ _ <-]. by exists validator.
Qed.

(** X9. Asking twice pays once: after a request that went through for a
    row stored under its own id, a second request for the same validator
    (nothing else having happened) answers [cleared] and publishes nothing,
    so the queue holds exactly one message for the credit. *)
Theorem RequestPayout_twice_pays_once
    (env env' : user.RequestEnv) (validatorID : string) (h : user.Handler)
    (validator : Validator.t) :
  Validators (user.db h) !! validatorID = Some validator →
  Validator.ID validator = validatorID →
  (0 < Validator.PendingPayouts validator)%Z →
  user.find_fault env = false → user.publish_fault env = false →
  user.update_fault env = false → user.commit_fault env = false →
  user.find_fault env' = false →
  let h1 := fst (user.RequestPayout env validatorID h) in
  user.RequestPayout env' validatorID h1
  = (h1, user.SuccessResponse user.StatusOK "cleared" "all payment cleared" 0)
  ∧ user.rabbitMQ h1 = user.rabbitMQ h ++ [payout_message env validator]
  ∧ pending_of validatorID (user.db h1) = Some 0%Z.
Proof.
  intros Hv Hid Hpos Hfind Hpub Hupd Hcommit Hfind' h1. subst h1.
  rewrite (RequestPayout_queued env validatorID h validator) by done.
  cbn [fst]. rewrite Hid.
  assert (Validators (set_pending_payouts validatorID 0 (user.db h)) !! validatorID
          = Some (Validator.with_PendingPayouts 0 validator)) as Hrow.
  { simpl. by rewrite lookup_alter_eq, Hv. }
  split_and!; [|done|].
  - unfold user.RequestPayout. cbn [user.db]. by rewrite Hfind', Hrow.
  - unfold pending_of. cbn [user.db]. by rewrite Hrow.
Qed.

Lemma RequestPayout_twice_pays_once_witness :
  let h1 := fst (user.RequestPayout Scenario.request_ok "V2" Scenario.api) in
  user.RequestPayout Scenario.request_ok "V2" h1
  = (h1, user.SuccessResponse user.StatusOK "cleared" "all payment cleared" 0)
  ∧ user.rabbitMQ h1
    = user.rabbitMQ Scenario.api
      ++ [payout_message Scenario.request_ok
            (Validator.mk "V2" "PK2" "unknown" "127.0.0.1" 100)]
  ∧ pending_of "V2" (user.db h1) = Some 0%Z.
Proof.
  apply (RequestPayout_twice_pays_once
           Scenario.request_ok Scenario.request_ok "V2" Scenario.api
           (Validator.mk "V2" "PK2" "unknown" "127.0.0.1" 100)).
  - vm_compute. reflexivity.
  - reflexivity.
  - reflexivity.
  - reflexivity.
  - reflexivity.
  - reflexivity.
  - reflexivity.
  - reflexivity.
Defined.

(* ===================================================================== *)
(** * Further properties of the payout worker *)
(* ===================================================================== *)

Section WorkerOutcomes.

Import services.

Implicit Types (env : WorkerEnv) (w : PayoutWorker) (req : PayoutRequest.t).

Lemma Create_PayoutTransaction_cases fault (p : PayoutTransaction.t) (d : DB) :
  (Create_PayoutTransaction fault p d = None
   ∧ (fault = true
      ∨ is_Some (PayoutTransactions d !! PayoutTransaction.ID p)
      ∨ Validators d !! PayoutTransaction.ValidatorID p = None))
  ∨ (Create_PayoutTransaction fault p d
     = Some (set_PayoutTransactions
               (<[PayoutTransaction.ID p := p]> (PayoutTransactions d)) d)
     ∧ fault = false
     ∧ PayoutTransactions d !! PayoutTransaction.ID p = None
     ∧ is_Some (Validators d !! PayoutTransaction.ValidatorID p)).
Proof.
  unfold Create_PayoutTransaction. destruct fault; [left; by eauto|].
  destruct (PayoutTransactions d !! _) eqn:Hpk; [left; by eauto|].
  case_bool_decide as Hv; [by right|]. left. split; [done|]. right; right.
  by apply eq_None_not_Some.
Qed.

(** The polling loop skips the replies that are not conclusive. *)
Lemma confirmation_loop_skip pre rest :
  forallb inconclusive pre = true →
  confirmation_loop (pre ++ rest) = confirmation_loop rest.
Proof.
  unfold inconclusive.
  induction pre as [|[e|[st|]] pre IH]; simpl; [done|done| |done].
  destruct (ConfirmationStatus st), (Err st); simpl; try done.
Qed.

(** A delivery, by cases: undecodable; record not created; transfer not
    submitted; submitted and not confirmed; confirmed. *)
Lemma processPayoutRequest_cases env delivery w :
  (Body.asPayoutRequest (Body delivery) = None
   ∧ processPayoutRequest env delivery w = (w, Nack false))
  ∨ ∃ req,
      Body.asPayoutRequest (Body delivery) = Some req
      ∧ ((Create_PayoutTransaction (record_create_fault env) (opened env req) (db w)
          = None
          ∧ processPayoutRequest env delivery w = (w, Nack true))
         ∨ (PayoutTransactions (db w) !! record_uuid env = None
            ∧ is_Some (Validators (db w) !! PayoutRequest.ValidatorID req)
            ∧ ((∃ sig err,
                  executeSolanaTransfer env (PayoutRequest.PublicKey req)
                                        (PayoutRequest.Amount req)
                  = (sig, Some err)
                  ∧ processPayoutRequest env delivery w
                    = (mkPayoutWorker
                         (unchecked (refund_fault env)
                            (add_pending_payouts (PayoutRequest.ValidatorID req)
                                                 (PayoutRequest.Amount req))
                            (unchecked (status_update_fault env)
                               (mark_failed (record_uuid env) err (clock env 2%nat))
                               (set_PayoutTransactions
                                  (<[record_uuid env := opened env req]>
                                     (PayoutTransactions (db w)))
                                  (db w)))),
                       Nack false))
               ∨ (∃ signature,
                    executeSolanaTransfer env (PayoutRequest.PublicKey req)
                                          (PayoutRequest.Amount req)
                    = (signature, None)
                    ∧ ((waitForConfirmation env signature (30 * Second)
                        ≠ (true, None)
                        ∧ processPayoutRequest env delivery w
                          = (mkPayoutWorker
                               (unchecked (status_update_fault env)
                                  (mark_failed_with_signature (record_uuid env)
                                     "Transaction confirmation timeout" signature
                                     (clock env 2%nat))
                                  (set_PayoutTransactions
                                     (<[record_uuid env := opened env req]>
                                        (PayoutTransactions (db w)))
                                     (db w))),
                             Nack false))
                       ∨ (waitForConfirmation env signature (30 * Second)
                          = (true, None)
                          ∧ processPayoutRequest env delivery w
                            = (mkPayoutWorker
                                 (unchecked (status_update_fault env)
                                    (mark_completed (record_uuid env) signature
                                       (clock env 2%nat))
                                    (set_PayoutTransactions
                                       (<[record_uuid env := opened env req]>
                                          (PayoutTransactions (db w)))
                                       (db w))),
                               Ack))))))).
Proof.
  unfold processPayoutRequest.
  destruct (Body.asPayoutRequest (Body delivery)) as [req|]; [|by left].
  right. exists req. split; [done|].
  fold (opened env req).
  destruct (Create_PayoutTransaction_cases (record_create_fault env)
              (opened env req) (db w)) as [[-> _]|(-> & _ & Hfree & Hv)];
    [by left|].
  right. split_and!; try done. simpl.
  destruct (executeSolanaTransfer env _ _) as [signature [err|]] eqn:Hexec.
  - left. by exists signature, err.
  - right. exists signature. split; [done|].
    destruct (waitForConfirmation env signature (30 * Second))
      as [confirmed err] eqn:Hwait.
    unfold waitForConfirmation in Hwait.
    destruct (confirmation_loop_cases (polls env signature (30 * Second)))
      as [Hloop|[Hloop|[e Hloop]]]; rewrite Hloop in Hwait;
      injection Hwait as <- <-; simpl; [by right|by left|by left].
Qed.

End WorkerOutcomes.

(** X10. The worker asks for redelivery only when it has written nothing:
    a delivery answered with [Nack(false, true)] leaves the store as it
    was, and it is one whose record could not be created (a database fault,
    an id already taken, or a validator that has no row). A message the
    worker cannot decode is rejected without requeue and changes nothing
    either. *)
Theorem requeue_means_nothing_written
    (env : services.WorkerEnv) (delivery : services.Delivery)
    (w : services.PayoutWorker) :
  (snd (services.processPayoutRequest env delivery w) = services.Nack true →
   fst (services.processPayoutRequest env delivery w) = w
   ∧ ∃ req, Body.asPayoutRequest (services.Body delivery) = Some req
            ∧ (services.record_create_fault env = true
               ∨ is_Some (PayoutTransactions (services.db w)
                          !! services.record_uuid env)
               ∨ Validators (services.db w) !! PayoutRequest.ValidatorID req = None))
  ∧ (Body.asPayoutRequest (services.Body delivery) = None →
     services.processPayoutRequest env delivery w = (w, services.Nack false)).
Proof.
  destruct (processPayoutRequest_cases env delivery w)
    as [[Hdec ->]|(req & Hdec & [[Hcreate ->]|(Hfree & Hv & Hrest)])].
  - split; [done|]. done.
  - split; [|by rewrite Hdec]. intros _. split; [done|]. exists req.
    split; [done|].
    destruct (Create_PayoutTransaction_cases (services.record_create_fault env)
                (opened env req) (services.db w)) as [[_ Hwhy]|[Hsome _]];
      [exact Hwhy|congruence].
  - split; [|by rewrite Hdec].
    destruct Hrest as [(sig & err & _ & ->)|(signature & _ & [[_ ->]|[_ ->]])];
      done.
Qed.

(** X11. A message that names a validator with no row is never settled and
    never dropped: whatever the world does, the worker creates no record,
    leaves the store as it was and asks for redelivery, so the next
    delivery of the message meets the same store and ends the same way. *)
Theorem message_for_unknown_validator_is_requeued
    (env : services.WorkerEnv) (delivery : services.Delivery)
    (req : PayoutRequest.t) (w : services.PayoutWorker) :
  Body.asPayoutRequest (services.Body delivery) = Some req →
  Validators (services.db w) !! PayoutRequest.ValidatorID req = None →
  services.processPayoutRequest env delivery w = (w, services.Nack true)
  ∧ ∀ env', services.processPayoutRequest env' delivery
              (fst (services.processPayoutRequest env delivery w))
            = (w, services.Nack true).
Proof.
  intros Hdec Hnone.
  assert (∀ e, services.processPayoutRequest e delivery w = (w, services.Nack true))
    as Hall.
  { intros e. unfold services.processPayoutRequest. rewrite Hdec.
    unfold Create_PayoutTransaction. simpl.
    destruct (services.record_create_fault e); [done|].
    destruct (PayoutTransactions (services.db w) !! _); [done|].
    rewrite Hnone. by rewrite bool_decide_eq_false_2 by (by intros [? ?]). }
  split; [apply Hall|]. intros env'. rewrite Hall. apply Hall.
Qed.

Lemma message_for_unknown_validator_is_requeued_witness :
  let delivery :=
    services.mkDelivery (Body.mk (Some (PayoutRequest.mk "V404" 100 "PK404"))) in
  services.processPayoutRequest Scenario.finalized delivery Scenario.worker
  = (Scenario.worker, services.Nack true)
  ∧ ∀ env', services.processPayoutRequest env' delivery
              (fst (services.processPayoutRequest
                      Scenario.finalized delivery Scenario.worker))
            = (Scenario.worker, services.Nack true).
Proof.
  apply (message_for_unknown_validator_is_requeued
           Scenario.finalized
           (services.mkDelivery (Body.mk (Some (PayoutRequest.mk "V404" 100 "PK404"))))
           (PayoutRequest.mk "V404" 100 "PK404") Scenario.worker).
  - reflexivity.
  - vm_compute. reflexivity.
Defined.

(** X12. When the transfer is submitted and seen finalized, the worker
    acknowledges the message and leaves validators, ticks and targets as
    they were: the credit is not added back. The settlement record is
    [completed] with the transaction signature when the status update ran.
    The worker does not read the result of that statement: when it failed,
    the message is acknowledged all the same and the record stays
    [processing], without the signature. *)
Theorem finalized_transfer_is_acknowledged
    (env : services.WorkerEnv) (delivery : services.Delivery)
    (req : PayoutRequest.t) (w : services.PayoutWorker) (signature : string) :
  Body.asPayoutRequest (services.Body delivery) = Some req →
  services.record_create_fault env = false →
  PayoutTransactions (services.db w) !! services.record_uuid env = None →
  is_Some (Validators (services.db w) !! PayoutRequest.ValidatorID req) →
  services.executeSolanaTransfer env (PayoutRequest.PublicKey req)
                                 (PayoutRequest.Amount req)
  = (signature, None) →
  services.waitForConfirmation env signature (30 * Second) = (true, None) →
  let w' := fst (services.processPayoutRequest env delivery w) in
  snd (services.processPayoutRequest env delivery w) = services.Ack
  ∧ PayoutTransactions (services.db w') !! services.record_uuid env
    = Some (if services.status_update_fault env
            then PayoutTransaction.mk (services.record_uuid env)
                   (PayoutRequest.ValidatorID req) (PayoutRequest.Amount req)
                   "processing" "" ""
                   (services.clock env 0%nat) (services.clock env 1%nat)
            else PayoutTransaction.mk (services.record_uuid env)
                   (PayoutRequest.ValidatorID req) (PayoutRequest.Amount req)
                   "completed" signature ""
                   (services.clock env 0%nat) (services.clock env 2%nat))
  ∧ Validators (services.db w') = Validators (services.db w)
  ∧ WebsiteTicks (services.db w') = WebsiteTicks (services.db w)
  ∧ Websites (services.db w') = Websites (services.db w).
Proof.
  intros Hdec Hfault Hfree Hv Hexec Hwait w'. subst w'.
  unfold services.processPayoutRequest. rewrite Hdec, Hfault.
  rewrite Create_PayoutTransaction_ok by done. simpl. rewrite Hexec, Hwait.
  simpl. destruct (services.status_update_fault env); simpl.
  - split_and!; try done. by rewrite lookup_insert_eq.
  - split_and!; try done. by rewrite lookup_alter_eq, lookup_insert_eq.
Qed.

Lemma finalized_transfer_is_acknowledged_witness :
  let w' := fst (services.processPayoutRequest
                   Scenario.finalized Scenario.delivery Scenario.worker) in
  let w'' := fst (services.processPayoutRequest
                    Cases.finalized_status_fault Scenario.delivery
                    Scenario.worker) in
  (snd (services.processPayoutRequest
          Scenario.finalized Scenario.delivery Scenario.worker)
   = services.Ack
   ∧ PayoutTransactions (services.db w') !! "P1"
     = Some (PayoutTransaction.mk "P1" "V1" 100 "completed" "5igN4tur3" ""
               3000 3002)
   ∧ Validators (services.db w') = Validators (services.db Scenario.worker)
   ∧ WebsiteTicks (services.db w') = WebsiteTicks (services.db Scenario.worker)
   ∧ Websites (services.db w') = Websites (services.db Scenario.worker))
  ∧ (snd (services.processPayoutRequest
            Cases.finalized_status_fault Scenario.delivery Scenario.worker)
     = services.Ack
     ∧ PayoutTransactions (services.db w'') !! "P1"
       = Some (PayoutTransaction.mk "P1" "V1" 100 "processing" "" "" 3000 3001)
     ∧ Validators (services.db w'') = Validators (services.db Scenario.worker)
     ∧ WebsiteTicks (services.db w'') = WebsiteTicks (services.db Scenario.worker)
     ∧ Websites (services.db w'') = Websites (services.db Scenario.worker)).
Proof.
  split.
  - apply (finalized_transfer_is_acknowledged
             Scenario.finalized Scenario.delivery (PayoutRequest.mk "V1" 100 "PK1")
             Scenario.worker "5igN4tur3").
    + reflexivity.
    + reflexivity.
    + vm_compute. reflexivity.
    + vm_compute. eexists. reflexivity.
    + reflexivity.
    + reflexivity.
  - apply (finalized_transfer_is_acknowledged
             Cases.finalized_status_fault Scenario.delivery
             (PayoutRequest.mk "V1" 100 "PK1") Scenario.worker "5igN4tur3").
    + reflexivity.
    + reflexivity.
    + vm_compute. reflexivity.
    + vm_compute. eexists. reflexivity.
    + reflexivity.
    + reflexivity.
Defined.

(** X13. What a delivery leaves on record. Either the worker writes
    nothing and does not acknowledge, or it has opened one record for the
    request, with its validator and its amount; older records, ticks and
    targets are untouched and the message is not requeued. The record is
    terminal exactly when the status update ran: [completed] for an
    acknowledged message, [failed] for a rejected one. When that statement
    failed, the record stays [processing] although the message is gone. The
    validator table changes only by the re-credit of a transfer that was
    not submitted, and only when the refund ran; the record then carries no
    signature. *)
Theorem delivery_record_follows_the_status_update
    (env : services.WorkerEnv) (delivery : services.Delivery)
    (w : services.PayoutWorker) :
  let w' := fst (services.processPayoutRequest env delivery w) in
  let ack := snd (services.processPayoutRequest env delivery w) in
  (w' = w ∧ ack ≠ services.Ack)
  ∨ ∃ req rec,
      Body.asPayoutRequest (services.Body delivery) = Some req
      ∧ PayoutTransactions (services.db w) !! services.record_uuid env = None
      ∧ PayoutTransactions (services.db w') !! services.record_uuid env = Some rec
      ∧ PayoutTransaction.ValidatorID rec = PayoutRequest.ValidatorID req
      ∧ PayoutTransaction.Amount rec = PayoutRequest.Amount req
      ∧ (∀ id, id ≠ services.record_uuid env →
               PayoutTransactions (services.db w') !! id
               = PayoutTransactions (services.db w) !! id)
      ∧ WebsiteTicks (services.db w') = WebsiteTicks (services.db w)
      ∧ Websites (services.db w') = Websites (services.db w)
      ∧ ack ≠ services.Nack true
      ∧ PayoutTransaction.Status rec
        = (if services.status_update_fault env then "processing"
           else match ack with
                | services.Ack => "completed"
                | services.Nack _ => "failed"
                end)
      ∧ (Validators (services.db w') = Validators (services.db w)
         ∨ (ack = services.Nack false
            ∧ services.refund_fault env = false
            ∧ PayoutTransaction.TxSignature rec = ""
            ∧ pending_of (PayoutRequest.ValidatorID req) (services.db w')
              = (λ credit, credit + PayoutRequest.Amount req)%Z
                  <$> pending_of (PayoutRequest.ValidatorID req)
                                 (services.db w))).
Proof.
  intros w' ack. subst w' ack.
  destruct (processPayoutRequest_cases env delivery w)
    as [[Hdec ->]|(req & Hdec & [[Hcreate ->]|(Hfree & Hv & Hrest)])];
    [by left|by left|].
  right. exists req.
  assert (∀ (g : PayoutTransaction.t → PayoutTransaction.t) id,
            id ≠ services.record_uuid env →
            alter g (services.record_uuid env)
                  (<[services.record_uuid env := opened env req]>
                     (PayoutTransactions (services.db w))) !! id
            = PayoutTransactions (services.db w) !! id) as Hold.
  { intros g id Hid. by rewrite lookup_alter_ne, lookup_insert_ne. }
  assert (∀ id, id ≠ services.record_uuid env →
                <[services.record_uuid env := opened env req]>
                  (PayoutTransactions (services.db w)) !! id
                = PayoutTransactions (services.db w) !! id) as Hold'.
  { intros id Hid. by rewrite lookup_insert_ne. }
  destruct Hrest as [(sig & err & _ & ->)|(signature & _ & [[_ ->]|[_ ->]])];
    cbn [fst snd services.db]; unfold services.unchecked;
    destruct (services.status_update_fault env) eqn:Hstatus.
  - exists (opened env req).
    destruct (services.refund_fault env) eqn:Hrefund;
      (split_and!; try done; [by simpl; rewrite lookup_insert_eq|]).
    + by left.
    + right. split_and!; try done.
      unfold pending_of. simpl. rewrite lookup_alter_eq.
      by destruct (Validators (services.db w) !! _).
  - exists (failed_record env req "" err).
    destruct (services.refund_fault env) eqn:Hrefund;
      (split_and!; try done;
       [by simpl; rewrite lookup_alter_eq, lookup_insert_eq
       |by intros id Hid; apply Hold|]).
    + by left.
    + right. split_and!; try done.
      unfold pending_of. simpl. rewrite lookup_alter_eq.
      by destruct (Validators (services.db w) !! _).
  - exists (opened env req). split_and!; try done.
    + by simpl; rewrite lookup_insert_eq.
    + by left.
  - exists (failed_record env req signature "Transaction confirmation timeout").
    split_and!; try done.
    + simpl. by rewrite lookup_alter_eq, lookup_insert_eq.
    + intros id Hid. by apply Hold.
    + by left.
  - exists (opened env req). split_and!; try done.
    + by simpl; rewrite lookup_insert_eq.
    + by left.
  - exists (PayoutTransaction.mk (services.record_uuid env)
              (PayoutRequest.ValidatorID req) (PayoutRequest.Amount req)
              "completed" signature ""
              (services.clock env 0%nat) (services.clock env 2%nat)).
    split_and!; try done.
    + simpl. by rewrite lookup_alter_eq, lookup_insert_eq.
    + intros id Hid. by apply Hold.
    + by left.
Qed.

(** X14. The wait for finality is decided by the first conclusive status
    reply before the deadline; RPC errors, empty replies and statuses that
    are neither finalized nor failed are skipped. It confirms exactly when
    that first conclusive reply is finalized, and it ends by the deadline
    exactly when no reply is conclusive. *)
Theorem waitForConfirmation_first_conclusive_reply
    (env : services.WorkerEnv) (signature : string) (timeout : Z) :
  (services.waitForConfirmation env signature timeout = (true, None)
   ↔ ∃ pre st rest,
       services.polls env signature timeout
       = pre ++ services.PollValue (Some st) :: rest
       ∧ forallb inconclusive pre = true
       ∧ services.ConfirmationStatus st = services.ConfirmationStatusFinalized)
  ∧ (services.waitForConfirmation env signature timeout
     = (false, Some "confirmation timeout")
     ↔ forallb inconclusive (services.polls env signature timeout) = true)
  ∧ (∀ pre rest,
       forallb inconclusive pre = true →
       services.polls env signature timeout = pre ++ rest →
       services.waitForConfirmation env signature timeout
       = services.confirmation_loop rest).
Proof.
  unfold services.waitForConfirmation.
  generalize (services.polls env signature timeout). intros replies.
  split_and!.
  - split.
    + induction replies as [|r replies IH]; [done|].
      destruct r as [e|[st|]]; simpl.
      * intros Hloop. destruct (IH Hloop) as (pre & st & rest & -> & Hpre & Hst).
        by exists (services.PollError e :: pre), st, rest.
      * destruct (services.ConfirmationStatus st) eqn:Hst.
        -- destruct (services.Err st) eqn:Herr; [done|].
           intros Hloop. destruct (IH Hloop) as (pre & st' & rest & -> & Hpre & Hst').
           exists (services.PollValue (Some st) :: pre), st', rest.
           split_and!; try done. simpl. by rewrite Hst, Herr.
        -- destruct (services.Err st) eqn:Herr; [done|].
           intros Hloop. destruct (IH Hloop) as (pre & st' & rest & -> & Hpre & Hst').
           exists (services.PollValue (Some st) :: pre), st', rest.
           split_and!; try done. simpl. by rewrite Hst, Herr.
        -- intros _. by exists [], st, replies.
      * intros Hloop. destruct (IH Hloop) as (pre & st & rest & -> & Hpre & Hst).
        by exists (services.PollValue None :: pre), st, rest.
    + intros (pre & st & rest & -> & Hpre & Hst).
      rewrite confirmation_loop_skip by done. simpl. by rewrite Hst.
  - split; [|apply confirmation_loop_timeout].
    induction replies as [|r replies IH]; [done|].
    destruct r as [e|[st|]]; simpl; [done| |done].
    destruct (services.ConfirmationStatus st), (services.Err st); simpl; done.
  - intros pre rest Hpre ->. by apply confirmation_loop_skip.
Qed.

(** X15. A status reply that is finalized confirms the transfer even when
    it carries an on-chain error: the status is tested before the error. A
    transfer whose first conclusive reply is finalized with an error is
    therefore acknowledged, not rejected, and the credit is not added back;
    its record is [completed] when the status update ran, and is left
    [processing] when that statement failed. *)
Theorem finalized_reply_with_error_confirms
    (env : services.WorkerEnv) (delivery : services.Delivery)
    (req : PayoutRequest.t) (w : services.PayoutWorker) (signature e : string)
    (pre rest : list services.PollReply) :
  Body.asPayoutRequest (services.Body delivery) = Some req →
  services.record_create_fault env = false →
  PayoutTransactions (services.db w) !! services.record_uuid env = None →
  is_Some (Validators (services.db w) !! PayoutRequest.ValidatorID req) →
  services.executeSolanaTransfer env (PayoutRequest.PublicKey req)
                                 (PayoutRequest.Amount req)
  = (signature, None) →
  services.polls env signature (30 * Second)
  = pre ++ services.PollValue
             (Some (services.mkStatus services.ConfirmationStatusFinalized (Some e)))
        :: rest →
  forallb inconclusive pre = true →
  let w' := fst (services.processPayoutRequest env delivery w) in
  services.waitForConfirmation env signature (30 * Second) = (true, None)
  ∧ snd (services.processPayoutRequest env delivery w) = services.Ack
  ∧ PayoutTransaction.Status
      <$> PayoutTransactions (services.db w') !! services.record_uuid env
    = Some (if services.status_update_fault env then "processing"
            else "completed")
  ∧ Validators (services.db w') = Validators (services.db w).
Proof.
  intros Hdec Hfault Hfree Hv Hexec Hpolls Hpre w'. subst w'.
  assert (services.waitForConfirmation env signature (30 * Second) = (true, None))
    as Hwait.
  { unfold services.waitForConfirmation. rewrite Hpolls.
    by rewrite confirmation_loop_skip. }
  unfold services.processPayoutRequest. rewrite Hdec, Hfault.
  rewrite Create_PayoutTransaction_ok by done. simpl. rewrite Hexec, Hwait.
  simpl. destruct (services.status_update_fault env); simpl.
  - split_and!; try done. by rewrite lookup_insert_eq.
  - split_and!; try done. by rewrite lookup_alter_eq, lookup_insert_eq.
Qed.

Lemma finalized_reply_with_error_confirms_witness :
  let env := Cases.finalized_with_error in
  let w' := fst (services.processPayoutRequest env Scenario.delivery Scenario.worker) in
  services.waitForConfirmation env "5igN4tur3" (30 * Second) = (true, None)
  ∧ snd (services.processPayoutRequest env Scenario.delivery Scenario.worker)
    = services.Ack
  ∧ PayoutTransaction.Status <$> PayoutTransactions (services.db w') !! "P1"
    = Some "completed"
  ∧ Validators (services.db w') = Validators (services.db Scenario.worker).
Proof.
  apply (finalized_reply_with_error_confirms
           Cases.finalized_with_error Scenario.delivery
           (PayoutRequest.mk "V1" 100 "PK1") Scenario.worker "5igN4tur3"
           "InstructionError" [services.PollValue None] []).
  - reflexivity.
  - reflexivity.
  - vm_compute. reflexivity.
  - vm_compute. eexists. reflexivity.
  - reflexivity.
  - reflexivity.
  - reflexivity.
Defined.

(* ===================================================================== *)
(** * The agent and the hub together *)
(* ===================================================================== *)

Section Handshake.

Implicit Types (h : Hub) (v : client.State).

(** A handshake the hub answers, by cases on the lookup of the key. *)
Lemma handleSignup_answered env conn data signup h :
  RawMessage.asSignup data = Some signup →
  keyed_by_ID (db h) →
  snd (handleSignup env conn data h) ≠ [] →
  ∃ row,
    Validators (db (fst (handleSignup env conn data h))) !! Validator.ID row
    = Some row
    ∧ Validator.PublicKey row = SignupIncoming.PublicKey signup
    ∧ handleSignup env conn data h
      = (mkHub (db (fst (handleSignup env conn data h)))
               (<[Validator.ID row :=
                    ValidatorConnection.mk (Validator.ID row)
                                           (Validator.PublicKey row) conn]>
                  (validators h))
               (callbacks h),
         [WriteJSON conn
            (OutgoingMessage.mk "signup"
               (SignupReply (Validator.ID row)
                            (SignupIncoming.CallbackID signup)))]).
Proof.
  intros Hdec Hkey. unfold handleSignup. rewrite Hdec.
  destruct (signup_find_fault env); [done|].
  destruct (First_Validator_by_public_key _ _) as [validator|] eqn:Hfind.
  - intros _. exists validator.
    apply First_Validator_by_public_key_Some in Hfind as [Hpk [id Hrow]].
    pose proof (Hkey _ _ Hrow) as <-. done.
  - unfold Create_Validator. destruct (signup_create_fault env); [done|]. simpl.
    destruct (Validators (db h) !! signup_uuid env) eqn:Hfree; [done|].
    intros _. eexists (Validator.mk _ _ _ _ _). simpl.
    split_and!; try done. by rewrite lookup_insert_eq.
Qed.

End Handshake.

(** X16. The handshake round trip. The agent registers a callback under a
    fresh id and sends its public key; when the hub answers, the reply
    carries that callback id, and on reading it the agent takes as its
    [validatorID] the id of the store row that holds its public key, under
    which the hub has registered the agent's connection; the callback is
    spent. *)
Theorem handshake_round_trip
    (env : client.SignupEnv) (v : client.State)
    (senv : SignupEnv) (cenv : CallbackEnv) (conn : Conn) (h : Hub)
    (frame : IncomingMessage.t) :
  keyed_by_ID (db h) →
  client.uuid env ∉ client.callbacks v →
  snd (client.signup env v) = Some frame →
  snd (handleWebSocket_step senv cenv conn (Frame frame) h) ≠ [] →
  let v1 := fst (client.signup env v) in
  let h1 := fst (handleWebSocket_step senv cenv conn (Frame frame) h) in
  let publicKey := client.PublicKey env (validator.keypair (client.core v)) in
  ∃ id row,
    snd (handleWebSocket_step senv cenv conn (Frame frame) h)
    = [WriteJSON conn (OutgoingMessage.mk "signup" (SignupReply id (client.uuid env)))]
    ∧ client.listen_step
        (OutgoingMessage.mk "signup" (SignupReply id (client.uuid env))) v1
      = Some (client.mkState
                (validator.mkValidatorClient (validator.keypair (client.core v)) id)
                (client.callbacks v),
              [])
    ∧ Validators (db h1) !! id = Some row
    ∧ Validator.ID row = id
    ∧ Validator.PublicKey row = publicKey
    ∧ validators h1 !! id = Some (ValidatorConnection.mk id publicKey conn).
Proof.
  intros Hkey Hfresh Hframe Hanswer v1 h1 publicKey. subst v1 h1 publicKey.
  unfold client.signup in *. destruct (client.write_fault env); [done|].
  simpl in Hframe. injection Hframe as <-. cbn [fst].
  unfold handleWebSocket_step in *. cbn [IncomingMessage.Type_ IncomingMessage.Data] in *.
  change (String.eqb "signup" "signup") with true in *. cbn iota in *.
  set (data := client.signup_data _ _ _) in *.
  destruct (handleSignup_answered senv conn data
              (SignupIncoming.mk "127.0.0.1"
                 (client.PublicKey env (validator.keypair (client.core v)))
                 (validator.signMessage (client.signer env) (client.core v)
                    ("Signed message for " +:+ client.uuid env +:+ ", "
                     +:+ client.PublicKey env (validator.keypair (client.core v))))
                 (client.uuid env))
              h eq_refl Hkey Hanswer) as (row & Hrow & Hpk & Hrun).
  exists (Validator.ID row), row. rewrite Hrun in *. cbn [fst snd db validators] in *.
  simpl in Hpk. split_and!; try done.
  - unfold client.listen_step, client.handleSignupResponse. simpl.
    rewrite decide_True by set_solver. simpl. do 3 f_equal. set_solver.
  - rewrite lookup_insert_eq. by rewrite Hpk.
Qed.

Lemma handshake_round_trip_witness :
  let env := Cases.agent_env in
  let v := Cases.agent0 in
  let h := NewHub Scenario.db0 in
  let frame := IncomingMessage.mk "signup"
                 (client.signup_data "s-1" "PK-of-k1" "c2lnbmVk") in
  let step := handleWebSocket_step (Scenario.senv "V1") (Scenario.cenv "" 0)
                                   4%nat (Frame frame) h in
  ∃ id row,
    snd step = [WriteJSON 4%nat (OutgoingMessage.mk "signup" (SignupReply id "s-1"))]
    ∧ client.listen_step (OutgoingMessage.mk "signup" (SignupReply id "s-1"))
                         (fst (client.signup env v))
      = Some (client.mkState (validator.mkValidatorClient "k1" id) ∅, [])
    ∧ Validators (db (fst step)) !! id = Some row
    ∧ Validator.ID row = id
    ∧ Validator.PublicKey row = "PK-of-k1"
    ∧ validators (fst step) !! id = Some (ValidatorConnection.mk id "PK-of-k1" 4%nat).
Proof.
  apply (handshake_round_trip
           Cases.agent_env Cases.agent0 (Scenario.senv "V1") (Scenario.cenv "" 0)
           4%nat (NewHub Scenario.db0)
           (IncomingMessage.mk "signup"
              (client.signup_data "s-1" "PK-of-k1" "c2lnbmVk"))).
  - intros id row Hrow. simpl in Hrow. by rewrite lookup_empty in Hrow.
  - set_solver.
  - reflexivity.
  - vm_compute. discriminate.
Defined.

(** The handshake of the witness: the agent becomes V1. *)
Example Cases_handshake :
  let frame := IncomingMessage.mk "signup"
                 (client.signup_data "s-1" "PK-of-k1" "c2lnbmVk") in
  client.signup Cases.agent_env Cases.agent0
  = (client.mkState (validator.mkValidatorClient "k1" "") {["s-1"]}, Some frame)
  ∧ snd (handleWebSocket_step (Scenario.senv "V1") (Scenario.cenv "" 0) 4%nat
                              (Frame frame) (NewHub Scenario.db0))
    = [WriteJSON 4%nat (OutgoingMessage.mk "signup" (SignupReply "V1" "s-1"))]
  ∧ client.listen_step (OutgoingMessage.mk "signup" (SignupReply "V1" "s-1"))
                       (fst (client.signup Cases.agent_env Cases.agent0))
    = Some (client.mkState (validator.mkValidatorClient "k1" "V1") ∅, []).
Proof. by_evaluation. Qed.

Section ProbeRoundTrip.

(** A reply that can be recorded is recorded. *)
Lemma callback_run_recorded cb env msg validate (d : DB) :
  RawMessage.asValidate (IncomingMessage.Data msg) = Some validate →
  tick_create_fault env = false → tick_update_fault env = false →
  tick_commit_fault env = false →
  tick_uuid env ∉ WebsiteTick.ID <$> WebsiteTicks d →
  is_Some (Websites d !! Callback.websiteID cb) →
  is_Some (Validators d !! ValidateIncoming.ValidatorID validate) →
  callback_run cb env msg d = recorded cb env validate d.
Proof.
  intros Hdec Hc Hu Hcommit Hpk Hw Hv. unfold callback_run.
  rewrite Hdec, Hc, Hu, Hcommit.
  unfold Create_WebsiteTick, tick_pk_free, tick_fk_ok. simpl.
  by rewrite !bool_decide_eq_true_2.
Qed.

(** A reply that cannot be recorded changes nothing. *)
Lemma callback_run_unrecordable cb env msg validate (d : DB) :
  RawMessage.asValidate (IncomingMessage.Data msg) = Some validate →
  Validators d !! ValidateIncoming.ValidatorID validate = None →
  callback_run cb env msg d = d.
Proof.
  intros Hdec Hv. unfold callback_run. rewrite Hdec.
  rewrite Create_WebsiteTick_fails; [done|]. by right; right; right.
Qed.

End ProbeRoundTrip.

(** X17. A probe, end to end. The agent decodes the task of the hub as it
    was sent; the reply it builds carries the callback id of the task, so
    the hub finds the handler registered for it, and when the agent's
    [validatorID] is a row of the store the hub records one tick with the
    target of the task as registered, the agent's id, and the status and
    latency the agent measured, credits that row with 100 lamports, and
    removes the handler. *)
Theorem probe_round_trip
    (penv : validator.ProbeEnv) (v : client.State)
    (url callbackId websiteId : string)
    (senv : SignupEnv) (cenv : CallbackEnv) (conn : Conn) (h : Hub)
    (cb : Callback.t) (row : Validator.t) :
  callbacks h !! callbackId = Some cb →
  Validators (db h) !! validator.validatorID (client.core v) = Some row →
  is_Some (Websites (db h) !! Callback.websiteID cb) →
  tick_uuid cenv ∉ WebsiteTick.ID <$> WebsiteTicks (db h) →
  tick_create_fault cenv = false → tick_update_fault cenv = false →
  tick_commit_fault cenv = false →
  let data := validator.ValidateData.mk url callbackId websiteId in
  let p := validator.validateWebsite penv (client.core v) data in
  let h' := fst (handleWebSocket_step senv cenv conn
                   (Frame (validator.probe_frame p)) h) in
  client.listen_step
    (OutgoingMessage.mk "validate" (ValidateTask url callbackId websiteId)) v
  = Some (v, [data])
  ∧ snd (handleWebSocket_step senv cenv conn (Frame (validator.probe_frame p)) h)
    = [Invoked cb (validator.probe_frame p)]
  ∧ WebsiteTicks (db h')
    = WebsiteTicks (db h)
      ++ [WebsiteTick.mk (tick_uuid cenv) (Callback.websiteID cb)
                         (validator.validatorID (client.core v))
                         (validator.probe_status p) (validator.probe_latency p)
                         (tick_now cenv)]
  ∧ Validators (db h')
    = <[validator.validatorID (client.core v) :=
          Validator.with_PendingPayouts
            (Validator.PendingPayouts row + COST_PER_VALIDATION) row]>
        (Validators (db h))
  ∧ callbacks h' = delete callbackId (callbacks h)
  ∧ validators h' = validators h.
Proof.
  intros Hcb Hrow Hw Hpk Hc Hu Hcommit data p h'. subst data p h'.
  split; [done|].
  unfold handleWebSocket_step, handleValidate.
  cbn [validator.validateWebsite validator.probe_frame IncomingMessage.Type_
       IncomingMessage.Data RawMessage.asValidate ValidateIncoming.CallbackID
       validator.ValidateData.CallbackID].
  change (String.eqb "validate" "signup") with false.
  change (String.eqb "validate" "validate") with true. cbn iota.
  rewrite Hcb. cbn [fst snd db callbacks validators].
  erewrite callback_run_recorded; [|reflexivity|done..|by eauto].
  split_and!; try done.
  unfold recorded, add_pending_payouts. simpl.
  apply map_eq. intros id.
  destruct (decide (validator.validatorID (client.core v) = id)) as [<-|Hne].
  - by rewrite lookup_alter_eq, lookup_insert_eq, Hrow.
  - by rewrite lookup_alter_ne, lookup_insert_ne.
Qed.

Lemma probe_round_trip_witness :
  let penv := Scenario.probe_env (validator.GetResponse 200) 120456789 in
  let v := client.mkState Scenario.agent ∅ in
  let h := Cases.dispatched in
  let data := validator.ValidateData.mk "https://one.example" "cb-0" "T1" in
  let p := validator.validateWebsite penv (client.core v) data in
  let cenv := Scenario.cenv "k-1" 1000 in
  let h' := fst (handleWebSocket_step (Scenario.senv "") cenv 1%nat
                   (Frame (validator.probe_frame p)) h) in
  client.listen_step
    (OutgoingMessage.mk "validate" (ValidateTask "https://one.example" "cb-0" "T1")) v
  = Some (v, [data])
  ∧ snd (handleWebSocket_step (Scenario.senv "") cenv 1%nat
                              (Frame (validator.probe_frame p)) h)
    = [Invoked (Callback.mk "T1" "PK1") (validator.probe_frame p)]
  ∧ WebsiteTicks (db h')
    = WebsiteTicks (db h)
      ++ [WebsiteTick.mk "k-1" "T1" "V1"
                         (validator.probe_status p) (validator.probe_latency p) 1000]
  ∧ Validators (db h')
    = <["V1" := Validator.with_PendingPayouts
                  (0 + COST_PER_VALIDATION)
                  (Validator.mk "V1" "PK1" "unknown" "127.0.0.1" 0)]>
        (Validators (db h))
  ∧ callbacks h' = delete "cb-0" (callbacks h)
  ∧ validators h' = validators h.
Proof.
  apply (probe_round_trip
           (Scenario.probe_env (validator.GetResponse 200) 120456789)
           (client.mkState Scenario.agent ∅)
           "https://one.example" "cb-0" "T1"
           (Scenario.senv "") (Scenario.cenv "k-1" 1000) 1%nat Cases.dispatched
           (Callback.mk "T1" "PK1")
           (Validator.mk "V1" "PK1" "unknown" "127.0.0.1" 0)).
  - vm_compute. reflexivity.
  - vm_compute. reflexivity.
  - vm_compute. eexists. reflexivity.
  - vm_compute. set_solver.
  - reflexivity.
  - reflexivity.
  - reflexivity.
Defined.

(** X18. The same probe by an agent whose handshake is not finished: its
    [validatorID] is still empty, no row has that id, and the hub records
    nothing and credits nobody, yet removes the handler, so the result of
    the task is lost. *)
Theorem probe_before_handshake_is_lost
    (penv : validator.ProbeEnv) (keypair url callbackId websiteId : string)
    (senv : SignupEnv) (cenv : CallbackEnv) (conn : Conn) (h : Hub)
    (cb : Callback.t) :
  callbacks h !! callbackId = Some cb →
  Validators (db h) !! "" = None →
  let v := client.NewValidatorClient keypair in
  let p := validator.validateWebsite penv (client.core v)
             (validator.ValidateData.mk url callbackId websiteId) in
  handleWebSocket_step senv cenv conn (Frame (validator.probe_frame p)) h
  = (mkHub (db h) (validators h) (delete callbackId (callbacks h)),
     [Invoked cb (validator.probe_frame p)]).
Proof.
  intros Hcb Hnone v p. subst v p.
  unfold handleWebSocket_step, handleValidate.
  cbn [validator.validateWebsite validator.probe_frame IncomingMessage.Type_
       IncomingMessage.Data RawMessage.asValidate ValidateIncoming.CallbackID
       validator.ValidateData.CallbackID].
  change (String.eqb "validate" "signup") with false.
  change (String.eqb "validate" "validate") with true. cbn iota.
  rewrite Hcb. by erewrite callback_run_unrecordable.
Qed.

Lemma probe_before_handshake_is_lost_witness :
  let p := validator.validateWebsite
             (Scenario.probe_env (validator.GetResponse 200) 120456789)
             (client.core (client.NewValidatorClient "k1"))
             (validator.ValidateData.mk "https://one.example" "cb-0" "T1") in
  handleWebSocket_step (Scenario.senv "") (Scenario.cenv "k-1" 1000) 1%nat
                       (Frame (validator.probe_frame p)) Cases.dispatched
  = (mkHub (db Cases.dispatched) (validators Cases.dispatched)
           (delete "cb-0" (callbacks Cases.dispatched)),
     [Invoked (Callback.mk "T1" "PK1") (validator.probe_frame p)]).
Proof.
  apply (probe_before_handshake_is_lost
           (Scenario.probe_env (validator.GetResponse 200) 120456789)
           "k1" "https://one.example" "cb-0" "T1"
           (Scenario.senv "") (Scenario.cenv "k-1" 1000) 1%nat Cases.dispatched
           (Callback.mk "T1" "PK1")).
  - vm_compute. reflexivity.
  - vm_compute. reflexivity.
Defined.

(* ===================================================================== *)
(** * Targets: authentication, creation, soft deletion *)
(* ===================================================================== *)

Section Targets.

Lemma strip_append prefix s : middleware.strip prefix (prefix +:+ s) = Some s.
Proof.
  induction prefix as [|a prefix IH]; [done|]. simpl.
  by rewrite Ascii.eqb_refl.
Qed.

(** The effects of a cycle are those of its pairs. *)
Lemma elem_of_cycle_effects uuid n ps e :
  e ∈ cycle_effects uuid n ps →
  ∃ k p, p ∈ ps
         ∧ (e = Registered (uuid k) (task_callback p)
            ∨ e = WriteJSON (ValidatorConnection.Conn (snd p))
                            (task_message (uuid k) p)).
Proof.
  revert n. induction ps as [|p ps IH]; intros n; simpl; [by intros ?%elem_of_nil|].
  rewrite !elem_of_cons. intros [->|[->|Hin]].
  - exists n, p. split; [by left|by left].
  - exists n, p. split; [by left|by right].
  - destruct (IH _ Hin) as (k & q & Hq & He). exists k, q. split; [by right|done].
Qed.

Lemma cycle_effects_of_pair uuid n ps p :
  p ∈ ps →
  ∃ k, Registered (uuid k) (task_callback p) ∈ cycle_effects uuid n ps
       ∧ WriteJSON (ValidatorConnection.Conn (snd p)) (task_message (uuid k) p)
         ∈ cycle_effects uuid n ps.
Proof.
  revert n. induction ps as [|q ps IH]; intros n; [by intros ?%elem_of_nil|].
  rewrite elem_of_cons. intros [->|Hin]; simpl.
  - exists n. split; [by left|right; by left].
  - destruct (IH (S n) Hin) as (k & Hr & Hw). exists k.
    split; by do 2 right.
Qed.

(** A cycle never concerns a target that is not active in the store. *)
Lemma cycle_concerns_active_targets env h id e :
  websites_keyed_by_ID (db h) →
  e ∈ snd (startMonitoring_cycle env h) → concerns id e →
  ∃ w, Websites (db h) !! id = Some w ∧ Website.Disabled w = false.
Proof.
  intros Hkey He Hid. destruct (cycle_find_fault env) eqn:Hfind.
  { unfold startMonitoring_cycle in He. rewrite Hfind in He.
    by apply elem_of_nil in He. }
  rewrite startMonitoring_cycle_eq in He by done. simpl in He.
  apply elem_of_cycle_effects in He as (k & [w vc] & Hp & He).
  apply elem_of_tasks in Hp as [Hw _].
  apply elem_of_Find_active_Websites in Hw as [Hactive [key Hrow]].
  pose proof (Hkey _ _ Hrow) as Hkeyed.
  assert (Website.ID w = id) as Hwid.
  { destruct He as [->| ->]; simpl in Hid; done. }
  exists w. split; [|done]. by rewrite <- Hwid, Hkeyed.
Qed.

End Targets.

(** X19. The [Bearer ] scheme prefix of the [Authorization] header is
    optional: a header that is the bare token is verified exactly like the
    header [Bearer <token>], and in both cases the request goes on with the
    user id the JWT check returns, or is aborted with 401 and the error of
    the check. *)
Theorem AuthMiddleware_bearer_prefix_is_optional
    (VerifyJWT : string → string → middleware.Verified)
    (jwtSecret token : string) :
  token ≠ "" →
  middleware.strip "Bearer " token = None →
  middleware.AuthMiddleware VerifyJWT jwtSecret ("Bearer " +:+ token)
  = middleware.AuthMiddleware VerifyJWT jwtSecret token
  ∧ middleware.AuthMiddleware VerifyJWT jwtSecret token
    = match VerifyJWT token jwtSecret with
      | middleware.Accepted userID => inr userID
      | middleware.Rejected err =>
        inl (website.StatusUnauthorized, "Invalid token: " +:+ err)
      end.
Proof.
  intros Hne Hbare. unfold middleware.AuthMiddleware, middleware.TrimPrefix.
  rewrite strip_append, Hbare. simpl.
  destruct token as [|a token]; [done|]. done.
Qed.

Lemma AuthMiddleware_bearer_prefix_is_optional_witness :
  middleware.AuthMiddleware Cases.VerifyJWT "s3cret" ("Bearer " +:+ "t0k3n")
  = middleware.AuthMiddleware Cases.VerifyJWT "s3cret" "t0k3n"
  ∧ middleware.AuthMiddleware Cases.VerifyJWT "s3cret" "t0k3n"
    = match Cases.VerifyJWT "t0k3n" "s3cret" with
      | middleware.Accepted userID => inr userID
      | middleware.Rejected err =>
        inl (website.StatusUnauthorized, "Invalid token: " +:+ err)
      end.
Proof.
  apply (AuthMiddleware_bearer_prefix_is_optional Cases.VerifyJWT "s3cret" "t0k3n").
  - discriminate.
  - reflexivity.
Defined.

(** X20. Through the protected route a target is created only for a
    verified caller. Without an [Authorization] header, or with a token the
    JWT check rejects, the request is answered 401 and the store is
    unchanged; otherwise the store changes only by one new target, active,
    with a fresh id, the bound URL, and the user id the check returned as
    its owner. *)
Theorem protected_CreateWebsite_is_owned_by_the_verified_user
    (VerifyJWT : string → string → middleware.Verified)
    (jwtSecret authHeader : string) (env : website.CreateEnv)
    (body : website.Bound) (h : website.Handler) :
  let run := middleware.protected VerifyJWT jwtSecret authHeader
               (λ userID, website.CreateWebsite env userID body) h in
  ((authHeader = ""
    ∨ ∃ err, VerifyJWT (middleware.TrimPrefix authHeader "Bearer ") jwtSecret
             = middleware.Rejected err) →
   ∃ message,
     run = (h, website.ErrorResponse website.StatusUnauthorized message))
  ∧ (fst run = h
     ∨ ∃ userID url,
         authHeader ≠ ""
         ∧ VerifyJWT (middleware.TrimPrefix authHeader "Bearer ") jwtSecret
           = middleware.Accepted userID
         ∧ body = website.Bind url
         ∧ Websites (website.db h) !! website.uuid env = None
         ∧ run = (website.mkHandler
                    (mkDB (<[website.uuid env :=
                               Website.mk (website.uuid env) url userID false]>
                             (Websites (website.db h)))
                          (Validators (website.db h))
                          (WebsiteTicks (website.db h))
                          (PayoutTransactions (website.db h))),
                  website.Created website.StatusCreated (website.uuid env) url)).
Proof.
  intros run. subst run. unfold middleware.protected, middleware.AuthMiddleware.
  destruct (String.eqb_spec authHeader "") as [->|Hheader].
  { split; [by eauto|by left]. }
  destruct (VerifyJWT _ jwtSecret) as [userID|err] eqn:Hverify.
  - split; [by intros [?|[? ?]]|].
    unfold website.CreateWebsite.
    destruct body as [e|url]; [by left|].
    unfold Create_Website. destruct (website.create_fault env); [by left|]. simpl.
    destruct (Websites (website.db h) !! website.uuid env) eqn:Hfree; [by left|].
    right. exists userID, url. done.
  - split; [by eauto|by left].
Qed.

(** The protected route on the data of the cases: no header, a rejected
    token, and the accepted token with and without its prefix. *)
Example Cases_protected_create :
  let create header :=
    middleware.protected Cases.VerifyJWT "s3cret" header
      (λ userID, website.CreateWebsite (website.mkCreateEnv "T9" false) userID
                   (website.Bind "https://new.example"))
      Cases.site in
  create "" = (Cases.site, website.ErrorResponse 401 "Authorization header required")
  ∧ create "Bearer forged"
    = (Cases.site, website.ErrorResponse 401 "Invalid token: token is malformed")
  ∧ snd (create "Bearer t0k3n") = website.Created 201 "T9" "https://new.example"
  ∧ create "t0k3n" = create "Bearer t0k3n"
  ∧ Websites (website.db (fst (create "t0k3n"))) !! "T9"
    = Some (Website.mk "T9" "https://new.example" "U1" false).
Proof. by_evaluation. Qed.

(** X21. Deleting a target is a soft deletion that only its owner can do.
    [DeleteWebsite] leaves validators, ticks and settlement records as they
    are and every other target as it is; it answers 200 exactly when the
    statement ran and the named target exists and belongs to the caller,
    and then the row is kept with [disabled] set; in every other case the
    store is unchanged. *)
Theorem DeleteWebsite_only_disables_the_owners_target
    (update_fault : bool) (userID : option string) (body : website.Bound)
    (h : website.Handler) :
  let h' := fst (website.DeleteWebsite update_fault userID body h) in
  let r := snd (website.DeleteWebsite update_fault userID body h) in
  Validators (website.db h') = Validators (website.db h)
  ∧ WebsiteTicks (website.db h') = WebsiteTicks (website.db h)
  ∧ PayoutTransactions (website.db h') = PayoutTransactions (website.db h)
  ∧ (r = website.Message website.StatusOK "Website deleted successfully"
     ↔ update_fault = false
       ∧ ∃ id w, body = website.Bind id
                 ∧ Websites (website.db h) !! id = Some w
                 ∧ userID = Some (Website.UserID w))
  ∧ (r ≠ website.Message website.StatusOK "Website deleted successfully" →
     h' = h)
  ∧ (∀ id w, body = website.Bind id →
             Websites (website.db h) !! id = Some w →
             userID = Some (Website.UserID w) → update_fault = false →
             Websites (website.db h')
             = <[id := Website.mk (Website.ID w) (Website.URL w)
                                  (Website.UserID w) true]>
                 (Websites (website.db h))).
Proof.
  intros h' r. subst h' r. unfold website.DeleteWebsite, website.disable_Website.
  destruct body as [e|id].
  { simpl. split_and!; try done. split; [done|]. by intros [_ (? & ? & ? & _)]. }
  destruct update_fault.
  { simpl. split_and!; try done. split; [done|]. by intros [? _]. }
  destruct (Websites (website.db h) !! id) as [w|] eqn:Hrow.
  - case_bool_decide as Howner; simpl.
    + split_and!; try done.
      * split; [|done]. intros _. split; [done|]. by exists id, w.
      * intros id' w' [= <-] Hrow' _ _. congruence.
    + split_and!; try done.
      * split; [done|]. intros [_ (id' & w' & [= <-] & Hrow' & Hu)]. congruence.
      * intros id' w' [= <-] Hrow' Hu. congruence.
  - simpl. split_and!; try done.
    + split; [done|]. intros [_ (id' & w' & [= <-] & Hrow' & _)]. congruence.
    + intros id' w' [= <-] Hrow'. congruence.
Qed.

(** X22. A deleted target is no longer probed. After the owner has deleted
    it, whatever the hub then does (handshakes, replies, disconnects,
    cycles) and with whatever validators connected, no dispatch cycle
    registers a handler or sends a task for that target; its ticks are
    kept. *)
Theorem deleted_target_is_no_longer_probed
    (userID websiteId : string) (hd : website.Handler) (w : Website.t)
    (registry : gmap string ValidatorConnection.t)
    (handlers : gmap string Callback.t)
    (evs : list HubEvent) (env : CycleEnv) (e : Effect) :
  websites_keyed_by_ID (website.db hd) →
  Websites (website.db hd) !! websiteId = Some w →
  Website.UserID w = userID →
  let hd' := fst (website.DeleteWebsite false (Some userID)
                    (website.Bind websiteId) hd) in
  let h := hub_run evs (mkHub (website.db hd') registry handlers) in
  e ∈ snd (startMonitoring_cycle env h) →
  ¬ concerns websiteId e
  ∧ WebsiteTicks (website.db hd') = WebsiteTicks (website.db hd)
  ∧ snd (website.DeleteWebsite false (Some userID) (website.Bind websiteId) hd)
    = website.Message website.StatusOK "Website deleted successfully".
Proof.
  intros Hkey Hrow Howner hd' h He. subst hd' h.
  unfold website.DeleteWebsite, website.disable_Website in *.
  rewrite Hrow in *. rewrite bool_decide_eq_true_2 in * by congruence.
  simpl in *. split_and!; try done.
  intros Hconcerns.
  set (d' := mkDB _ _ _ _) in He.
  set (h0 := mkHub d' registry handlers) in He.
  destruct (hub_run_frame_holds evs h0) as (Hwebsites & _).
  assert (websites_keyed_by_ID (db (hub_run evs h0))) as Hkey'.
  { intros id w'. rewrite Hwebsites. simpl.
    destruct (decide (websiteId = id)) as [<-|Hne].
    - rewrite lookup_insert_eq. intros [= <-]. simpl. by apply Hkey.
    - rewrite lookup_insert_ne by done. apply Hkey. }
  destruct (cycle_concerns_active_targets env _ websiteId e Hkey' He Hconcerns)
    as (w' & Hrow' & Hactive).
  rewrite Hwebsites in Hrow'. simpl in Hrow'.
  rewrite lookup_insert_eq in Hrow'. injection Hrow' as <-. done.
Qed.

Lemma deleted_target_is_no_longer_probed_witness :
  let hd' := fst (website.DeleteWebsite false (Some "U1") (website.Bind "T1")
                    Cases.site) in
  let h := hub_run Scenario.replies
             (mkHub (website.db hd') (validators Scenario.connected_hub) ∅) in
  ¬ concerns "T1"
      (WriteJSON 1%nat (OutgoingMessage.mk "validate"
                          (ValidateTask "https://two.example" "cb-4" "T2")))
  ∧ WebsiteTicks (website.db hd') = WebsiteTicks (website.db Cases.site)
  ∧ snd (website.DeleteWebsite false (Some "U1") (website.Bind "T1") Cases.site)
    = website.Message website.StatusOK "Website deleted successfully".
Proof.
  apply (deleted_target_is_no_longer_probed
           "U1" "T1" Cases.site Scenario.T1
           (validators Scenario.connected_hub) ∅ Scenario.replies
           (Scenario.cycle 4)
           (WriteJSON 1%nat (OutgoingMessage.mk "validate"
                               (ValidateTask "https://two.example" "cb-4" "T2")))).
  - intros id w. vm_compute (Websites _).
    intros Hrow.
    destruct (decide (id = "T1")) as [->|H1]; [by injection Hrow as <-|].
    destruct (decide (id = "T2")) as [->|H2]; [by injection Hrow as <-|].
    destruct (decide (id = "T3")) as [->|H3]; [by injection Hrow as <-|].
    exfalso. revert Hrow.
    change (Websites Scenario.db0 !! id = Some w → False).
    unfold Scenario.db0. simpl. by rewrite !lookup_insert_ne, lookup_empty.
  - vm_compute. reflexivity.
  - reflexivity.
  - vm_compute. set_solver.
Defined.

(** After the deletion of T1 the cycle of the scenario sends two tasks, for
    T2 only. *)
Example Cases_deleted_target :
  let hd' := fst (website.DeleteWebsite false (Some "U1") (website.Bind "T1")
                    Cases.site) in
  let h := mkHub (website.db hd') (validators Scenario.connected_hub) ∅ in
  snd (startMonitoring_cycle (Scenario.cycle 0) h)
  = [Registered "cb-0" (Callback.mk "T2" "PK1");
     WriteJSON 1%nat (OutgoingMessage.mk "validate"
                        (ValidateTask "https://two.example" "cb-0" "T2"));
     Registered "cb-1" (Callback.mk "T2" "PK2");
     WriteJSON 2%nat (OutgoingMessage.mk "validate"
                        (ValidateTask "https://two.example" "cb-1" "T2"))]
  ∧ website.DeleteWebsite false (Some "U2") (website.Bind "T1") Cases.site
    = (Cases.site, website.ErrorResponse 404 "Website not found").
Proof. by_evaluation. Qed.

(** X23. A created target is probed by every connected validator. Once
    [CreateWebsite] has answered 201, any dispatch cycle that fetches the
    targets from that store registers a handler for the new target and
    sends its URL and id to the connection of each validator of the
    registry. *)
Theorem created_target_is_probed_by_every_validator
    (env : website.CreateEnv) (userID url : string) (hd : website.Handler)
    (registry : gmap string ValidatorConnection.t)
    (handlers : gmap string Callback.t)
    (cenv : CycleEnv) (id : string) (vc : ValidatorConnection.t) :
  website.create_fault env = false →
  Websites (website.db hd) !! website.uuid env = None →
  cycle_find_fault cenv = false →
  registry !! id = Some vc →
  let hd' := fst (website.CreateWebsite env (Some userID) (website.Bind url) hd) in
  let effects := snd (startMonitoring_cycle cenv
                        (mkHub (website.db hd') registry handlers)) in
  snd (website.CreateWebsite env (Some userID) (website.Bind url) hd)
  = website.Created website.StatusCreated (website.uuid env) url
  ∧ ∃ k,
      Registered (cycle_uuid cenv k)
                 (createValidateCallback (website.uuid env)
                                         (ValidatorConnection.PublicKey vc))
      ∈ effects
      ∧ WriteJSON (ValidatorConnection.Conn vc)
                  (OutgoingMessage.mk "validate"
                     (ValidateTask url (cycle_uuid cenv k) (website.uuid env)))
        ∈ effects.
Proof.
  intros Hfault Hfree Hfind Hvc hd' effects. subst hd' effects.
  unfold website.CreateWebsite, Create_Website. rewrite Hfault. simpl.
  rewrite Hfree. cbn [fst snd website.db]. split; [done|].
  rewrite startMonitoring_cycle_eq by done. cbn [snd].
  set (w := Website.mk (website.uuid env) url userID false).
  destruct (cycle_effects_of_pair (cycle_uuid cenv) 0
              (tasks (Find_active_Websites
                        (db (mkHub (mkDB (<[website.uuid env := w]>
                                            (Websites (website.db hd)))
                                         (Validators (website.db hd))
                                         (WebsiteTicks (website.db hd))
                                         (PayoutTransactions (website.db hd)))
                                   registry handlers)))
                     (connected (mkHub (mkDB (<[website.uuid env := w]>
                                                (Websites (website.db hd)))
                                             (Validators (website.db hd))
                                             (WebsiteTicks (website.db hd))
                                             (PayoutTransactions (website.db hd)))
                                       registry handlers)))
              (w, vc)) as (k & Hr & Hw).
  { apply elem_of_tasks. split.
    - apply elem_of_Find_active_Websites. split; [done|].
      exists (website.uuid env). simpl. by rewrite lookup_insert_eq.
    - apply elem_of_connected. by exists id. }
  by exists k.
Qed.

Lemma created_target_is_probed_by_every_validator_witness :
  let env := website.mkCreateEnv "T9" false in
  let hd' := fst (website.CreateWebsite env (Some "U1")
                    (website.Bind "https://new.example") Cases.site) in
  let effects := snd (startMonitoring_cycle (Scenario.cycle 0)
                        (mkHub (website.db hd')
                               (validators Scenario.connected_hub) ∅)) in
  snd (website.CreateWebsite env (Some "U1") (website.Bind "https://new.example")
                             Cases.site)
  = website.Created website.StatusCreated "T9" "https://new.example"
  ∧ ∃ k,
      Registered (cycle_uuid (Scenario.cycle 0) k)
                 (createValidateCallback "T9" "PK2") ∈ effects
      ∧ WriteJSON 2%nat
                  (OutgoingMessage.mk "validate"
                     (ValidateTask "https://new.example"
                                   (cycle_uuid (Scenario.cycle 0) k) "T9"))
        ∈ effects.
Proof.
  apply (created_target_is_probed_by_every_validator
           (website.mkCreateEnv "T9" false) "U1" "https://new.example" Cases.site
           (validators Scenario.connected_hub) ∅ (Scenario.cycle 0) "V2"
           (ValidatorConnection.mk "V2" "PK2" 2%nat)).
  - reflexivity.
  - vm_compute. reflexivity.
  - reflexivity.
  - vm_compute. reflexivity.
Defined.

(* ===================================================================== *)
(** * The engine as a whole *)
(* ===================================================================== *)

Section Engine.

Import engine.

Implicit Types (s : State) (q : list Publishing.t) (id : string) (d : DB).

Lemma queued_cons id m q : queued id (m :: q) = (amount_for id m + queued id q)%Z.
Proof. done. Qed.

Lemma queued_snoc id q m : queued id (q ++ [m]) = (queued id q + amount_for id m)%Z.
Proof.
  induction q as [|m' q IH]; simpl; [lia|]. fold (queued id (q ++ [m])).
  fold (queued id q). lia.
Qed.

Lemma amount_for_other id m req :
  Body.asPayoutRequest (Publishing.Body m) = Some req →
  PayoutRequest.ValidatorID req ≠ id → amount_for id m = 0%Z.
Proof. intros Hdec Hne. unfold amount_for. by rewrite Hdec, decide_False. Qed.

Lemma amount_for_same m req :
  Body.asPayoutRequest (Publishing.Body m) = Some req →
  amount_for (PayoutRequest.ValidatorID req) m = PayoutRequest.Amount req.
Proof. intros Hdec. unfold amount_for. by rewrite Hdec, decide_True. Qed.

Lemma amount_for_undecodable id m :
  Body.asPayoutRequest (Publishing.Body m) = None → amount_for id m = 0%Z.
Proof. intros Hdec. unfold amount_for. by rewrite Hdec. Qed.

(** Nothing is queued for an id that no queued message names. *)
Lemma queued_unnamed id q :
  (∀ m req, m ∈ q → Body.asPayoutRequest (Publishing.Body m) = Some req →
            PayoutRequest.ValidatorID req ≠ id) →
  queued id q = 0%Z.
Proof.
  induction q as [|m q IH]; intros Hq; [done|].
  rewrite queued_cons, IH.
  - destruct (Body.asPayoutRequest (Publishing.Body m)) as [req|] eqn:Hdec.
    + rewrite (amount_for_other id m req); [done|done|].
      eapply Hq; [by left|done].
    + by rewrite amount_for_undecodable.
  - intros m' req Hin. apply Hq. by right.
Qed.

(** What is queued for a validator is not negative when the amounts are
    positive. *)
Lemma amount_for_nonneg id m :
  (∀ req, Body.asPayoutRequest (Publishing.Body m) = Some req →
          (0 < PayoutRequest.Amount req)%Z) →
  (0 ≤ amount_for id m)%Z.
Proof.
  intros Hpos. unfold amount_for.
  destruct (Body.asPayoutRequest (Publishing.Body m)) as [req|]; [|done].
  case_decide; [|done]. specialize (Hpos req eq_refl). lia.
Qed.

(** Soundness reads the validator table, the ticks and the queue only. *)
Lemma engine_sound_same s s' :
  Validators (db (hub s')) = Validators (db (hub s)) →
  WebsiteTicks (db (hub s')) = WebsiteTicks (db (hub s)) →
  queue s' = queue s →
  engine_sound s → engine_sound s'.
Proof.
  intros Hv Ht Hq ([Hkey Huniq] & Hfk & Hrefs & Hcredit).
  unfold engine_sound, identities_well_formed, keyed_by_ID, unique_public_keys.
  rewrite Hv, Ht, Hq. done.
Qed.

(** A change of credit keeps the identities. *)
Lemma alter_credit_well_formed d d' id (f : Z → Z) :
  Validators d'
  = alter (λ v, Validator.with_PendingPayouts (f (Validator.PendingPayouts v)) v)
          id (Validators d) →
  identities_well_formed d → identities_well_formed d'.
Proof.
  intros Hd' [Hkey Huniq].
  assert (∀ k v', Validators d' !! k = Some v' →
                  ∃ v, Validators d !! k = Some v
                       ∧ Validator.ID v' = Validator.ID v
                       ∧ Validator.PublicKey v' = Validator.PublicKey v) as Hrow.
  { intros k v'. rewrite Hd'. destruct (decide (id = k)) as [<-|Hne].
    - rewrite lookup_alter_eq. destruct (Validators d !! id) as [v|]; simpl; [|done].
      intros [= <-]. by exists v.
    - rewrite lookup_alter_ne by done. intros Hv. by exists v'. }
  split.
  - intros k v' Hv'. destruct (Hrow _ _ Hv') as (v & Hv & Hid & _).
    rewrite Hid. by apply Hkey.
  - intros k1 k2 v1 v2 H1 H2 Hpk.
    destruct (Hrow _ _ H1) as (w1 & Hw1 & _ & Hpk1).
    destruct (Hrow _ _ H2) as (w2 & Hw2 & _ & Hpk2).
    eapply Huniq; [exact Hw1|exact Hw2|congruence].
Qed.

Lemma set_db_same (h : Hub) : set_db (db h) h = h.
Proof. by destruct h. Qed.

End Engine.

Section EngineSteps.

Import engine.

Implicit Types (s : State) (q : list Publishing.t) (id : string) (d : DB).

(** A step of the hub keeps the engine sound. *)
Lemma store_step_sound s s' :
  store_step (db (hub s)) (db (hub s')) →
  identities_well_formed (db (hub s')) →
  queue s' = queue s →
  engine_sound s → engine_sound s'.
Proof.
  intros Hstep Hwf' Hq (Hwf & Hfk & Hrefs & Hcredit).
  remember (db (hub s)) as d eqn:Hd. remember (db (hub s')) as d' eqn:Hd'.
  unfold engine_sound. rewrite <- Hd', Hq.
  destruct Hstep as [|cb env msg|v0 Hfree Hzero].
  - done.
  - destruct (callback_run_cases cb env msg d) as [Hsame|(validate & _ & Hv & Hrec)].
    { rewrite Hsame in *. done. }
    rewrite Hrec in *. clear Hrec. split_and!; [done| | |].
    + intros t. rewrite recorded_WebsiteTicks, elem_of_app, list_elem_of_singleton.
      rewrite recorded_Validators. intros [Ht| ->].
      * specialize (Hfk t Ht). case_decide as Hid; [|done].
        rewrite <- Hid, fmap_is_Some. by rewrite Hid.
      * simpl. rewrite decide_True by done. by rewrite fmap_is_Some.
    + intros m req Hm Hdec. destruct (Hrefs m req Hm Hdec) as [Hpos Hrow].
      split; [done|]. rewrite recorded_Validators.
      case_decide; [by rewrite fmap_is_Some|done].
    + intros id v. rewrite recorded_Validators, recorded_WebsiteTicks.
      rewrite ticks_for_app, length_app, ticks_for_singleton. simpl.
      destruct (decide (ValidateIncoming.ValidatorID validate = id)) as [Hid|Hid].
      * destruct (Validators d !! id) as [v1|] eqn:Hv1; simpl; [|done].
        intros [= <-]. destruct (Hcredit id v1 Hv1) as [Hnn Hle]. simpl.
        unfold COST_PER_VALIDATION in *. lia.
      * intros Hv1. destruct (Hcredit id v Hv1) as [Hnn Hle].
        split; [done|]. lia.
  - split_and!; [done| | |]; simpl.
    + intros t Ht. rewrite lookup_insert_is_Some.
      destruct (decide (Validator.ID v0 = WebsiteTick.ValidatorID t)); [by left|].
      right. split; [done|]. by apply Hfk.
    + intros m req Hm Hdec. destruct (Hrefs m req Hm Hdec) as [Hpos Hrow].
      split; [done|]. rewrite lookup_insert_is_Some.
      destruct (decide (Validator.ID v0 = PayoutRequest.ValidatorID req)); by eauto.
    + intros id v. destruct (decide (Validator.ID v0 = id)) as [<-|Hne].
      * rewrite lookup_insert_eq. intros [= <-]. rewrite Hzero.
        rewrite ticks_for_nil.
        -- rewrite queued_unnamed; [simpl; lia|].
           intros m req Hm Hdec Heq. destruct (Hrefs m req Hm Hdec) as [_ [? Hrow]].
           rewrite Heq in Hrow. congruence.
        -- intros t Ht Heq. apply Hfk in Ht as [? Ht]. rewrite Heq in Ht. congruence.
      * rewrite lookup_insert_ne by done. apply Hcredit.
Qed.

Lemma hub_step_sound s ev :
  engine_sound s → engine_sound (mkState (hub_step (hub s) ev) (queue s)).
Proof.
  intros Hs.
  apply (store_step_sound s (mkState (hub_step (hub s) ev) (queue s)));
    [| |reflexivity|exact Hs]; simpl.
  - apply hub_step_store.
  - apply hub_step_well_formed. by destruct Hs.
Qed.

(** A payout request without a fault after its publish keeps it sound. *)
Lemma Request_sound s env validatorID :
  clean (Request env validatorID) = true →
  engine_sound s → engine_sound (step s (Request env validatorID)).
Proof.
  intros Hclean Hs. simpl.
  destruct (RequestPayout_cases env validatorID
              (user.mkHandler (db (hub s)) (queue s)))
    as [[Hsame _]|(validator & Hv & Hpos & _ & Hpub
                   & [(_ & Hfault & _)|(Hrun & _ & _)])].
  - rewrite Hsame. simpl. rewrite set_db_same. by destruct s.
  - simpl in Hclean. rewrite Hpub in Hclean. simpl in Hclean.
    destruct Hfault as [Hf|Hf]; rewrite Hf in Hclean;
      [done|by rewrite orb_true_r in Hclean].
  - rewrite Hrun. simpl in *. destruct Hs as (Hwf & Hfk & Hrefs & Hcredit).
    pose proof (proj1 Hwf _ _ Hv) as Hid. rewrite Hid.
    split_and!; simpl.
    + eapply (alter_credit_well_formed (db (hub s)) _ validatorID (λ _, 0%Z));
        [|done]. done.
    + intros t Ht. rewrite lookup_alter_is_Some. by apply Hfk.
    + intros m req. rewrite elem_of_app, list_elem_of_singleton.
      rewrite lookup_alter_is_Some. intros [Hm| ->] Hdec.
      * by apply (Hrefs m req).
      * simpl in Hdec. injection Hdec as <-. simpl. split; [done|].
        rewrite Hid. by eauto.
    + intros id v. rewrite queued_snoc.
      destruct (decide (validatorID = id)) as [<-|Hne].
      * rewrite lookup_alter_eq, Hv. intros [= <-]. simpl.
        destruct (Hcredit _ _ Hv) as [Hnn Hle].
        unfold amount_for. simpl. rewrite decide_True by done. lia.
      * rewrite lookup_alter_ne by done. intros Hrow.
        destruct (Hcredit _ _ Hrow) as [Hnn Hle].
        unfold amount_for. simpl. rewrite decide_False by congruence. lia.
Qed.

End EngineSteps.

Section EngineRun.

Import engine.

Implicit Types (s : State) (q : list Publishing.t) (id : string) (d : DB).

(** Dropping the first message of the queue, with or without its re-credit. *)
Lemma drop_first_sound s m rest (d' : DB) :
  queue s = m :: rest →
  WebsiteTicks d' = WebsiteTicks (db (hub s)) →
  (Validators d' = Validators (db (hub s))
   ∨ ∃ req,
       Body.asPayoutRequest (Publishing.Body m) = Some req
       ∧ Validators d'
         = alter (λ v, Validator.with_PendingPayouts
                         (Validator.PendingPayouts v + PayoutRequest.Amount req) v)
                 (PayoutRequest.ValidatorID req) (Validators (db (hub s)))) →
  engine_sound s → engine_sound (mkState (set_db d' (hub s)) rest).
Proof.
  intros Hq Hticks Hrows (Hwf & Hfk & Hrefs & Hcredit).
  rewrite Hq in Hrefs, Hcredit.
  assert (∀ r, Body.asPayoutRequest (Publishing.Body m) = Some r →
               (0 < PayoutRequest.Amount r)%Z) as Hpos.
  { intros r Hr. eapply Hrefs; [by left|done]. }
  unfold engine_sound. simpl. rewrite Hticks.
  destruct Hrows as [Hsame|(req & Hdec & Halter)].
  - unfold identities_well_formed, keyed_by_ID, unique_public_keys.
    rewrite Hsame. split_and!; try done; [by destruct Hwf|by destruct Hwf| |].
    + intros m' r Hm'. apply (Hrefs m' r). by right.
    + intros id v Hv. destruct (Hcredit id v Hv) as [Hnn Hle].
      split; [done|]. rewrite queued_cons in Hle.
      pose proof (amount_for_nonneg id m Hpos). lia.
  - split_and!.
    + by eapply (alter_credit_well_formed (db (hub s)) d'
                   (PayoutRequest.ValidatorID req)
                   (λ credit, (credit + PayoutRequest.Amount req)%Z)).
    + intros t Ht. rewrite Halter, lookup_alter_is_Some. by apply Hfk.
    + intros m' r Hm' Hr. rewrite Halter, lookup_alter_is_Some.
      apply (Hrefs m' r); [by right|done].
    + intros id v. rewrite Halter.
      destruct (decide (PayoutRequest.ValidatorID req = id)) as [<-|Hne].
      * rewrite lookup_alter_eq.
        destruct (Validators (db (hub s)) !! _) as [v0|] eqn:Hv0; simpl; [|done].
        intros [= <-]. destruct (Hcredit _ _ Hv0) as [Hnn Hle]. simpl.
        rewrite queued_cons, (amount_for_same m req Hdec) in Hle.
        specialize (Hpos req Hdec). lia.
      * rewrite lookup_alter_ne by done. intros Hv.
        destruct (Hcredit _ _ Hv) as [Hnn Hle]. split; [done|].
        rewrite queued_cons, (amount_for_other id m req Hdec Hne) in Hle. lia.
Qed.

(** A delivery whose acknowledgement reaches the broker keeps the engine
    sound, whether or not its status update and its refund run. *)
Lemma Deliver_sound s env :
  clean (Deliver env) = true →
  engine_sound s → engine_sound (step s (Deliver env)).
Proof.
  intros Hack%negb_true_iff Hs. simpl. rewrite Hack.
  destruct (queue s) as [|m rest] eqn:Hq; [done|].
  destruct (processPayoutRequest_cases env
              (services.mkDelivery (Publishing.Body m))
              (services.mkPayoutWorker (db (hub s))))
    as [[Hdec ->]|(req & Hdec & [[Hcreate ->]|(Hfree & Hv & Hrest)])]; simpl in *.
  - apply (drop_first_sound s m rest (db (hub s)) Hq eq_refl); [by left|done].
  - rewrite set_db_same. destruct s as [h q]. simpl in *. by rewrite <- Hq.
  - destruct Hrest as [(sig & err & _ & ->)|(signature & _ & [[_ ->]|[_ ->]])];
      simpl; unfold services.unchecked;
      destruct (services.status_update_fault env);
      try destruct (services.refund_fault env);
      (apply (drop_first_sound s m rest _ Hq); [done| |done]);
      first [by left|right; by exists req].
Qed.

Lemma website_step_sound s (h' : website.Handler) :
  Validators (website.db h') = Validators (db (hub s)) →
  WebsiteTicks (website.db h') = WebsiteTicks (db (hub s)) →
  engine_sound s → engine_sound (mkState (set_db (website.db h') (hub s)) (queue s)).
Proof. intros Hv Ht. by apply engine_sound_same. Qed.

Lemma CreateWebsite_keeps env userID body (h : website.Handler) :
  Validators (website.db (fst (website.CreateWebsite env userID body h)))
  = Validators (website.db h)
  ∧ WebsiteTicks (website.db (fst (website.CreateWebsite env userID body h)))
    = WebsiteTicks (website.db h).
Proof.
  unfold website.CreateWebsite. destruct userID as [u|]; [|done].
  destruct body as [e|url]; [done|].
  unfold Create_Website. destruct (website.create_fault env); [done|]. simpl.
  by destruct (Websites (website.db h) !! website.uuid env).
Qed.

Lemma DeleteWebsite_keeps fault userID body (h : website.Handler) :
  Validators (website.db (fst (website.DeleteWebsite fault userID body h)))
  = Validators (website.db h)
  ∧ WebsiteTicks (website.db (fst (website.DeleteWebsite fault userID body h)))
    = WebsiteTicks (website.db h).
Proof.
  unfold website.DeleteWebsite, website.disable_Website.
  destruct body as [e|id]; [done|]. destruct fault; [done|].
  destruct (Websites (website.db h) !! id) as [w|]; [|done].
  by case_bool_decide.
Qed.

Lemma step_sound s ev :
  clean ev = true → engine_sound s → engine_sound (step s ev).
Proof.
  intros Hclean Hs. destruct ev as [ev|env id|env|env u body|fault u body].
  - by apply hub_step_sound.
  - by apply Request_sound.
  - by apply Deliver_sound.
  - simpl. apply website_step_sound; [|..|done];
      apply (CreateWebsite_keeps env u body (website.mkHandler (db (hub s)))).
  - simpl. apply website_step_sound; [|..|done];
      apply (DeleteWebsite_keeps fault u body (website.mkHandler (db (hub s)))).
Qed.

Lemma run_sound evs s :
  forallb clean evs = true → engine_sound s → engine_sound (run evs s).
Proof.
  revert s. induction evs as [|ev evs IH]; intros s Hclean Hs; [done|].
  simpl in *. apply andb_true_iff in Hclean as [Hev Hevs].
  apply IH; [done|]. by apply step_sound.
Qed.

End EngineRun.

Section Ledger.

Import engine.

Implicit Types (s : State) (q : list Publishing.t) (id : string) (d : DB).

Lemma paid_same id d d' :
  PayoutTransactions d' = PayoutTransactions d → paid id d' = paid id d.
Proof. unfold paid. by intros ->. Qed.

(** A new record adds what it counts. *)
Lemma paid_insert id d d' k r :
  PayoutTransactions d !! k = None →
  PayoutTransactions d' = <[k := r]> (PayoutTransactions d) →
  paid id d' = (on_record id r + paid id d)%Z.
Proof.
  intros Hfree Hd'. unfold paid. rewrite Hd'.
  rewrite map_fold_insert_L; [done| |done].
  intros j1 j2 z1 z2 y _ _ _. lia.
Qed.

(** Nothing is on record for an id that no record names. *)
Lemma paid_unnamed id d :
  (∀ k r, PayoutTransactions d !! k = Some r → PayoutTransaction.ValidatorID r ≠ id) →
  paid id d = 0%Z.
Proof.
  unfold paid.
  apply (map_fold_weak_ind
           (λ total (m : gmap string PayoutTransaction.t),
              (∀ k r, m !! k = Some r → PayoutTransaction.ValidatorID r ≠ id) →
              total = 0%Z)); [done|].
  intros k r m total Hfree IH Hm.
  rewrite IH.
  - unfold on_record. rewrite decide_False; [done|].
    apply (Hm k). by rewrite lookup_insert_eq.
  - intros k' r' Hk'. apply (Hm k'). rewrite lookup_insert_ne; [done|].
    intros <-. congruence.
Qed.

(** A step of the hub keeps the ledger within earnings. *)
Lemma store_step_bounded d d' q :
  store_step d d' →
  (∀ t, t ∈ WebsiteTicks d → is_Some (Validators d !! WebsiteTick.ValidatorID t)) →
  (∀ m req, m ∈ q → Body.asPayoutRequest (Publishing.Body m) = Some req →
            is_Some (Validators d !! PayoutRequest.ValidatorID req)) →
  payouts_reference d → within_earnings d q →
  payouts_reference d' ∧ within_earnings d' q.
Proof.
  intros Hstep Hfk Hrefs Hpay Hle.
  destruct Hstep as [|cb env msg|v0 Hfree Hzero]; [done| |].
  - destruct (callback_run_cases cb env msg d) as [->|(validate & _ & Hv & ->)];
      [done|].
    split.
    + intros k r Hr. rewrite recorded_Validators.
      specialize (Hpay k r Hr). case_decide; [by rewrite fmap_is_Some|done].
    + intros id v. rewrite recorded_Validators, recorded_WebsiteTicks.
      rewrite ticks_for_app, length_app, ticks_for_singleton. simpl.
      rewrite (paid_same id d (recorded cb env validate d) eq_refl).
      destruct (decide (ValidateIncoming.ValidatorID validate = id)) as [Hid|Hid].
      * destruct (Validators d !! id) as [v1|] eqn:Hv1; simpl; [|done].
        intros [= <-]. specialize (Hle id v1 Hv1). simpl.
        unfold COST_PER_VALIDATION in *. lia.
      * intros Hv1. specialize (Hle id v Hv1). lia.
  - split.
    + intros k r Hr. simpl in *. rewrite lookup_insert_is_Some.
      destruct (decide (Validator.ID v0 = PayoutTransaction.ValidatorID r));
        [by left|]. right. split; [done|]. by apply (Hpay k).
    + intros id v. simpl.
      rewrite (paid_same id d (set_Validators _ d) eq_refl).
      destruct (decide (Validator.ID v0 = id)) as [<-|Hne].
      * rewrite lookup_insert_eq. intros [= <-]. rewrite Hzero.
        rewrite ticks_for_nil, queued_unnamed, paid_unnamed; [simpl; lia|..].
        -- intros k r Hr Heq. apply Hpay in Hr as [? Hr]. rewrite Heq in Hr.
           congruence.
        -- intros m req Hm Hdec Heq. destruct (Hrefs m req Hm Hdec) as [? Hrow].
           rewrite Heq in Hrow. congruence.
        -- intros t Ht Heq. apply Hfk in Ht as [? Ht]. rewrite Heq in Ht.
           congruence.
      * rewrite lookup_insert_ne by done. apply Hle.
Qed.

(** A payout request without a fault after its publish moves the credit to
    the queue. *)
Lemma Request_bounded s env validatorID :
  clean (Request env validatorID) = true →
  ledger_bounded s →
  payouts_reference (db (hub (step s (Request env validatorID))))
  ∧ within_earnings (db (hub (step s (Request env validatorID))))
                    (queue (step s (Request env validatorID))).
Proof.
  intros Hclean (Hs & Hpay & Hle). simpl.
  destruct (RequestPayout_cases env validatorID
              (user.mkHandler (db (hub s)) (queue s)))
    as [[Hsame _]|(validator & Hv & Hpos & _ & Hpub
                   & [(_ & Hfault & _)|(Hrun & _ & _)])].
  - rewrite Hsame. by simpl.
  - simpl in Hclean. rewrite Hpub in Hclean. simpl in Hclean.
    destruct Hfault as [Hf|Hf]; rewrite Hf in Hclean;
      [done|by rewrite orb_true_r in Hclean].
  - rewrite Hrun. simpl in *. destruct Hs as (Hwf & _).
    pose proof (proj1 Hwf _ _ Hv) as Hid. rewrite Hid. split.
    + intros k r Hr. simpl in *. rewrite lookup_alter_is_Some. by apply (Hpay k).
    + intros id v. simpl. rewrite queued_snoc.
      rewrite (paid_same id (db (hub s))
                 (set_pending_payouts validatorID 0 (db (hub s))) eq_refl).
      destruct (decide (validatorID = id)) as [<-|Hne].
      * rewrite lookup_alter_eq, Hv. intros [= <-]. simpl.
        specialize (Hle _ _ Hv).
        unfold amount_for. simpl. rewrite decide_True by done. lia.
      * rewrite lookup_alter_ne by done. intros Hrow.
        specialize (Hle _ _ Hrow).
        unfold amount_for. simpl. rewrite decide_False by congruence. lia.
Qed.

(** The store after a delivery that opened the record [rec] for the first
    message of the queue and removed the message: the amount has moved to
    the credit, or to a completed record, or nowhere. *)
Lemma settled_bounded d d' m rest req k rec :
  payouts_reference d → within_earnings d (m :: rest) →
  Body.asPayoutRequest (Publishing.Body m) = Some req →
  (0 < PayoutRequest.Amount req)%Z →
  PayoutTransactions d !! k = None →
  is_Some (Validators d !! PayoutRequest.ValidatorID req) →
  WebsiteTicks d' = WebsiteTicks d →
  PayoutTransactions d' = <[k := rec]> (PayoutTransactions d) →
  PayoutTransaction.ValidatorID rec = PayoutRequest.ValidatorID req →
  PayoutTransaction.Amount rec = PayoutRequest.Amount req →
  (Validators d' = Validators d
   ∨ (PayoutTransaction.Status rec ≠ "completed"
      ∧ Validators d'
        = alter (λ v, Validator.with_PendingPayouts
                        (Validator.PendingPayouts v + PayoutRequest.Amount req) v)
                (PayoutRequest.ValidatorID req) (Validators d))) →
  payouts_reference d' ∧ within_earnings d' rest.
Proof.
  intros Hpay Hle Hdec Hpos Hfree Hv Hticks Hrecs Hid Hamount Hrows.
  assert (∀ id, is_Some (Validators d !! id) → is_Some (Validators d' !! id))
    as Hkeep.
  { intros id. destruct Hrows as [->|[_ ->]]; [done|].
    by rewrite lookup_alter_is_Some. }
  split.
  - intros k' r'. rewrite Hrecs.
    destruct (decide (k = k')) as [<-|Hne].
    + rewrite lookup_insert_eq. intros [= <-]. rewrite Hid. by apply Hkeep.
    + rewrite lookup_insert_ne by done. intros Hr'. apply Hkeep. by apply (Hpay k').
  - intros id v. rewrite Hticks, (paid_insert id d d' k rec Hfree Hrecs).
    assert (on_record id rec
            = if decide (PayoutRequest.ValidatorID req = id)
              then if decide (PayoutTransaction.Status rec = "completed")
                   then PayoutRequest.Amount req else 0%Z
              else 0%Z) as ->.
    { unfold on_record. by rewrite Hid, Hamount. }
    destruct Hrows as [->|[Hstatus ->]].
    + intros Hrow. specialize (Hle _ _ Hrow). rewrite queued_cons in Hle.
      destruct (decide (PayoutRequest.ValidatorID req = id)) as [<-|Hne].
      * rewrite (amount_for_same m req Hdec) in Hle. case_decide; lia.
      * rewrite (amount_for_other id m req Hdec Hne) in Hle. lia.
    + rewrite (decide_False (P := PayoutTransaction.Status rec = "completed"))
        by done.
      destruct (decide (PayoutRequest.ValidatorID req = id)) as [<-|Hne].
      * rewrite lookup_alter_eq.
        destruct (Validators d !! _) as [v0|] eqn:Hv0; simpl; [|done].
        intros [= <-]. specialize (Hle _ _ Hv0). simpl.
        rewrite queued_cons, (amount_for_same m req Hdec) in Hle. lia.
      * rewrite lookup_alter_ne by done. intros Hrow.
        specialize (Hle _ _ Hrow).
        rewrite queued_cons, (amount_for_other id m req Hdec Hne) in Hle. lia.
Qed.

(** A delivery whose acknowledgement reaches the broker moves the amount
    of its message from the queue to the credit (transfer not sent, refund
    run), to a completed record (transfer finalized, status update run), or
    nowhere. *)
Lemma Deliver_bounded s env :
  clean (Deliver env) = true →
  ledger_bounded s →
  payouts_reference (db (hub (step s (Deliver env))))
  ∧ within_earnings (db (hub (step s (Deliver env))))
                    (queue (step s (Deliver env))).
Proof.
  intros Hack%negb_true_iff ((Hwf & Hfk & Hrefs & Hcredit) & Hpay & Hle). simpl.
  rewrite Hack.
  destruct (queue s) as [|m rest] eqn:Hq; simpl; [by rewrite Hq|].
  assert (∀ r, Body.asPayoutRequest (Publishing.Body m) = Some r →
               (0 < PayoutRequest.Amount r)%Z) as Hpos.
  { intros r Hr. eapply Hrefs; [by left|done]. }
  destruct (processPayoutRequest_cases env
              (services.mkDelivery (Publishing.Body m))
              (services.mkPayoutWorker (db (hub s))))
    as [[Hdec ->]|(req & Hdec & [[Hcreate ->]|(Hfree & Hv & Hrest)])]; simpl in *.
  - split; [done|]. intros id v Hrow. specialize (Hle id v Hrow).
    rewrite queued_cons, amount_for_undecodable in Hle by done. lia.
  - done.
  - specialize (Hpos req Hdec).
    destruct Hrest as [(sig & err & _ & ->)|(signature & _ & [[_ ->]|[_ ->]])];
      simpl; unfold services.unchecked;
      destruct (services.status_update_fault env);
      [destruct (services.refund_fault env)
      |destruct (services.refund_fault env)| | | | ].
    + by apply (settled_bounded (db (hub s)) _ m rest req
                  (services.record_uuid env) (opened env req));
        try done; left.
    + apply (settled_bounded (db (hub s)) _ m rest req
               (services.record_uuid env) (opened env req)); try done.
      right. by split.
    + apply (settled_bounded (db (hub s)) _ m rest req
               (services.record_uuid env) (failed_record env req "" err));
        try done; [by simpl; rewrite alter_insert_eq|by left].
    + apply (settled_bounded (db (hub s)) _ m rest req
               (services.record_uuid env) (failed_record env req "" err));
        try done; [by simpl; rewrite alter_insert_eq|].
      right. by split.
    + by apply (settled_bounded (db (hub s)) _ m rest req
                  (services.record_uuid env) (opened env req));
        try done; left.
    + apply (settled_bounded (db (hub s)) _ m rest req
               (services.record_uuid env)
               (failed_record env req signature "Transaction confirmation timeout"));
        try done; [by simpl; rewrite alter_insert_eq|by left].
    + by apply (settled_bounded (db (hub s)) _ m rest req
                  (services.record_uuid env) (opened env req));
        try done; left.
    + apply (settled_bounded (db (hub s)) _ m rest req
               (services.record_uuid env)
               (PayoutTransaction.mk (services.record_uuid env)
                  (PayoutRequest.ValidatorID req) (PayoutRequest.Amount req)
                  "completed" signature ""
                  (services.clock env 0%nat) (services.clock env 2%nat)));
        try done; [by simpl; rewrite alter_insert_eq|by left].
Qed.

Lemma website_step_bounded s (h' : website.Handler) :
  Validators (website.db h') = Validators (db (hub s)) →
  WebsiteTicks (website.db h') = WebsiteTicks (db (hub s)) →
  PayoutTransactions (website.db h') = PayoutTransactions (db (hub s)) →
  ledger_bounded s →
  payouts_reference (website.db h') ∧ within_earnings (website.db h') (queue s).
Proof.
  intros Hv Ht Hp (_ & Hpay & Hle).
  unfold payouts_reference, within_earnings, paid. by rewrite Hv, Ht, Hp.
Qed.

Lemma CreateWebsite_keeps_payouts env userID body (h : website.Handler) :
  PayoutTransactions (website.db (fst (website.CreateWebsite env userID body h)))
  = PayoutTransactions (website.db h).
Proof.
  unfold website.CreateWebsite. destruct userID as [u|]; [|done].
  destruct body as [e|url]; [done|].
  unfold Create_Website. destruct (website.create_fault env); [done|]. simpl.
  by destruct (Websites (website.db h) !! website.uuid env).
Qed.

Lemma DeleteWebsite_keeps_payouts fault userID body (h : website.Handler) :
  PayoutTransactions (website.db (fst (website.DeleteWebsite fault userID body h)))
  = PayoutTransactions (website.db h).
Proof.
  unfold website.DeleteWebsite, website.disable_Website.
  destruct body as [e|id]; [done|]. destruct fault; [done|].
  destruct (Websites (website.db h) !! id) as [w|]; [|done].
  by case_bool_decide.
Qed.

Lemma step_bounded s ev :
  clean ev = true → ledger_bounded s → ledger_bounded (step s ev).
Proof.
  intros Hclean Hs. split; [apply step_sound; [done|by destruct Hs]|].
  destruct ev as [ev|env id|env|env u body|fault u body].
  - destruct Hs as ((Hwf & Hfk & Hrefs & Hcredit) & Hpay & Hle). simpl.
    apply (store_step_bounded (db (hub s))); [apply hub_step_store|done| |done..].
    intros m req Hm Hdec. by apply (Hrefs m req).
  - by apply Request_bounded.
  - by apply Deliver_bounded.
  - simpl. apply website_step_bounded; [| | |done].
    + apply (CreateWebsite_keeps env u body (website.mkHandler (db (hub s)))).
    + apply (CreateWebsite_keeps env u body (website.mkHandler (db (hub s)))).
    + apply (CreateWebsite_keeps_payouts env u body (website.mkHandler (db (hub s)))).
  - simpl. apply website_step_bounded; [| | |done].
    + apply (DeleteWebsite_keeps fault u body (website.mkHandler (db (hub s)))).
    + apply (DeleteWebsite_keeps fault u body (website.mkHandler (db (hub s)))).
    + apply (DeleteWebsite_keeps_payouts fault u body
               (website.mkHandler (db (hub s)))).
Qed.

Lemma run_bounded evs s :
  forallb clean evs = true → ledger_bounded s → ledger_bounded (run evs s).
Proof.
  revert s. induction evs as [|ev evs IH]; intros s Hclean Hs; [done|].
  simpl in *. apply andb_true_iff in Hclean as [Hev Hevs].
  apply IH; [done|]. by apply step_bounded.
Qed.

End Ledger.


(** The engine starts sound: no validator, no tick, nothing queued. *)
Lemma Cases_engine0_sound : engine_sound Cases.engine0.
Proof.
  split_and!.
  - apply Scenario_db0_well_formed.
  - intros t Ht. vm_compute in Ht. by apply elem_of_nil in Ht.
  - intros m req Hm. vm_compute in Hm. by apply elem_of_nil in Hm.
  - intros id v Hv. vm_compute in Hv. done.
Defined.

(** X24. Hub, API and payout worker over one store and one queue that is
    consumed with manual acknowledgement. Over any run in which no payout
    request is published and then fails to zero the credit, and in which
    the acknowledgement of every delivery reaches the broker (no message is
    delivered again after the worker has processed it), the ledger stays
    sound, whether or not the unchecked status updates and refunds of the
    worker run: identities stay well formed, every tick and every queued
    payout names an existing validator, every queued amount is positive, no
    credit is negative, and for every validator the credit on file plus the
    lamports queued for it never exceed [COST_PER_VALIDATION] times the
    ticks recorded for it. *)
Theorem engine_never_owes_more_than_earned
    (evs : list engine.Event) (s : engine.State) :
  engine_sound s →
  forallb engine.clean evs = true →
  engine_sound (engine.run evs s).
Proof. intros Hs Hclean. by apply run_sound. Qed.

Lemma engine_never_owes_more_than_earned_witness :
  engine_sound (engine.run Cases.engine_run Cases.engine0).
Proof.
  apply (engine_never_owes_more_than_earned Cases.engine_run Cases.engine0).
  - apply Cases_engine0_sound.
  - vm_compute. reflexivity.
Defined.

Section Accounts.
Import accounts.

Lemma First_User_by_email_Some email us u :
  First_User_by_email email us = Some u →
  User.Email u = email ∧ ∃ id, us !! id = Some u.
Proof.
  unfold First_User_by_email.
  destruct (list_find _ _) as [[i [id u']]|] eqn:Hfind; [|done].
  intros [= <-]. apply list_find_Some in Hfind as (Hi & Hemail & _).
  split; [done|]. exists id. apply elem_of_map_to_list.
  by eapply list_elem_of_lookup_2.
Qed.

Lemma First_User_by_email_None email us id u :
  First_User_by_email email us = None →
  us !! id = Some u → User.Email u ≠ email.
Proof.
  unfold First_User_by_email.
  destruct (list_find _ _) as [hit|] eqn:Hfind; [done|]. intros _ Hu.
  apply list_find_None in Hfind. rewrite Forall_forall in Hfind.
  apply (Hfind (id, u)). by apply elem_of_map_to_list.
Qed.

Lemma First_User_by_email_registered us id u :
  us !! id = Some u → is_Some (First_User_by_email (User.Email u) us).
Proof.
  intros Hu. destruct (First_User_by_email _ us) as [u'|] eqn:Hfind; [done|].
  by eapply First_User_by_email_None in Hfind.
Qed.

Lemma Create_User_Some fault u us us' :
  Create_User fault u us = Some us' →
  us' = <[User.ID u := u]> us
  ∧ us !! User.ID u = None
  ∧ ∀ id u0, us !! id = Some u0 → User.Email u0 ≠ User.Email u.
Proof.
  unfold Create_User. destruct fault; [done|].
  destruct (us !! User.ID u) eqn:Hid; [done|].
  destruct (First_User_by_email _ us) eqn:Hfind; [done|].
  intros [= <-]. split_and!; [done..|].
  intros id u0 Hu0. by eapply First_User_by_email_None.
Qed.

Lemma Create_User_well_formed fault u us us' :
  well_formed us → Create_User fault u us = Some us' → well_formed us'.
Proof.
  intros [Hkey Huniq] (-> & Hid & Hemail)%Create_User_Some. split.
  - intros id u0. destruct (decide (User.ID u = id)) as [<-|Hne].
    + rewrite lookup_insert_eq. by intros [= <-].
    + rewrite lookup_insert_ne; [|done]. apply Hkey.
  - intros id1 id2 u1 u2.
    destruct (decide (User.ID u = id1)) as [<-|Hne1];
      destruct (decide (User.ID u = id2)) as [<-|Hne2]; [done|..].
    + rewrite lookup_insert_eq, lookup_insert_ne; [|done].
      intros [= <-] Hu2 Heq. by apply Hemail in Hu2.
    + rewrite lookup_insert_ne, lookup_insert_eq; [|done].
      intros Hu1 [= <-] Heq. by apply Hemail in Hu1.
    + rewrite !lookup_insert_ne; [|done..]. apply Huniq.
Qed.

(** What a signup that is answered with a token has done. *)
Lemma Signup_created env email password h h' code token id email' :
  Signup env (Bind email password) h = (h', Token code token id email') →
  ∃ hashed,
    GenerateFromPassword env password = Some hashed
    ∧ id = uuid env ∧ email' = email
    ∧ JWTSecret h' = JWTSecret h
    ∧ Create_User (create_fault env) (User.mk (uuid env) email hashed) (users h)
      = Some (users h').
Proof.
  unfold Signup. destruct (_ && _); [done|].
  destruct (GenerateFromPassword env password) as [hashed|]; [|done].
  destruct (Create_User _ _ _) as [us|] eqn:Hcreate; [|done]. simpl.
  destruct (GenerateJWT env _ _); [|done].
  intros [= <- _ _ <- <-]. by exists hashed.
Qed.

End Accounts.

(** X25. An email that is on file never gets a second account: whatever
    the database faults, bcrypt and the token generator do, a signup with
    that email leaves the table as it was and is answered with an error,
    which is 409 "User already exists" when the lookup itself worked. *)
Theorem Signup_rejects_a_registered_email
    (env : accounts.Env) (email password : string) (h : accounts.Handler)
    (id : string) (u : User.t) :
  accounts.users h !! id = Some u →
  User.Email u = email →
  ∃ code message,
    accounts.Signup env (accounts.Bind email password) h
    = (h, accounts.ErrorResponse code message)
    ∧ (accounts.find_fault env = false →
       code = accounts.StatusConflict ∧ message = "User already exists").
Proof.
  intros Hu <-. pose proof (First_User_by_email_registered _ _ _ Hu) as Hreg.
  unfold accounts.Signup. destruct (accounts.find_fault env); simpl.
  - destruct (accounts.GenerateFromPassword env password) as [hashed|].
    + assert (accounts.Create_User (accounts.create_fault env)
                (User.mk (accounts.uuid env) (User.Email u) hashed)
                (accounts.users h) = None) as ->.
      { unfold accounts.Create_User. destruct (accounts.create_fault env); [done|].
        simpl. destruct (accounts.users h !! accounts.uuid env); [done|].
        by destruct Hreg as [u' ->]. }
      by eexists _, _.
    + by eexists _, _.
  - rewrite bool_decide_eq_true_2; [|done]. by eexists _, _.
Qed.

Lemma Signup_rejects_a_registered_email_witness :
  ∃ code message,
    accounts.Signup (Cases.accounts_env "U2")
      (accounts.Bind "a@example.com" "password2") Cases.accounts1
    = (Cases.accounts1, accounts.ErrorResponse code message)
    ∧ (accounts.find_fault (Cases.accounts_env "U2") = false →
       code = accounts.StatusConflict ∧ message = "User already exists").
Proof.
  apply (Signup_rejects_a_registered_email (Cases.accounts_env "U2")
           "a@example.com" "password2" Cases.accounts1 "U1"
           (User.mk "U1" "a@example.com" "$2a$password1")).
  - vm_compute. reflexivity.
  - reflexivity.
Defined.

(** X26. Signups and logins keep the account table keyed by [ID] with one
    row per email, and a login never writes. *)
Theorem accounts_stay_one_per_email
    (env : accounts.Env) (body : accounts.Bound) (h : accounts.Handler) :
  accounts.well_formed (accounts.users h) →
  accounts.well_formed (accounts.users (fst (accounts.Signup env body h)))
  ∧ fst (accounts.Login env body h) = h.
Proof.
  intros Hwf. split.
  - unfold accounts.Signup. destruct body as [e|email password]; [done|].
    destruct (_ && _); [done|].
    destruct (accounts.GenerateFromPassword env password) as [hashed|]; [|done].
    destruct (accounts.Create_User _ _ _) as [us|] eqn:Hcreate; [|done].
    simpl. apply (Create_User_well_formed _ _ _ _ Hwf) in Hcreate.
    by destruct (accounts.GenerateJWT env _ _).
  - unfold accounts.Login. destruct body as [e|email password]; [done|].
    destruct (if accounts.find_fault env then None else _) as [user|]; [|done].
    destruct (accounts.CompareHashAndPassword env _ _); [|done].
    by destruct (accounts.GenerateJWT env _ _).
Qed.

Lemma accounts_stay_one_per_email_witness :
  accounts.well_formed
    (accounts.users
       (fst (accounts.Signup (Cases.accounts_env "U1")
               (accounts.Bind "a@example.com" "password1") Cases.accounts0)))
  ∧ fst (accounts.Login (Cases.accounts_env "U1")
           (accounts.Bind "a@example.com" "password1") Cases.accounts0)
    = Cases.accounts0.
Proof.
  apply (accounts_stay_one_per_email (Cases.accounts_env "U1")
           (accounts.Bind "a@example.com" "password1") Cases.accounts0).
  split; intros *; simpl; by rewrite ?lookup_empty.
Defined.

(** X27. Signup and login compose: after a signup that was answered with a
    token, and with a bcrypt that accepts the password it hashed, a login
    with the same email and password finds the new account and is answered
    200 with a token for the same user id (or 500 when no token can be
    made), while a password bcrypt rejects is answered 401. The table is
    the one the signup left. *)
Theorem Signup_then_Login
    (env env' : accounts.Env) (email password attempt : string)
    (h h' : accounts.Handler) (code : Z) (token id email' : string) :
  accounts.Signup env (accounts.Bind email password) h
  = (h', accounts.Token code token id email') →
  accounts.find_fault env' = false →
  (∀ hashed, accounts.GenerateFromPassword env password = Some hashed →
             accounts.CompareHashAndPassword env' hashed attempt
             = bool_decide (attempt = password)) →
  accounts.Login env' (accounts.Bind email attempt) h'
  = (h',
     if bool_decide (attempt = password)
     then match accounts.GenerateJWT env' id (accounts.JWTSecret h) with
          | Some token' => accounts.Token accounts.StatusOK token' id email
          | None => accounts.ErrorResponse accounts.StatusInternalServerError
                      "Failed to generate token"
          end
     else accounts.ErrorResponse accounts.StatusUnauthorized "Invalid credentials").
Proof.
  intros (hashed & Hhash & -> & -> & Hsecret & Hcreate)%Signup_created Hfind Hbcrypt.
  apply Create_User_Some in Hcreate as (Hus & Hid & Hemail). simpl in *.
  assert (accounts.First_User_by_email email (accounts.users h')
          = Some (User.mk (accounts.uuid env) email hashed)) as Hfirst.
  { destruct (accounts.First_User_by_email email (accounts.users h')) as [u|] eqn:Hu.
    - apply First_User_by_email_Some in Hu as [Hmail [id Hu]].
      rewrite Hus in Hu. destruct (decide (accounts.uuid env = id)) as [<-|Hne].
      + rewrite lookup_insert_eq in Hu. congruence.
      + rewrite lookup_insert_ne in Hu; [|done]. by apply Hemail in Hu.
    - apply (First_User_by_email_None _ _ (accounts.uuid env)
               (User.mk (accounts.uuid env) email hashed)) in Hu; [done|].
      rewrite Hus. by rewrite lookup_insert_eq. }
  unfold accounts.Login. rewrite Hfind, Hfirst. simpl.
  rewrite (Hbcrypt _ Hhash), Hsecret.
  case_bool_decide; [|done].
  by destruct (accounts.GenerateJWT env' _ _).
Qed.

Lemma Signup_then_Login_witness :
  accounts.Login (Cases.accounts_env "U1")
    (accounts.Bind "a@example.com" "password1") Cases.accounts1
  = (Cases.accounts1,
     if bool_decide ("password1" = "password1")
     then match accounts.GenerateJWT (Cases.accounts_env "U1") "U1"
                  (accounts.JWTSecret Cases.accounts0) with
          | Some token' =>
            accounts.Token accounts.StatusOK token' "U1" "a@example.com"
          | None => accounts.ErrorResponse accounts.StatusInternalServerError
                      "Failed to generate token"
          end
     else accounts.ErrorResponse accounts.StatusUnauthorized "Invalid credentials").
Proof.
  apply (Signup_then_Login (Cases.accounts_env "U1") (Cases.accounts_env "U1")
           "a@example.com" "password1" "password1"
           Cases.accounts0 Cases.accounts1
           accounts.StatusCreated "jwt.U1" "U1" "a@example.com").
  - vm_compute. reflexivity.
  - reflexivity.
  - intros hashed [= <-]. vm_compute. reflexivity.
Defined.

(** X28. Completed payouts stay within earnings. Over any run of the hub,
    the API and the payout worker in which no payout request is published
    and then fails to zero the credit, and in which the acknowledgement of
    every delivery reaches the broker, the credit on file, plus the
    lamports queued, plus the lamports of the payout records marked
    [completed], stay within [COST_PER_VALIDATION] times the ticks recorded
    for the validator, and every payout record names an existing
    validator. The unchecked status updates and refunds may fail at will:
    a failure only loses credit or leaves a record unmarked. *)
Theorem payouts_never_exceed_earnings
    (evs : list engine.Event) (s : engine.State) :
  ledger_bounded s →
  forallb engine.clean evs = true →
  payouts_reference (db (engine.hub (engine.run evs s)))
  ∧ ∀ id v,
      Validators (db (engine.hub (engine.run evs s))) !! id = Some v →
      (Validator.PendingPayouts v
       + engine.queued id (engine.queue (engine.run evs s))
       + paid id (db (engine.hub (engine.run evs s)))
       ≤ COST_PER_VALIDATION
         * Z.of_nat (length (ticks_for id
                               (WebsiteTicks (db (engine.hub (engine.run evs s)))))))%Z.
Proof.
  intros Hs Hclean.
  destruct (run_bounded evs s Hclean Hs) as (_ & Hpay & Hle). by split.
Qed.

Lemma payouts_never_exceed_earnings_witness :
  payouts_reference (db (engine.hub (engine.run Cases.engine_run Cases.engine0)))
  ∧ ∀ id v,
      Validators (db (engine.hub (engine.run Cases.engine_run Cases.engine0))) !! id
      = Some v →
      (Validator.PendingPayouts v
       + engine.queued id (engine.queue (engine.run Cases.engine_run Cases.engine0))
       + paid id (db (engine.hub (engine.run Cases.engine_run Cases.engine0)))
       ≤ COST_PER_VALIDATION
         * Z.of_nat (length (ticks_for id
                               (WebsiteTicks
                                  (db (engine.hub
                                         (engine.run Cases.engine_run
                                                     Cases.engine0)))))))%Z.
Proof.
  apply (payouts_never_exceed_earnings Cases.engine_run Cases.engine0).
  - split; [apply Cases_engine0_sound|split].
    + intros k r Hr. vm_compute in Hr. done.
    + intros id v Hv. vm_compute in Hv. done.
  - vm_compute. reflexivity.
Defined.

(** In that run the bound is reached: V1 was paid its one reward and has
    nothing left, V2 has its one reward in the queue; the record of the
    first delivery was never marked. *)
Example Cases_engine_run_ledger :
  let s := engine.run Cases.engine_run Cases.engine0 in
  (Validator.PendingPayouts <$> Validators (db (engine.hub s)) !! "V1",
   engine.queued "V1" (engine.queue s), paid "V1" (db (engine.hub s)),
   length (ticks_for "V1" (WebsiteTicks (db (engine.hub s)))))
  = (Some 0%Z, 0%Z, 100%Z, 1%nat)
  ∧ (Validator.PendingPayouts <$> Validators (db (engine.hub s)) !! "V2",
     engine.queued "V2" (engine.queue s), paid "V2" (db (engine.hub s)),
     length (ticks_for "V2" (WebsiteTicks (db (engine.hub s)))))
    = (Some 0%Z, 100%Z, 0%Z, 1%nat)
  ∧ PayoutTransaction.Status
      <$> PayoutTransactions (db (engine.hub s)) !! "P1" = Some "processing"
  ∧ PayoutTransaction.Status
      <$> PayoutTransactions (db (engine.hub s)) !! "P2" = Some "completed".
Proof. by_evaluation. Qed.

(** X29. The worker has no duplicate check. When the rejection of a message
    whose transfer was not submitted does not reach the broker, the message
    is delivered again; when the transfer of the second delivery is not
    submitted either, the amount is added to the credit a second time. One
    payout request then leaves the validator with its credit before the
    deliveries plus twice the requested amount. *)
Theorem redelivery_re_credits_twice
    (s : engine.State) (m : Publishing.t) (rest : list Publishing.t)
    (req : PayoutRequest.t) (env1 env2 : services.WorkerEnv)
    (sig1 err1 sig2 err2 : string) :
  engine.queue s = m :: rest →
  Body.asPayoutRequest (Publishing.Body m) = Some req →
  is_Some (Validators (db (engine.hub s)) !! PayoutRequest.ValidatorID req) →
  services.record_create_fault env1 = false →
  PayoutTransactions (db (engine.hub s)) !! services.record_uuid env1 = None →
  services.executeSolanaTransfer env1 (PayoutRequest.PublicKey req)
                                 (PayoutRequest.Amount req)
  = (sig1, Some err1) →
  services.refund_fault env1 = false →
  services.ack_fault env1 = true →
  services.record_create_fault env2 = false →
  PayoutTransactions (db (engine.hub s)) !! services.record_uuid env2 = None →
  services.record_uuid env2 ≠ services.record_uuid env1 →
  services.executeSolanaTransfer env2 (PayoutRequest.PublicKey req)
                                 (PayoutRequest.Amount req)
  = (sig2, Some err2) →
  services.refund_fault env2 = false →
  services.ack_fault env2 = false →
  let s1 := engine.step s (engine.Deliver env1) in
  let s2 := engine.step s1 (engine.Deliver env2) in
  engine.queue s1 = m :: rest
  ∧ pending_of (PayoutRequest.ValidatorID req) (db (engine.hub s1))
    = (λ credit, credit + PayoutRequest.Amount req)%Z
        <$> pending_of (PayoutRequest.ValidatorID req) (db (engine.hub s))
  ∧ engine.queue s2 = rest
  ∧ pending_of (PayoutRequest.ValidatorID req) (db (engine.hub s2))
    = (λ credit, credit + 2 * PayoutRequest.Amount req)%Z
        <$> pending_of (PayoutRequest.ValidatorID req) (db (engine.hub s)).
Proof.
  intros Hq Hdec Hv Hcreate1 Hfree1 Hexec1 Hrefund1 Hack1
         Hcreate2 Hfree2 Hne Hexec2 Hrefund2 Hack2 s1 s2.
  assert (s1 = engine.mkState
                 (engine.set_db
                    (add_pending_payouts (PayoutRequest.ValidatorID req)
                       (PayoutRequest.Amount req)
                       (services.unchecked (services.status_update_fault env1)
                          (services.mark_failed (services.record_uuid env1) err1
                             (services.clock env1 2%nat))
                          (set_PayoutTransactions
                             (<[services.record_uuid env1 := opened env1 req]>
                                (PayoutTransactions (db (engine.hub s))))
                             (db (engine.hub s)))))
                    (engine.hub s))
                 (m :: rest)) as Hs1.
  { subst s1. unfold engine.step. rewrite Hq.
    rewrite (processPayoutRequest_not_submitted env1 _ req _ sig1 err1) by done.
    by rewrite Hrefund1, Hack1. }
  assert (pending_of (PayoutRequest.ValidatorID req) (db (engine.hub s1))
          = (λ credit, credit + PayoutRequest.Amount req)%Z
              <$> pending_of (PayoutRequest.ValidatorID req) (db (engine.hub s)))
    as Hcredit1.
  { rewrite Hs1. unfold pending_of, services.unchecked. simpl.
    destruct (services.status_update_fault env1); simpl;
      rewrite lookup_alter_eq;
      by destruct (Validators (db (engine.hub s)) !! _). }
  assert (PayoutTransactions (db (engine.hub s1)) !! services.record_uuid env2 = None)
    as Hfree2'.
  { rewrite Hs1. unfold services.unchecked. simpl.
    destruct (services.status_update_fault env1); simpl.
    - by rewrite lookup_insert_ne.
    - by rewrite lookup_alter_ne, lookup_insert_ne. }
  assert (is_Some (Validators (db (engine.hub s1)) !! PayoutRequest.ValidatorID req))
    as Hv'.
  { rewrite Hs1. unfold services.unchecked. simpl.
    destruct (services.status_update_fault env1); simpl;
      by rewrite lookup_alter_is_Some. }
  assert (engine.queue s1 = m :: rest) as Hq1 by (by rewrite Hs1).
  split_and!; [done|done|..]; subst s2; unfold engine.step; rewrite Hq1;
    rewrite (processPayoutRequest_not_submitted env2
               (services.mkDelivery (Publishing.Body m)) req
               (services.mkPayoutWorker (db (engine.hub s1))) sig2 err2) by done;
    rewrite Hrefund2, Hack2; [done|].
  unfold pending_of in *. unfold services.unchecked. simpl.
  destruct (services.status_update_fault env2); simpl;
    rewrite lookup_alter_eq;
    destruct (Validators (db (engine.hub s1)) !! _) as [v1|];
    destruct (Validators (db (engine.hub s)) !! _) as [v|];
    simplify_eq/=; try done; f_equal; lia.
Qed.

Lemma redelivery_re_credits_twice_witness :
  let s1 := engine.step Cases.engine_queued (engine.Deliver Cases.not_sent_ack_lost) in
  let s2 := engine.step s1 (engine.Deliver Cases.not_sent_again) in
  engine.queue s1 = [Scenario.message]
  ∧ pending_of "V1" (db (engine.hub s1))
    = (λ credit, credit + 100)%Z
        <$> pending_of "V1" (db (engine.hub Cases.engine_queued))
  ∧ engine.queue s2 = []
  ∧ pending_of "V1" (db (engine.hub s2))
    = (λ credit, credit + 2 * 100)%Z
        <$> pending_of "V1" (db (engine.hub Cases.engine_queued)).
Proof.
  apply (redelivery_re_credits_twice Cases.engine_queued Scenario.message []
           (PayoutRequest.mk "V1" 100 "PK1")
           Cases.not_sent_ack_lost Cases.not_sent_again
           "" "failed to send transaction: connection refused"
           "" "failed to send transaction: connection refused").
  - vm_compute. reflexivity.
  - reflexivity.
  - vm_compute. eexists. reflexivity.
  - reflexivity.
  - vm_compute. reflexivity.
  - reflexivity.
  - reflexivity.
  - reflexivity.
  - reflexivity.
  - vm_compute. reflexivity.
  - discriminate.
  - reflexivity.
  - reflexivity.
  - reflexivity.
Defined.

(** On the scenario: V1 earned one reward of 100 lamports, asked for its
    payout, and after the redelivery holds a credit of 200 for its one
    tick. *)
Example Cases_redelivery :
  let s2 := engine.run [engine.Deliver Cases.not_sent_ack_lost;
                        engine.Deliver Cases.not_sent_again]
                       Cases.engine_queued in
  pending_of "V1" Scenario.earned = Some 100%Z
  ∧ pending_of "V1" (db (engine.hub Cases.engine_queued)) = Some 0%Z
  ∧ pending_of "V1" (db (engine.hub s2)) = Some 200%Z
  ∧ length (ticks_for "V1" (WebsiteTicks (db (engine.hub s2)))) = 1%nat
  ∧ engine.queue s2 = [].
Proof. by_evaluation. Qed.
